(** * AI-Novelist: the bounded loops of the pipeline

    A shallow embedding of
      - [ai_novelist/perform_experiments.py]: [run_experiment] and
        [perform_experiments] (the run/fix loop),
      - [ai_novelist/generate_ideas.py]: [generate_ideas] (the reflection loop),
      - [launch_novelist.py]: the experiment stage of [do_idea].

    Python code that raises is modelled by a result type with an explicit
    exception value; code that talks to the outside world (the coding
    assistant, the child process, the language model) is modelled by state
    passing over an environment whose external parts are parameters. *)

From Stdlib Require Import ZArith Lia Sorted.
From stdpp Require Import base gmap strings pretty list.

Local Open Scope Z_scope.

(** ** Python values *)

(** The exceptions the modelled code can see.  All of them are subclasses of
    Python's [Exception]; [OtherError] stands for any further [Exception]
    raised by an external collaborator. *)
Inductive Exn : Type :=
| AssertionError (msg : string)
| FileNotFoundError (path : string)
| NotADirectoryError (path : string)
| IsADirectoryError (path : string)
| JSONDecodeError
| KeyError (key : string)
| TypeError
| UnboundLocalError (name : string)
| ValueError (msg : string)
| OtherError (msg : string).

(** The outcome of running a piece of Python: a value, a raised exception, or
    [Diverge] when the fuel of a loop ran out (shown never to happen). *)
Inductive Res (A : Type) : Type :=
| Ok (a : A)
| Raise (e : Exn)
| Diverge.
Arguments Ok {A} a.
Arguments Raise {A} e.
Arguments Diverge {A}.

(** What a call to an external collaborator comes back with. *)
Inductive Reply (A : Type) : Type :=
| Returned (a : A)
| Raised (e : Exn).
Arguments Returned {A} a.
Arguments Raised {A} e.

Definition of_reply {A} (r : Reply A) : Res A :=
  match r with
  | Returned a => Ok a
  | Raised e => Raise e
  end.

(** A decoded JSON document, as [json.load] returns it. *)
#[local] Unset Elimination Schemes.
Inductive Json : Type :=
| JNull
| JBool (b : bool)
| JNum (lexeme : string)
| JStr (s : string)
| JArr (items : list Json)
| JObj (members : list (string * Json)).
#[local] Set Elimination Schemes.

(** Iterating a decoded value with [for x in v]: a list yields its items, a
    dict its keys, a string its characters; the other values are not
    iterable. *)
Fixpoint chars (s : string) : list Json :=
  match s with
  | EmptyString => []
  | String c t => JStr (String c EmptyString) :: chars t
  end.

Definition py_iter (v : Json) : option (list Json) :=
  match v with
  | JArr items => Some items
  | JObj members => Some (map (fun kv => JStr (fst kv)) members)
  | JStr s => Some (chars s)
  | _ => None
  end.

(** ** Strings *)

(** [needle in hay] on Python strings. *)
Fixpoint contains (needle hay : string) : bool :=
  if String.prefix needle hay then true
  else match hay with
       | EmptyString => false
       | String _ t => contains needle t
       end.

(** [s[n:]] for [0 <= n]. *)
Fixpoint drop_str (n : nat) (s : string) : string :=
  match n, s with
  | O, _ => s
  | S k, EmptyString => EmptyString
  | S k, String _ t => drop_str k t
  end.

(** [s[-n:]] for [0 < n]: the last [n] characters, all of [s] when it is
    shorter. *)
Definition last_chars (n : nat) (s : string) : string :=
  drop_str (String.length s - n) s.

Lemma length_drop_str (n : nat) (s : string) :
  String.length (drop_str n s) = (String.length s - n)%nat.
Proof.
  revert s; induction n as [|n IH]; intros [|c t]; simpl; auto with lia.
Qed.

Lemma drop_str_split (n : nat) (s : string) :
  exists dropped, s = dropped +:+ drop_str n s
                  /\ String.length dropped = Nat.min n (String.length s).
Proof.
  revert s; induction n as [|n IH]; intros s.
  - exists EmptyString. split; reflexivity.
  - destruct s as [|c t].
    + exists EmptyString. split; reflexivity.
    + destruct (IH t) as (d & Hd & Hl). exists (String c d). split.
      * cbn [drop_str]. change (String c d +:+ drop_str n t)
          with (String c (d +:+ drop_str n t)). congruence.
      * simpl. lia.
Qed.

(** The last [n] characters of a string that has at least [n]: exactly [n]
    characters, and the string is what was dropped followed by them. *)
Lemma last_chars_spec (n : nat) (s : string) :
  (n <= String.length s)%nat ->
  String.length (last_chars n s) = n
  /\ exists dropped, s = dropped +:+ last_chars n s
                     /\ String.length dropped = (String.length s - n)%nat.
Proof.
  intros Hn. unfold last_chars. split.
  - rewrite length_drop_str. lia.
  - destruct (drop_str_split (String.length s - n) s) as (d & Hd & Hl).
    exists d. split; [exact Hd | lia].
Qed.

(** [sep.join(items)]. *)
Fixpoint str_join (sep : string) (items : list string) : string :=
  match items with
  | [] => EmptyString
  | [x] => x
  | x :: rest => x +:+ sep +:+ str_join sep rest
  end.

Definition ends_with_slash (s : string) : bool :=
  bool_decide (last_chars 1 s = "/").

(** [os.path.join(a, b)] on POSIX. *)
Definition osp_join (a b : string) : string :=
  if String.prefix "/" b then b
  else if bool_decide (a = EmptyString) || ends_with_slash a then a +:+ b
  else a +:+ "/" +:+ b.

(** ** The file system *)

Inductive Node : Type :=
| File (content : string)
| Dir.

(** Paths are keys as the program spells them. *)
Abbreviation FS := (gmap string Node).

(** [k] is [p] or lies below it. *)
Definition in_tree (p k : string) : bool :=
  bool_decide (k = p) || String.prefix (p +:+ "/") k.

Definition remove_tree (p : string) (fs : FS) : FS :=
  filter (fun kv => in_tree p (fst kv) = false) fs.

Lemma lookup_remove_tree (p k : string) (fs : FS) :
  remove_tree p fs !! k = if in_tree p k then None else fs !! k.
Proof.
  unfold remove_tree. rewrite map_lookup_filter.
  destruct (fs !! k) as [x|]; simpl.
  - destruct (in_tree p k) eqn:E.
    + rewrite option_guard_False; [reflexivity | simpl; congruence].
    + rewrite option_guard_True; [reflexivity | simpl; congruence].
  - destruct (in_tree p k); reflexivity.
Qed.

Lemma in_tree_refl (p : string) : in_tree p p = true.
Proof. unfold in_tree. rewrite bool_decide_eq_true_2; reflexivity. Qed.

(** ** State and exceptions *)

Section Monad.
Context {S : Type}.

Definition M (A : Type) : Type := S -> Res A * S.

Definition ret {A} (a : A) : M A := fun s => (Ok a, s).
Definition raise {A} (e : Exn) : M A := fun s => (Raise e, s).

Definition bind {A B} (m : M A) (k : A -> M B) : M B :=
  fun s =>
    match m s with
    | (Ok a, s') => k a s'
    | (Raise e, s') => (Raise e, s')
    | (Diverge, s') => (Diverge, s')
    end.

(** [try: m  except Exception as e: h e]. *)
Definition try_except {A} (m : M A) (h : Exn -> M A) : M A :=
  fun s =>
    match m s with
    | (Raise e, s') => h e s'
    | r => r
    end.

Definition gets {A} (f : S -> A) : M A := fun s => (Ok (f s), s).
Definition modify (f : S -> S) : M unit := fun s => (Ok tt, f s).

End Monad.
Arguments M : clear implicits.

Lemma bind_ok_inv {S A B} (m : M S A) (k : A -> M S B) s b s' :
  bind m k s = (Ok b, s') ->
  exists a s1, m s = (Ok a, s1) /\ k a s1 = (Ok b, s').
Proof.
  unfold bind. destruct (m s) as [[a|e|] s1]; intros H; try discriminate.
  exists a, s1. auto.
Qed.

Lemma bind_eq_ok {S A B} (m : M S A) (k : A -> M S B) s a s1 :
  m s = (Ok a, s1) -> bind m k s = k a s1.
Proof. unfold bind. intros ->. reflexivity. Qed.

Lemma bind_eq_raise {S A B} (m : M S A) (k : A -> M S B) s e s1 :
  m s = (Raise e, s1) -> bind m k s = (Raise e, s1).
Proof. unfold bind. intros ->. reflexivity. Qed.

(** [m] never changes the component [proj] of the state, whatever it returns
    or raises. *)
Definition preserves {S A B} (proj : S -> B) (m : M S A) : Prop :=
  forall s, proj (snd (m s)) = proj s.

Lemma preserves_ret {S A B} (proj : S -> B) (a : A) :
  preserves proj (ret (S := S) a).
Proof. intros s. reflexivity. Qed.

Lemma preserves_raise {S A B} (proj : S -> B) (e : Exn) :
  preserves proj (raise (S := S) (A := A) e).
Proof. intros s. reflexivity. Qed.

Lemma preserves_gets {S A B} (proj : S -> B) (f : S -> A) :
  preserves proj (gets f).
Proof. intros s. reflexivity. Qed.

Lemma preserves_bind {S A A' B} (proj : S -> B) (m : M S A) (k : A -> M S A') :
  preserves proj m -> (forall a, preserves proj (k a)) ->
  preserves proj (bind m k).
Proof.
  intros Hm Hk s. unfold bind. specialize (Hm s).
  destruct (m s) as [[a| |] s1]; simpl in Hm; try exact Hm.
  rewrite Hk. exact Hm.
Qed.

Lemma bind_preserves_tail {S A A' B} (proj : S -> B) (m : M S A)
  (k : A -> M S A') s :
  (forall a, preserves proj (k a)) ->
  proj (snd (bind m k s)) = proj (snd (m s)).
Proof.
  intros Hk. unfold bind.
  destruct (m s) as [[a| |] s1]; simpl; try reflexivity. apply Hk.
Qed.

(** [m] never runs out of fuel. *)
Definition total {S A} (m : M S A) : Prop :=
  forall s, fst (m s) <> Diverge.

Lemma total_ret {S A} (a : A) : total (ret (S := S) a).
Proof. intros s. discriminate. Qed.

Lemma total_raise {S A} (e : Exn) : total (raise (S := S) (A := A) e).
Proof. intros s. discriminate. Qed.

Lemma total_modify {S} (f : S -> S) : total (modify f).
Proof. intros s. discriminate. Qed.

Lemma total_bind {S A B} (m : M S A) (k : A -> M S B) :
  total m -> (forall a, total (k a)) -> total (bind m k).
Proof.
  intros Hm Hk s. unfold bind. specialize (Hm s).
  destruct (m s) as [[a| |] s1]; simpl in *; try discriminate.
  - apply Hk.
  - contradiction.
Qed.

Declare Scope py_scope.
Delimit Scope py_scope with py.
Notation "x <- m ;; k" := (bind m (fun x => k))
  (at level 100, m at next level, right associativity) : py_scope.
Notation "m ;; k" := (bind m (fun _ => k))
  (at level 100, right associativity) : py_scope.
Local Open Scope py_scope.

(** * [ai_novelist/perform_experiments.py] *)

Module PerformExperiments.

Definition MAX_ITERS : Z := 3.
Definition MAX_RUNS : Z := 3.
Definition MAX_STDERR_OUTPUT : nat := 1500.

(** What [subprocess.run(command, cwd=..., stderr=PIPE, text=True,
    timeout=...)] does: the child exits with a return code and its captured
    standard error, the timeout elapses ([TimeoutExpired] is raised), or the
    launch itself raises. *)
Inductive ProcOutcome : Type :=
| Completed (returncode : Z) (stderr : string)
| TimeoutExpired
| SpawnError (e : Exn).

(** The two console streams the program prints to. *)
Inductive Stream : Type :=
| Stdout
| Stderr.

(** The calls to the outside world, recorded in the order they are made. *)
Inductive Event : Type :=
| CoderRun (prompt : string)
| RunExperiment (run_num : Z).

Definition is_run_event (e : Event) : bool :=
  match e with
  | RunExperiment _ => true
  | CoderRun _ => false
  end.

(** The number of [run_experiment] invocations in a trace. *)
Definition runs_launched (t : list Event) : nat :=
  length (filter (fun e => is_run_event e = true) t).

(** The local variables of [perform_experiments]; [results] is unbound
    ([None]) until [run_experiment] has returned once. *)
Record Locals : Type := mkLocals {
  current_iter : Z;
  run : Z;
  next_prompt : string;
  results : option Json
}.

Inductive Flow : Type :=
| Continue (l : Locals)
| Break (l : Locals).

Section Experiments.

(** The state of the external collaborators (the coding assistant's session,
    whatever decides what the child process does). *)
Variable Ext : Type.

Record St : Type := mkSt {
  fs : FS;
  ext : Ext;
  trace : list Event;
  console : list (Stream * string)
}.

(** [coder.run(prompt)]: the assistant may edit files and replies with text. *)
Variable coder_run : string -> FS * Ext -> Reply string * (FS * Ext).
(** [subprocess.run(command, cwd, timeout)]. *)
Variable subprocess_run :
  list string -> string -> Z -> FS * Ext -> ProcOutcome * (FS * Ext).
(** [json.load] on a file's contents; [None] is [JSONDecodeError]. *)
Variable json_loads : string -> option Json.
(** [str(v)], as an f-string or [str.format] renders a value. *)
Variable py_str : Json -> string.

Definition set_fs (f : FS -> FS) (s : St) : St :=
  mkSt (f (fs s)) (ext s) (trace s) (console s).

Definition log (e : Event) : M St unit :=
  modify (fun s => mkSt (fs s) (ext s) (trace s ++ [e]) (console s)).

(** [print(text)] and [print(text, file=sys.stderr)]. *)
Definition print_to (stream : Stream) (text : string) : M St unit :=
  modify (fun s =>
    mkSt (fs s) (ext s) (trace s) (console s ++ [(stream, text)])).

Definition print (text : string) : M St unit := print_to Stdout text.

Definition diverge {A} : M St A := fun s => (Diverge, s).

(** [osp.exists(p)]. *)
Definition path_exists (p : string) : M St bool :=
  gets (fun s => bool_decide (is_Some (fs s !! p))).

(** [shutil.rmtree(p)]. *)
Definition rmtree (p : string) : M St unit :=
  fun s =>
    match fs s !! p with
    | Some Dir => (Ok tt, set_fs (remove_tree p) s)
    | Some (File _) => (Raise (NotADirectoryError p), s)
    | None => (Raise (FileNotFoundError p), s)
    end.

(** [open(p, "r").read()]. *)
Definition read_text (p : string) : M St string :=
  fun s =>
    match fs s !! p with
    | Some (File c) => (Ok c, s)
    | Some Dir => (Raise (IsADirectoryError p), s)
    | None => (Raise (FileNotFoundError p), s)
    end.

Fixpoint basename (s : string) : string :=
  match s with
  | EmptyString => EmptyString
  | String _ t => if contains "/" s then basename t else s
  end.

(** [shutil.copy(src, dst)]: into [dst] when it is a directory. *)
Definition shutil_copy (src dst : string) : M St unit :=
  c <- read_text src ;;
  modify (fun s =>
    match fs s !! dst with
    | Some Dir => set_fs (insert (osp_join dst (basename src)) (File c)) s
    | _ => set_fs (insert dst (File c)) s
    end).

(** [with open(p) as f: json.load(f)]. *)
Definition load_json (p : string) : M St Json :=
  c <- read_text p ;;
  match json_loads c with
  | Some v => ret v
  | None => raise JSONDecodeError
  end.

Definition run_subprocess (command : list string) (cwd : string) (timeout : Z)
  : M St ProcOutcome :=
  fun s =>
    let '(o, (fs', ext')) := subprocess_run command cwd timeout (fs s, ext s) in
    (Ok o, mkSt fs' ext' (trace s) (console s)).

Definition run_coder (prompt : string) : M St string :=
  log (CoderRun prompt) ;;
  fun s =>
    let '(r, (fs', ext')) := coder_run prompt (fs s, ext s) in
    (of_reply r, mkSt fs' ext' (trace s) (console s)).

(** [run_{run_num}] under [cwd]. *)
Definition run_dir (cwd : string) (run_num : Z) : string :=
  osp_join cwd ("run_" +:+ pretty run_num).

(** The stderr text as the failure prompt embeds it (lines 70-72). *)
Definition truncate_stderr (stderr_output : string) : string :=
  if (MAX_STDERR_OUTPUT <? String.length stderr_output)%nat
  then "..." +:+ last_chars MAX_STDERR_OUTPUT stderr_output
  else stderr_output.

Definition failure_prompt (stderr : string) : string :=
  "Run failed with the following error " +:+ truncate_stderr stderr.

Definition timeout_prompt (timeout : Z) : string :=
  "Run timed out after " +:+ pretty timeout +:+ " seconds".

Definition completed_prompt (run_num : Z) (results : Json) : string :=
  "Run " +:+ pretty run_num +:+ " completed. Here are the results:
" +:+ py_str results +:+ "

Decide if you need to re-plan your experiments given the result (you often will not need to).

Someone else will be using `notes.txt` to perform a writeup on this in the future.
Please include *all* relevant information for the writeup on Run "
  +:+ pretty run_num +:+
  ", including an experiment description and the run number. Be as verbose as necessary.

Then, implement the next thing on your list.
We will then run the command `python experiment.py --out_dir=run_"
  +:+ pretty (run_num + 1) +:+ "'.
YOUR PROPOSED CHANGE MUST USE THIS COMMAND FORMAT, DO NOT ADD ADDITIONAL COMMAND LINE ARGS.
If you are finished with experiments, respond with 'ALL_COMPLETED'.".

(** The clean-up both failure branches share (lines 67-68 and 93-94). *)
Definition remove_run_dir (cwd : string) (run_num : Z) : M St unit :=
  e <- path_exists (run_dir cwd run_num) ;;
  if e then rmtree (run_dir cwd run_num) else ret tt.

(** Lines 42-60 of [run_experiment]: the snapshot of the code and the launch
    of the child. *)
Definition launch (folder_name : string) (run_num : Z) (timeout : Z)
  : M St ProcOutcome :=
  log (RunExperiment run_num) ;;
  let cwd := "./" +:+ folder_name in
  shutil_copy (osp_join folder_name "experiment.py")
              (osp_join folder_name ("run_" +:+ pretty run_num +:+ ".py")) ;;
  let command :=
    ["python"; "experiment.py"; "--out_dir=run_" +:+ pretty run_num] in
  run_subprocess command cwd timeout.

(** [run_experiment(folder_name, run_num, timeout)]. *)
Definition run_experiment (folder_name : string) (run_num : Z) (timeout : Z)
  : M St (Z * string * Json) :=
  let cwd := "./" +:+ folder_name in
  let results := JObj [] in
  o <- launch folder_name run_num timeout ;;
  match o with
  | Completed returncode stderr =>
      (if bool_decide (stderr <> EmptyString)
       then print_to Stderr stderr else ret tt) ;;
      if bool_decide (returncode <> 0) then
        print ("Run " +:+ pretty run_num +:+ " failed with return code "
               +:+ pretty returncode) ;;
        remove_run_dir cwd run_num ;;
        print ("Run failed with the following error " +:+ stderr) ;;
        ret (returncode, failure_prompt stderr, results)
      else
        results <- load_json (osp_join (run_dir cwd run_num) "results.json") ;;
        ret (returncode, completed_prompt run_num results, results)
  | TimeoutExpired =>
      print ("Run " +:+ pretty run_num +:+ " timed out after "
             +:+ pretty timeout +:+ " seconds") ;;
      remove_run_dir cwd run_num ;;
      ret (1, timeout_prompt timeout, results)
  | SpawnError e => raise e
  end.

(** [idea[key]]. *)
Definition getitem (idea : gmap string Json) (key : string) : M St Json :=
  match idea !! key with
  | Some v => ret v
  | None => raise (KeyError key)
  end.

Definition coder_prompt_format
  (narrative_perspective theme novel_structure_models target_demographics
   core_connection unique_hook protagonist_choice tone_and_style
   world_expansion fan_service max_runs : string) : string :=
  "
The editor has devised the Overall Vision for the spin-off novel.
For each item listed below, create step-by-step responses and utilize them in the improvement process.
Since these decisions are made by the editor, ensure that all items are fully reflected in the novel.

# Overall vision for a spin-off novel
- narrative_perspective:" +:+ narrative_perspective +:+ "
- theme:" +:+ theme +:+ "
- novel_structure_models:" +:+ novel_structure_models +:+ "
- target_demographics:" +:+ target_demographics +:+ "
- core_connection:" +:+ core_connection +:+ "
- unique_hook:" +:+ unique_hook +:+ "
- protagonist_choice:" +:+ protagonist_choice +:+ "
- tone_and_style:" +:+ tone_and_style +:+ "
- world_expansion:" +:+ world_expansion +:+ "
- fan_service:" +:+ fan_service +:+ "

Based on the editor's Overall Vision above, appropriately improve the task_prompt_for_writing in experiment.py to ensure the novel fulfills all outlined items, particularly by adhering to the structure defined in novel_structure_models.

Due to the variability in LLM outputs, continue experimenting until all items are satisfied and the novel is deemed engaging. You are allowed a maximum of "
  +:+ max_runs +:+ " executions to complete the experiments, but it is not necessary to use all "
  +:+ max_runs +:+ ".

After completing each change, execute the command python experiment.py --out_dir=run_i (where i is the run number) and evaluate the results.

Proposed changes must strictly adhere to this command format without including additional command-line arguments.

Afterward, proceed with the next item on your list.
".

(** Lines 103-115; [novel_structure_models] is passed the list literal
    [["novel_structure_models"]], as the source has it. *)
Definition first_prompt (idea : gmap string Json) : M St string :=
  narrative_perspective <- getitem idea "narrative_perspective" ;;
  theme <- getitem idea "theme" ;;
  target_demographics <- getitem idea "target_demographics" ;;
  core_connection <- getitem idea "core_connection" ;;
  unique_hook <- getitem idea "unique_hook" ;;
  protagonist_choice <- getitem idea "protagonist_choice" ;;
  tone_and_style <- getitem idea "tone_and_style" ;;
  world_expansion <- getitem idea "world_expansion" ;;
  fan_service <- getitem idea "fan_service" ;;
  ret (coder_prompt_format
         (py_str narrative_perspective) (py_str theme)
         "['novel_structure_models']"
         (py_str target_demographics) (py_str core_connection)
         (py_str unique_hook) (py_str protagonist_choice)
         (py_str tone_and_style) (py_str world_expansion)
         (py_str fan_service) (pretty MAX_RUNS)).

(** One pass through the body of the [while] loop (lines 117-128). *)
Definition loop_body (folder_name : string) (l : Locals) : M St Flow :=
  if bool_decide (current_iter l >= MAX_ITERS) then
    print "Max iterations reached" ;; ret (Break l)
  else
    coder_out <- run_coder (next_prompt l) ;;
    print coder_out ;;
    if contains "ALL_COMPLETED" coder_out then ret (Break l)
    else
      r <- run_experiment folder_name (run l) 7200 ;;
      let '(return_code, next_prompt', results') := r in
      let l1 := mkLocals (current_iter l) (run l) next_prompt' (Some results') in
      let l2 :=
        if bool_decide (return_code = 0)
        then mkLocals 0 (run l1 + 1) (next_prompt l1) (results l1)
        else l1 in
      ret (Continue
             (mkLocals (current_iter l2 + 1) (run l2) (next_prompt l2) (results l2))).

(** [while run < MAX_RUNS + 1: ...]. *)
Fixpoint while_loop (fuel : nat) (folder_name : string) (l : Locals)
  : M St Locals :=
  if bool_decide (run l < MAX_RUNS + 1) then
    match fuel with
    | O => diverge
    | S fuel' =>
        f <- loop_body folder_name l ;;
        match f with
        | Break l' => ret l'
        | Continue l' => while_loop fuel' folder_name l'
        end
    end
  else ret l.

(** Reading the local [results]. *)
Definition read_results (l : Locals) : M St Json :=
  match results l with
  | Some r => ret r
  | None => raise (UnboundLocalError "results")
  end.

(** Every pass either ends the loop or lowers
    [MAX_ITERS * (MAX_RUNS + 1 - run) + (MAX_ITERS - current_iter)]. *)
Definition loop_fuel : nat := Z.to_nat (MAX_ITERS * (MAX_RUNS + 1)).

(** [perform_experiments(idea, folder_name, coder, baseline_results)]. *)
Definition perform_experiments (idea : gmap string Json) (folder_name : string)
  : M St (bool * Json) :=
  next_prompt0 <- first_prompt idea ;;
  l <- while_loop loop_fuel folder_name (mkLocals 0 1 next_prompt0 None) ;;
  if bool_decide (current_iter l >= MAX_ITERS) then
    print "Not all experiments completed." ;;
    r <- read_results l ;; ret (false, r)
  else
    r <- read_results l ;; ret (true, r).

(** ** Which steps leave which part of the state alone *)

(** [m] adds exactly the event [e] to the trace. *)
Definition appends {A} (e : Event) (m : M St A) : Prop :=
  forall s, trace (snd (m s)) = trace s ++ [e].

Lemma appends_bind {A A'} (e : Event) (m : M St A) (k : A -> M St A') :
  appends e m -> (forall a, preserves trace (k a)) -> appends e (bind m k).
Proof.
  intros Hm Hk s. unfold bind. specialize (Hm s).
  destruct (m s) as [[a| |] s1]; simpl in Hm; try exact Hm.
  rewrite Hk. exact Hm.
Qed.

Lemma preserves_print_trace stream text : preserves trace (print_to stream text).
Proof. intros s. reflexivity. Qed.

Lemma read_text_state (p : string) (s : St) : snd (read_text p s) = s.
Proof. unfold read_text. destruct (fs s !! p) as [[c|]|]; reflexivity. Qed.

Lemma preserves_read_text {B} (proj : St -> B) p : preserves proj (read_text p).
Proof. intros s. rewrite read_text_state. reflexivity. Qed.

Lemma preserves_load_json {B} (proj : St -> B) p : preserves proj (load_json p).
Proof.
  apply preserves_bind; [apply preserves_read_text|].
  intros c. destruct (json_loads c); [apply preserves_ret | apply preserves_raise].
Qed.

Lemma preserves_shutil_copy src dst : preserves trace (shutil_copy src dst).
Proof.
  apply preserves_bind; [apply preserves_read_text|].
  intros c s. unfold modify. simpl.
  destruct (fs s !! dst) as [[?|]|]; reflexivity.
Qed.

Lemma preserves_run_subprocess command cwd timeout :
  preserves trace (run_subprocess command cwd timeout).
Proof.
  intros s. unfold run_subprocess.
  destruct (subprocess_run command cwd timeout (fs s, ext s)) as [o [f x]].
  reflexivity.
Qed.

Lemma preserves_remove_run_dir cwd run_num :
  preserves trace (remove_run_dir cwd run_num).
Proof.
  intros s. unfold remove_run_dir, bind, path_exists, gets, rmtree, ret.
  case_bool_decide; [|reflexivity].
  destruct (fs s !! run_dir cwd run_num) as [[?|]|]; reflexivity.
Qed.

Lemma appends_log e : appends e (log e).
Proof. intros s. reflexivity. Qed.

Lemma appends_launch folder_name run_num timeout :
  appends (RunExperiment run_num) (launch folder_name run_num timeout).
Proof.
  unfold launch. apply appends_bind; [apply appends_log|]. intros _.
  apply preserves_bind; [apply preserves_shutil_copy|]. intros _.
  apply preserves_run_subprocess.
Qed.

(** Whatever it returns or raises, one call of [run_experiment] adds exactly
    one [RunExperiment] entry to the trace. *)
Lemma appends_run_experiment folder_name run_num timeout :
  appends (RunExperiment run_num) (run_experiment folder_name run_num timeout).
Proof.
  unfold run_experiment. apply appends_bind; [apply appends_launch|].
  intros [rc err| |e].
  - apply preserves_bind.
    { case_bool_decide; [apply preserves_print_trace | apply preserves_ret]. }
    intros _. case_bool_decide.
    + apply preserves_bind; [apply preserves_print_trace|]. intros _.
      apply preserves_bind; [apply preserves_remove_run_dir|]. intros _.
      apply preserves_bind; [apply preserves_print_trace|]. intros _.
      apply preserves_ret.
    + apply preserves_bind; [apply preserves_load_json|]. intros v.
      apply preserves_ret.
  - apply preserves_bind; [apply preserves_print_trace|]. intros _.
    apply preserves_bind; [apply preserves_remove_run_dir|]. intros _.
    apply preserves_ret.
  - apply preserves_raise.
Qed.

Lemma appends_run_coder (prompt : string) :
  appends (CoderRun prompt) (run_coder prompt).
Proof.
  intros s. unfold run_coder, bind, log, modify. simpl.
  destruct (coder_run prompt (fs s, ext s)) as [[a|e] [f x]]; reflexivity.
Qed.

Lemma runs_launched_app (t u : list Event) :
  runs_launched (t ++ u) = (runs_launched t + runs_launched u)%nat.
Proof. unfold runs_launched. rewrite filter_app, length_app. reflexivity. Qed.

Lemma runs_launched_coder (prompt : string) :
  runs_launched [CoderRun prompt] = 0%nat.
Proof. reflexivity. Qed.

Lemma runs_launched_run (run_num : Z) :
  runs_launched [RunExperiment run_num] = 1%nat.
Proof. reflexivity. Qed.

(** The clean-up of a failed attempt: unless a regular file sits at the
    attempt's path, it succeeds, leaves nothing at that path and touches no
    file outside the attempt's tree. *)
Lemma remove_run_dir_spec cwd run_num (s : St) :
  (forall c, fs s !! run_dir cwd run_num <> Some (File c)) ->
  exists s',
    remove_run_dir cwd run_num s = (Ok tt, s')
    /\ fs s' !! run_dir cwd run_num = None
    /\ (fs s !! run_dir cwd run_num = Some Dir ->
        forall k, in_tree (run_dir cwd run_num) k = true -> fs s' !! k = None)
    /\ (forall k, in_tree (run_dir cwd run_num) k = false ->
                  fs s' !! k = fs s !! k).
Proof.
  intros Hfile. unfold remove_run_dir, bind, path_exists, gets, rmtree, ret.
  set (d := run_dir cwd run_num) in *.
  destruct (fs s !! d) as [[c|]|] eqn:E.
  - exfalso. exact (Hfile c eq_refl).
  - rewrite bool_decide_eq_true_2 by eauto. rewrite E.
    eexists. split; [reflexivity|]. simpl.
    repeat split.
    + rewrite lookup_remove_tree, in_tree_refl. reflexivity.
    + intros _ k Hk. rewrite lookup_remove_tree, Hk. reflexivity.
    + intros k Hk. rewrite lookup_remove_tree, Hk. reflexivity.
  - rewrite bool_decide_eq_false_2 by (intros [x Hx]; discriminate).
    exists s. repeat split; auto. discriminate.
Qed.

(** The failure branch after a non-zero exit, step by step. *)
Lemma run_experiment_nonzero
  folder_name run_num timeout (s s1 : St) (rc : Z) (err : string) :
  launch folder_name run_num timeout s = (Ok (Completed rc err), s1) ->
  rc <> 0 ->
  (forall c, fs s1 !! run_dir ("./" +:+ folder_name) run_num <> Some (File c)) ->
  exists s',
    run_experiment folder_name run_num timeout s
    = (Ok (rc, failure_prompt err, JObj []), s')
    /\ fs s' !! run_dir ("./" +:+ folder_name) run_num = None
    /\ (fs s1 !! run_dir ("./" +:+ folder_name) run_num = Some Dir ->
        forall k, in_tree (run_dir ("./" +:+ folder_name) run_num) k = true ->
                  fs s' !! k = None)
    /\ (forall k, in_tree (run_dir ("./" +:+ folder_name) run_num) k = false ->
                  fs s' !! k = fs s1 !! k).
Proof.
  intros Hl Hrc Hfile.
  unfold run_experiment. rewrite (bind_eq_ok _ _ _ _ _ Hl).
  set (warn := if bool_decide (err <> EmptyString)
               then print_to Stderr err else ret tt).
  assert (Hw : exists s2, warn s1 = (Ok tt, s2) /\ fs s2 = fs s1).
  { unfold warn. case_bool_decide; eexists; split; reflexivity. }
  destruct Hw as (s2 & Hw & Hfs2).
  rewrite (bind_eq_ok _ _ _ _ _ Hw).
  rewrite bool_decide_eq_true_2 by exact Hrc.
  unfold bind at 1. unfold print at 1, print_to at 1, modify at 1.
  match goal with |- context [remove_run_dir ?c ?n] =>
    match goal with |- context [bind (remove_run_dir c n) ?k ?s3] =>
      destruct (remove_run_dir_spec c n s3) as (s4 & Hrm & Hnone & Hbelow & Hout)
    end end.
  { simpl. rewrite Hfs2. exact Hfile. }
  rewrite (bind_eq_ok _ _ _ _ _ Hrm).
  eexists. split; [reflexivity|]. simpl in *. rewrite Hfs2 in *.
  repeat split; auto.
Qed.

(** The failure branch after the timeout elapsed. *)
Lemma run_experiment_timeout
  folder_name run_num timeout (s s1 : St) :
  launch folder_name run_num timeout s = (Ok TimeoutExpired, s1) ->
  (forall c, fs s1 !! run_dir ("./" +:+ folder_name) run_num <> Some (File c)) ->
  exists s',
    run_experiment folder_name run_num timeout s
    = (Ok (1, timeout_prompt timeout, JObj []), s')
    /\ fs s' !! run_dir ("./" +:+ folder_name) run_num = None
    /\ (fs s1 !! run_dir ("./" +:+ folder_name) run_num = Some Dir ->
        forall k, in_tree (run_dir ("./" +:+ folder_name) run_num) k = true ->
                  fs s' !! k = None)
    /\ (forall k, in_tree (run_dir ("./" +:+ folder_name) run_num) k = false ->
                  fs s' !! k = fs s1 !! k).
Proof.
  intros Hl Hfile.
  unfold run_experiment. rewrite (bind_eq_ok _ _ _ _ _ Hl).
  unfold bind at 1. unfold print at 1, print_to at 1, modify at 1.
  match goal with |- context [bind (remove_run_dir ?c ?n) ?k ?s3] =>
    destruct (remove_run_dir_spec c n s3) as (s4 & Hrm & Hnone & Hbelow & Hout)
  end.
  { exact Hfile. }
  rewrite (bind_eq_ok _ _ _ _ _ Hrm).
  eexists. split; [reflexivity|]. simpl in *.
  repeat split; auto.
Qed.

(** ** The failure branches of [run_experiment] *)


(** C7.  After a failed run (non-zero exit) the follow-up prompt that
    [run_experiment] returns is the fixed lead-in followed by the error text:
    a stderr of more than [MAX_STDERR_OUTPUT] = 1500 characters is cut down to
    its last 1500 characters (the text is what was dropped from the front
    followed by what is kept), which are shown behind the marker [...]; a
    stderr of at most 1500 characters is shown as it is. *)
Theorem run_experiment_truncates_stderr
  folder_name run_num timeout (s s1 : St) (rc : Z) (err : string) :
  launch folder_name run_num timeout s = (Ok (Completed rc err), s1) ->
  rc <> 0 ->
  (forall c, fs s1 !! run_dir ("./" +:+ folder_name) run_num <> Some (File c)) ->
  exists shown s',
    run_experiment folder_name run_num timeout s
    = (Ok (rc, "Run failed with the following error " +:+ shown, JObj []), s')
    /\ ((String.length err <= 1500)%nat -> shown = err)
    /\ ((1500 < String.length err)%nat ->
        exists dropped kept,
          err = dropped +:+ kept
          /\ String.length kept = 1500%nat
          /\ String.length dropped = (String.length err - 1500)%nat
          /\ shown = "..." +:+ kept).
Proof.
  intros Hl Hrc Hfile.
  destruct (run_experiment_nonzero _ _ _ _ _ _ _ Hl Hrc Hfile) as (s' & Hrun & _).
  exists (truncate_stderr err), s'. split; [exact Hrun | split].
  - intros Hle. unfold truncate_stderr, MAX_STDERR_OUTPUT.
    destruct (Nat.ltb_spec 1500 (String.length err)); [lia | reflexivity].
  - intros Hlt. unfold truncate_stderr, MAX_STDERR_OUTPUT.
    destruct (Nat.ltb_spec 1500 (String.length err)); [|lia].
    destruct (last_chars_spec 1500 err) as (Hlen & d & Hd & Hdl); [lia|].
    exists d, (last_chars 1500 err). auto.
Qed.

(** ** The run/fix loop *)

(** An attempt that came back from [run_experiment]: what one pass through
    the loop does to the two counters. *)
Lemma loop_body_attempt folder_name (l : Locals) (s s1 s2 : St)
  (coder_out : string) (return_code : Z) (np : string) (res : Json) :
  current_iter l < MAX_ITERS ->
  run_coder (next_prompt l) s = (Ok coder_out, s1) ->
  contains "ALL_COMPLETED" coder_out = false ->
  run_experiment folder_name (run l) 7200
    (snd (print coder_out s1)) = (Ok (return_code, np, res), s2) ->
  loop_body folder_name l s
  = (Ok (Continue
           (if bool_decide (return_code = 0)
            then mkLocals 1 (run l + 1) np (Some res)
            else mkLocals (current_iter l + 1) (run l) np (Some res))), s2).
Proof.
  intros Hci Hcoder Hmark Hrun. unfold loop_body.
  rewrite bool_decide_eq_false_2 by lia.
  rewrite (bind_eq_ok _ _ _ _ _ Hcoder).
  unfold bind at 1. unfold print at 1, print_to at 1, modify at 1.
  rewrite Hmark.
  unfold print, print_to, modify in Hrun. simpl in Hrun.
  rewrite (bind_eq_ok _ _ _ _ _ Hrun).
  case_bool_decide; reflexivity.
Qed.

(** C3.  One pass of the loop in which [run_experiment] came back: after a
    successful attempt (return code 0) the run counter is one higher and
    [current_iter] is 1, not 0 (line 127 sets it to 0 and line 128 then adds
    one on every path); after a failed attempt [current_iter] is one higher
    and the run counter is unchanged. *)
Theorem loop_body_counters folder_name (l : Locals) (s s1 s2 : St)
  (coder_out : string) (return_code : Z) (np : string) (res : Json) :
  current_iter l < MAX_ITERS ->
  run_coder (next_prompt l) s = (Ok coder_out, s1) ->
  contains "ALL_COMPLETED" coder_out = false ->
  run_experiment folder_name (run l) 7200
    (snd (print coder_out s1)) = (Ok (return_code, np, res), s2) ->
  exists l',
    loop_body folder_name l s = (Ok (Continue l'), s2)
    /\ (return_code = 0 -> current_iter l' = 1 /\ run l' = run l + 1)
    /\ (return_code <> 0 ->
        current_iter l' = current_iter l + 1 /\ run l' = run l).
Proof.
  intros Hci Hcoder Hmark Hrun.
  eexists. split.
  - eapply loop_body_attempt; eassumption.
  - case_bool_decide; simpl; split; intros; auto; contradiction.
Qed.

(** *** Termination *)

Lemma total_read_text p : total (read_text p).
Proof.
  intros s. unfold read_text. destruct (fs s !! p) as [[c|]|]; discriminate.
Qed.

Lemma total_load_json p : total (load_json p).
Proof.
  apply total_bind; [apply total_read_text|]. intros c.
  destruct (json_loads c); [apply total_ret | apply total_raise].
Qed.

Lemma total_remove_run_dir cwd run_num : total (remove_run_dir cwd run_num).
Proof.
  apply total_bind; [intros s; discriminate|]. intros [|]; [|apply total_ret].
  intros s. unfold rmtree.
  destruct (fs s !! run_dir cwd run_num) as [[c|]|]; discriminate.
Qed.

Lemma total_launch folder_name run_num timeout :
  total (launch folder_name run_num timeout).
Proof.
  unfold launch. apply total_bind; [apply total_modify|]. intros _.
  apply total_bind.
  { apply total_bind; [apply total_read_text|]. intros c. apply total_modify. }
  intros _ s. unfold run_subprocess.
  destruct (subprocess_run _ _ timeout (fs s, ext s)) as [o [f x]]. discriminate.
Qed.

Lemma total_run_experiment folder_name run_num timeout :
  total (run_experiment folder_name run_num timeout).
Proof.
  unfold run_experiment. apply total_bind; [apply total_launch|].
  intros [rc err| |e].
  - apply total_bind.
    { case_bool_decide; [apply total_modify | apply total_ret]. }
    intros _. case_bool_decide.
    + apply total_bind; [apply total_modify|]. intros _.
      apply total_bind; [apply total_remove_run_dir|]. intros _.
      apply total_bind; [apply total_modify|]. intros _. apply total_ret.
    + apply total_bind; [apply total_load_json|]. intros v. apply total_ret.
  - apply total_bind; [apply total_modify|]. intros _.
    apply total_bind; [apply total_remove_run_dir|]. intros _. apply total_ret.
  - apply total_raise.
Qed.

Lemma total_run_coder prompt : total (run_coder prompt).
Proof.
  unfold run_coder. apply total_bind; [apply total_modify|]. intros _ s.
  destruct (coder_run prompt (fs s, ext s)) as [[a|e] [f x]]; discriminate.
Qed.

Lemma total_loop_body folder_name l : total (loop_body folder_name l).
Proof.
  unfold loop_body. case_bool_decide.
  - apply total_bind; [apply total_modify | intros _; apply total_ret].
  - apply total_bind; [apply total_run_coder|]. intros out.
    apply total_bind; [apply total_modify|]. intros _.
    destruct (contains "ALL_COMPLETED" out); [apply total_ret|].
    apply total_bind; [apply total_run_experiment|].
    intros [[rc np] res]. apply total_ret.
Qed.

(** The measure of the loop, and the range [current_iter] stays in. *)
Definition mu (l : Locals) : Z :=
  MAX_ITERS * (MAX_RUNS + 1 - run l) + (MAX_ITERS - current_iter l).

Definition in_range (l : Locals) : Prop :=
  0 <= current_iter l <= MAX_ITERS.

(** A pass that goes round again made an attempt: [results] is bound, the
    trace has one more experiment, and the measure went down. *)
Lemma loop_body_continue folder_name l s l' s' :
  loop_body folder_name l s = (Ok (Continue l'), s') ->
  current_iter l < MAX_ITERS
  /\ results l' <> None
  /\ ((current_iter l' = 1 /\ run l' = run l + 1)
      \/ (current_iter l' = current_iter l + 1 /\ run l' = run l))
  /\ runs_launched (trace s') = Datatypes.S (runs_launched (trace s)).
Proof.
  unfold loop_body. case_bool_decide as Hci.
  { unfold bind, print, print_to, modify, ret. discriminate. }
  intros H.
  apply bind_ok_inv in H as (out & s1 & Hcoder & H).
  apply bind_ok_inv in H as ([] & s1' & Hprint & H).
  destruct (contains "ALL_COMPLETED" out); [discriminate|].
  apply bind_ok_inv in H as ([[rc np] res] & s2 & Hrun & H).
  injection H as <- <-.
  pose proof (appends_run_coder (next_prompt l) s) as T1.
  rewrite Hcoder in T1. simpl in T1.
  pose proof (preserves_print_trace Stdout out s1) as T2.
  unfold print in Hprint. rewrite Hprint in T2. simpl in T2.
  pose proof (appends_run_experiment folder_name (run l) 7200 s1') as T3.
  rewrite Hrun in T3. simpl in T3.
  split; [lia|]. split.
  { case_bool_decide; simpl; discriminate. }
  split.
  { case_bool_decide; simpl; [left | right]; split; lia. }
  rewrite T3, T2, T1, !runs_launched_app.
  rewrite runs_launched_coder, runs_launched_run. lia.
Qed.

(** A pass that leaves the loop changes no local and launches nothing. *)
Lemma loop_body_break folder_name l s l' s' :
  loop_body folder_name l s = (Ok (Break l'), s') ->
  l' = l /\ runs_launched (trace s') = runs_launched (trace s).
Proof.
  unfold loop_body. case_bool_decide as Hci.
  { unfold bind, print, print_to, modify, ret. simpl.
    intros H. injection H as <- <-. auto. }
  intros H.
  apply bind_ok_inv in H as (out & s1 & Hcoder & H).
  apply bind_ok_inv in H as ([] & s1' & Hprint & H).
  pose proof (appends_run_coder (next_prompt l) s) as T1.
  rewrite Hcoder in T1. simpl in T1.
  pose proof (preserves_print_trace Stdout out s1) as T2.
  unfold print in Hprint. rewrite Hprint in T2. simpl in T2.
  destruct (contains "ALL_COMPLETED" out).
  - injection H as <- <-. split; [reflexivity|].
    rewrite T2, T1, runs_launched_app, runs_launched_coder. lia.
  - apply bind_ok_inv in H as ([[rc np] res] & s2 & Hrun & H). discriminate.
Qed.

Lemma continue_measure l l' :
  in_range l -> current_iter l < MAX_ITERS ->
  ((current_iter l' = 1 /\ run l' = run l + 1)
   \/ (current_iter l' = current_iter l + 1 /\ run l' = run l)) ->
  in_range l' /\ mu l' < mu l.
Proof. unfold in_range, mu, MAX_ITERS, MAX_RUNS. lia. Qed.

(** With fuel for the measure, the loop never runs out of it. *)
Lemma total_while_loop fuel folder_name l :
  in_range l -> mu l <= Z.of_nat fuel ->
  forall s, fst (while_loop fuel folder_name l s) <> Diverge.
Proof.
  revert l. induction fuel as [|fuel IH]; intros l Hr Hmu s; simpl.
  - case_bool_decide; [|discriminate].
    exfalso. unfold in_range, mu, MAX_ITERS, MAX_RUNS in *. lia.
  - case_bool_decide; [|discriminate]. unfold bind.
    pose proof (total_loop_body folder_name l s) as Ht.
    destruct (loop_body folder_name l s) as [[[l'|l']| |] s1] eqn:E;
      simpl in *; try discriminate; try contradiction.
    apply loop_body_continue in E as (Hci & _ & Hstep & _).
    destruct (continue_measure l l' Hr Hci Hstep) as (Hr' & Hlt).
    apply IH; [exact Hr' | lia].
Qed.

(** The fuel does not matter once it covers the measure. *)
Lemma while_loop_fuel fuel1 fuel2 folder_name l s :
  in_range l -> mu l <= Z.of_nat fuel1 -> mu l <= Z.of_nat fuel2 ->
  while_loop fuel1 folder_name l s = while_loop fuel2 folder_name l s.
Proof.
  revert fuel2 l s. induction fuel1 as [|fuel1 IH]; intros fuel2 l s Hr H1 H2.
  - simpl. destruct fuel2; simpl; case_bool_decide; try reflexivity;
      exfalso; unfold in_range, mu, MAX_ITERS, MAX_RUNS in *; lia.
  - destruct fuel2 as [|fuel2]; simpl; case_bool_decide; try reflexivity.
    + exfalso; unfold in_range, mu, MAX_ITERS, MAX_RUNS in *; lia.
    + unfold bind.
      destruct (loop_body folder_name l s) as [[[l'|l']| |] s1] eqn:E;
        try reflexivity.
      apply loop_body_continue in E as (Hci & _ & Hstep & _).
      destruct (continue_measure l l' Hr Hci Hstep) as (Hr' & Hlt).
      apply IH; [exact Hr' | lia | lia].
Qed.

Lemma first_prompt_state idea (s : St) : snd (first_prompt idea s) = s.
Proof.
  unfold first_prompt, getitem, bind, ret, raise.
  repeat match goal with
         | |- context [idea !! ?k] => destruct (idea !! k)
         end; reflexivity.
Qed.

Lemma total_first_prompt idea : total (first_prompt idea).
Proof.
  intros s. unfold first_prompt, getitem, bind, ret, raise.
  repeat match goal with
         | |- context [idea !! ?k] => destruct (idea !! k)
         end; discriminate.
Qed.

Lemma total_read_results l : total (read_results l).
Proof.
  unfold read_results. destruct (results l); [apply total_ret | apply total_raise].
Qed.

Lemma loop_fuel_covers next_prompt0 :
  in_range (mkLocals 0 1 next_prompt0 None)
  /\ mu (mkLocals 0 1 next_prompt0 None) <= Z.of_nat loop_fuel.
Proof. unfold in_range, mu, loop_fuel, MAX_ITERS, MAX_RUNS. simpl. lia. Qed.

(** [perform_experiments] always comes back: it returns or raises, the loop
    never runs out of fuel. *)
Lemma perform_experiments_total idea folder_name :
  total (perform_experiments idea folder_name).
Proof.
  unfold perform_experiments.
  apply total_bind; [apply total_first_prompt|]. intros p.
  apply total_bind.
  { intros s. destruct (loop_fuel_covers p). apply total_while_loop; assumption. }
  intros l. case_bool_decide.
  - apply total_bind; [apply total_modify|]. intros _.
    apply total_bind; [apply total_read_results|]. intros r. apply total_ret.
  - apply total_bind; [apply total_read_results|]. intros r. apply total_ret.
Qed.

(** The loop only ever adds to the trace, and when it ends with [results]
    bound that was not bound before, an experiment was launched. *)
Lemma while_loop_results fuel folder_name l s l' s' :
  while_loop fuel folder_name l s = (Ok l', s') ->
  (runs_launched (trace s) <= runs_launched (trace s'))%nat
  /\ (results l' <> None ->
      results l <> None
      \/ (runs_launched (trace s) < runs_launched (trace s'))%nat).
Proof.
  revert l s. induction fuel as [|fuel IH]; intros l s; simpl.
  - case_bool_decide as Hrun; [discriminate|].
    intros H. injection H as <- <-. auto.
  - case_bool_decide as Hrun.
    2:{ intros H. injection H as <- <-. auto. }
    intros H. apply bind_ok_inv in H as (f & s1 & Hbody & H).
    destruct f as [l1|l1].
    + apply loop_body_continue in Hbody as (_ & _ & _ & Hruns).
      apply IH in H as (Hle & _). split; [lia|]. intros _. right. lia.
    + apply loop_body_break in Hbody as (-> & Hruns).
      injection H as <- <-. split; [lia|]. auto.
Qed.

Lemma while_loop_unfold fuel folder_name l :
  while_loop (Datatypes.S fuel) folder_name l
  = if bool_decide (run l < MAX_RUNS + 1) then
      f <- loop_body folder_name l ;;
      match f with
      | Break l' => ret l'
      | Continue l' => while_loop fuel folder_name l'
      end
    else ret l.
Proof. reflexivity. Qed.

(** A pass in which the coder's reply carries the completion marker. *)
Lemma loop_body_marker folder_name (l : Locals) (s s1 : St) coder_out :
  current_iter l < MAX_ITERS ->
  run_coder (next_prompt l) s = (Ok coder_out, s1) ->
  contains "ALL_COMPLETED" coder_out = true ->
  loop_body folder_name l s = (Ok (Break l), snd (print coder_out s1)).
Proof.
  intros Hci Hcoder Hmark. unfold loop_body.
  rewrite bool_decide_eq_false_2 by lia.
  rewrite (bind_eq_ok _ _ _ _ _ Hcoder).
  unfold bind at 1. unfold print at 1, print_to at 1, modify at 1.
  rewrite Hmark. reflexivity.
Qed.

(** C10.  When [perform_experiments] returns normally, [run_experiment] was
    invoked at least once during the call; and when the coder's very first
    reply contains [ALL_COMPLETED], the loop is left before any attempt and
    reading the unbound local [results] raises instead of returning. *)
Theorem perform_experiments_needs_attempt idea folder_name (s : St) :
  (forall b r s',
     perform_experiments idea folder_name s = (Ok (b, r), s') ->
     (runs_launched (trace s) < runs_launched (trace s'))%nat)
  /\ (forall p s1 coder_out s2,
        first_prompt idea s = (Ok p, s1) ->
        run_coder p s1 = (Ok coder_out, s2) ->
        contains "ALL_COMPLETED" coder_out = true ->
        perform_experiments idea folder_name s
        = (Raise (UnboundLocalError "results"), snd (print coder_out s2))).
Proof.
  split.
  - intros b r s' H. unfold perform_experiments in H.
    apply bind_ok_inv in H as (p & s0 & Hp & H).
    pose proof (first_prompt_state idea s) as Hs0. rewrite Hp in Hs0.
    simpl in Hs0. subst s0.
    apply bind_ok_inv in H as (l & s1 & Hloop & H).
    apply while_loop_results in Hloop as (_ & Hres). simpl in Hres.
    assert (Hbound : results l <> None /\ trace s' = trace s1).
    { destruct (bool_decide (current_iter l >= MAX_ITERS)).
      - apply bind_ok_inv in H as ([] & s2 & Hpr & H).
        unfold print, print_to, modify in Hpr. injection Hpr as <-.
        unfold read_results in H. destruct (results l); [|discriminate].
        unfold bind, ret in H. injection H as _ _ <-. split; [discriminate|reflexivity].
      - unfold read_results in H. destruct (results l); [|discriminate].
        unfold bind, ret in H. injection H as _ _ <-. split; [discriminate|reflexivity]. }
    destruct Hbound as (Hb & ->).
    destruct (Hres Hb) as [Hn | Hlt]; [contradiction | exact Hlt].
  - intros p s1 out s2 Hp Hcoder Hmark. unfold perform_experiments.
    rewrite (bind_eq_ok _ _ _ _ _ Hp).
    assert (Hloop : while_loop loop_fuel folder_name (mkLocals 0 1 p None) s1
                    = (Ok (mkLocals 0 1 p None), snd (print out s2))).
    { change loop_fuel with (Datatypes.S 11). rewrite while_loop_unfold.
      rewrite bool_decide_eq_true_2 by (unfold MAX_RUNS; simpl; lia).
      rewrite (bind_eq_ok _ _ _ _ _
                 (loop_body_marker folder_name (mkLocals 0 1 p None) s1 s2 out
                    ltac:(unfold MAX_ITERS; simpl; lia) Hcoder Hmark)).
      reflexivity. }
    rewrite (bind_eq_ok _ _ _ _ _ Hloop). reflexivity.
Qed.

(** *** Passes through the loop *)

(** [passes folder l s l' s']: starting with locals [l] in state [s], some
    number of passes through the loop, each of which goes round again, ends
    with locals [l'] in state [s']. *)
Inductive passes (folder_name : string) : Locals -> St -> Locals -> St -> Prop :=
| passes_refl l s : passes folder_name l s l s
| passes_step l s l1 s1 l2 s2 :
    run l < MAX_RUNS + 1 ->
    loop_body folder_name l s = (Ok (Continue l1), s1) ->
    passes folder_name l1 s1 l2 s2 ->
    passes folder_name l s l2 s2.

Lemma while_loop_passes folder_name l s l' s' :
  passes folder_name l s l' s' ->
  forall fuel, in_range l -> mu l <= Z.of_nat fuel ->
  while_loop fuel folder_name l s = while_loop fuel folder_name l' s'
  /\ in_range l' /\ mu l' <= Z.of_nat fuel.
Proof.
  induction 1 as [l s | l s l1 s1 l2 s2 Hrun Hbody Hrest IH];
    intros fuel Hr Hmu; [auto|].
  pose proof Hbody as Hc.
  apply loop_body_continue in Hc as (Hci & _ & Hstep & _).
  destruct (continue_measure l l1 Hr Hci Hstep) as (Hr1 & Hlt).
  destruct (IH fuel Hr1 ltac:(lia)) as (Heq & Hr2 & Hmu2).
  split; [|auto]. rewrite <- Heq.
  destruct fuel as [|fuel].
  { exfalso. unfold in_range, mu, MAX_ITERS, MAX_RUNS in *. lia. }
  rewrite (while_loop_unfold fuel folder_name l).
  rewrite bool_decide_eq_true_2 by exact Hrun.
  rewrite (bind_eq_ok _ _ _ _ _ Hbody).
  apply while_loop_fuel; [exact Hr1 | lia | lia].
Qed.

(** [perform_experiments] has no handler: an exception raised in any pass of
    the loop is what the call raises. *)
Lemma perform_experiments_propagates idea folder_name (s s0 s1 s2 : St) p l e :
  first_prompt idea s = (Ok p, s0) ->
  passes folder_name (mkLocals 0 1 p None) s0 l s1 ->
  run l < MAX_RUNS + 1 ->
  loop_body folder_name l s1 = (Raise e, s2) ->
  perform_experiments idea folder_name s = (Raise e, s2).
Proof.
  intros Hp Hpasses Hrun Hbody. unfold perform_experiments.
  rewrite (bind_eq_ok _ _ _ _ _ Hp).
  destruct (loop_fuel_covers p) as (Hr & Hmu).
  destruct (while_loop_passes _ _ _ _ _ Hpasses loop_fuel Hr Hmu)
    as (Heq & Hr' & Hmu').
  apply bind_eq_raise. rewrite Heq.
  change loop_fuel with (Datatypes.S 11). rewrite while_loop_unfold.
  rewrite bool_decide_eq_true_2 by exact Hrun.
  apply bind_eq_raise. exact Hbody.
Qed.

(** A pass in which [run_experiment] raises. *)
Lemma loop_body_raises folder_name (l : Locals) (s s1 s2 : St) coder_out e :
  current_iter l < MAX_ITERS ->
  run_coder (next_prompt l) s = (Ok coder_out, s1) ->
  contains "ALL_COMPLETED" coder_out = false ->
  run_experiment folder_name (run l) 7200 (snd (print coder_out s1))
  = (Raise e, s2) ->
  loop_body folder_name l s = (Raise e, s2).
Proof.
  intros Hci Hcoder Hmark Hrun. unfold loop_body.
  rewrite bool_decide_eq_false_2 by lia.
  rewrite (bind_eq_ok _ _ _ _ _ Hcoder).
  unfold bind at 1. unfold print at 1, print_to at 1, modify at 1.
  rewrite Hmark.
  unfold print, print_to, modify in Hrun. simpl in Hrun.
  apply bind_eq_raise. exact Hrun.
Qed.

(** The state after the lines that follow a child's exit with code 0 and
    precede the read of the artifact: a non-empty stderr is echoed. *)
Definition echo_stderr (err : string) (s : St) : St :=
  if bool_decide (err <> EmptyString)
  then snd (print_to Stderr err s) else s.

(** The success branch when the artifact cannot be read: the exception of
    [open] or [json.load] leaves [run_experiment], whose only handler is for
    [TimeoutExpired]. *)
Lemma run_experiment_artifact_unreadable
  folder_name run_num timeout (s s1 : St) (err : string) :
  launch folder_name run_num timeout s = (Ok (Completed 0 err), s1) ->
  (fs s1 !! osp_join (run_dir ("./" +:+ folder_name) run_num) "results.json"
   = None
   \/ exists c,
        fs s1 !! osp_join (run_dir ("./" +:+ folder_name) run_num) "results.json"
        = Some (File c) /\ json_loads c = None) ->
  exists e,
    (e = FileNotFoundError
           (osp_join (run_dir ("./" +:+ folder_name) run_num) "results.json")
     \/ e = JSONDecodeError)
    /\ run_experiment folder_name run_num timeout s
       = (Raise e, echo_stderr err s1).
Proof.
  intros Hl Hart. unfold run_experiment.
  rewrite (bind_eq_ok _ _ _ _ _ Hl).
  set (path := osp_join _ "results.json") in *.
  assert (Hw : (if bool_decide (err <> EmptyString)
                then print_to Stderr err else ret tt) s1
               = (Ok tt, echo_stderr err s1)).
  { unfold echo_stderr. case_bool_decide; reflexivity. }
  rewrite (bind_eq_ok _ _ _ _ _ Hw).
  rewrite bool_decide_eq_false_2 by lia.
  assert (Hfs : fs (echo_stderr err s1) = fs s1).
  { unfold echo_stderr. case_bool_decide; reflexivity. }
  destruct Hart as [Hnone | (c & Hc & Hbad)].
  - exists (FileNotFoundError path). split; [auto|].
    apply bind_eq_raise. unfold load_json. apply bind_eq_raise.
    unfold read_text. rewrite Hfs, Hnone. reflexivity.
  - exists JSONDecodeError. split; [auto|].
    apply bind_eq_raise. unfold load_json.
    assert (Hr : read_text path (echo_stderr err s1) = (Ok c, echo_stderr err s1)).
    { unfold read_text. rewrite Hfs, Hc. reflexivity. }
    rewrite (bind_eq_ok _ _ _ _ _ Hr). rewrite Hbad. reflexivity.
Qed.

(** ** How many attempts a call makes, and under which run numbers *)

(** The number of [coder.run] calls in a trace. *)
Definition coder_calls (t : list Event) : nat :=
  length (filter (fun e => is_run_event e = false) t).

(** The run numbers of the experiments of a trace, in the order they were
    launched. *)
Fixpoint run_numbers (t : list Event) : list Z :=
  match t with
  | [] => []
  | RunExperiment n :: rest => n :: run_numbers rest
  | CoderRun _ :: rest => run_numbers rest
  end.

Lemma coder_calls_app (t u : list Event) :
  coder_calls (t ++ u) = (coder_calls t + coder_calls u)%nat.
Proof. unfold coder_calls. rewrite filter_app, length_app. reflexivity. Qed.

Lemma run_numbers_app (t u : list Event) :
  run_numbers (t ++ u) = run_numbers t ++ run_numbers u.
Proof.
  induction t as [|[p|n] t IH]; simpl; [reflexivity | exact IH |].
  rewrite IH. reflexivity.
Qed.

(** What one pass adds to the trace, whatever it returns or raises: nothing
    (the ceiling was reached), the coder's call, or the coder's call and the
    attempt. *)
Lemma loop_body_trace folder_name l s :
  exists extra,
    trace (snd (loop_body folder_name l s)) = trace s ++ extra
    /\ (extra = []
        \/ (current_iter l < MAX_ITERS
            /\ (extra = [CoderRun (next_prompt l)]
                \/ extra = [CoderRun (next_prompt l); RunExperiment (run l)]))).
Proof.
  unfold loop_body. case_bool_decide as Hci.
  { exists []. rewrite app_nil_r. split; [reflexivity | left; reflexivity]. }
  assert (Hlt : current_iter l < MAX_ITERS) by lia.
  unfold bind at 1.
  pose proof (appends_run_coder (next_prompt l) s) as T1.
  destruct (run_coder (next_prompt l) s) as [[out|e|] s1]; simpl in T1;
    try (exists [CoderRun (next_prompt l)]; split; [exact T1 | auto]).
  unfold bind at 1. unfold print at 1, print_to at 1, modify at 1.
  destruct (contains "ALL_COMPLETED" out).
  { exists [CoderRun (next_prompt l)]. simpl. split; [exact T1 | auto]. }
  exists [CoderRun (next_prompt l); RunExperiment (run l)].
  split; [|auto].
  rewrite bind_preserves_tail.
  2:{ intros [[rc np] res]. apply preserves_ret. }
  rewrite appends_run_experiment. simpl. rewrite T1, <- app_assoc. reflexivity.
Qed.

(** The trace of a pass that goes round again. *)
Lemma loop_body_continue_trace folder_name l s l' s' :
  loop_body folder_name l s = (Ok (Continue l'), s') ->
  trace s' = trace s ++ [CoderRun (next_prompt l); RunExperiment (run l)].
Proof.
  intros H. pose proof (loop_body_continue _ _ _ _ _ H) as (_ & _ & _ & Hruns).
  destruct (loop_body_trace folder_name l s) as (extra & Ht & Hcases).
  rewrite H in Ht. simpl in Ht. rewrite Ht in Hruns |- *.
  rewrite runs_launched_app in Hruns.
  destruct Hcases as [-> | (_ & [-> | ->])]; [| |reflexivity];
    exfalso; unfold runs_launched in Hruns; simpl in Hruns; lia.
Qed.

(** The state of the two counters between passes. *)
Definition settled (l : Locals) : Prop :=
  0 <= current_iter l <= MAX_ITERS
  /\ 1 <= run l <= MAX_RUNS + 1
  /\ (run l = MAX_RUNS + 1 -> current_iter l <= 1).

(** A measure that every pass lowers and that stays at 2 or more. *)
Definition nu (l : Locals) : Z :=
  2 * (MAX_RUNS + 1 - run l) + (MAX_ITERS - current_iter l).

Lemma settled_continue l l' :
  settled l -> current_iter l < MAX_ITERS -> run l < MAX_RUNS + 1 ->
  ((current_iter l' = 1 /\ run l' = run l + 1)
   \/ (current_iter l' = current_iter l + 1 /\ run l' = run l)) ->
  settled l' /\ nu l' <= nu l - 1 /\ run l <= run l'.
Proof. unfold settled, nu, MAX_ITERS, MAX_RUNS. lia. Qed.

(** Evaluates the counts of an explicit list of events. *)
Ltac count_events :=
  repeat match goal with
         | |- context [runs_launched ?t] =>
             let v := eval vm_compute in (runs_launched t) in
             change (runs_launched t) with v
         | |- context [coder_calls ?t] =>
             let v := eval vm_compute in (coder_calls t) in
             change (coder_calls t) with v
         | |- context [run_numbers ?t] =>
             let v := eval cbn in (run_numbers t) in
             progress change (run_numbers t) with v
         end.

Lemma while_loop_trace fuel folder_name :
  forall l, settled l -> forall s,
  exists extra,
    trace (snd (while_loop fuel folder_name l s)) = trace s ++ extra
    /\ Z.of_nat (runs_launched extra) <= nu l - 2
    /\ Z.of_nat (coder_calls extra) <= nu l - 2
    /\ Forall (fun n => run l <= n <= MAX_RUNS) (run_numbers extra)
    /\ StronglySorted Z.le (run_numbers extra).
Proof.
  assert (Hnil : forall l s0 s, settled l -> trace s0 = trace s ->
            exists extra,
              trace s0 = trace s ++ extra
              /\ Z.of_nat (runs_launched extra) <= nu l - 2
              /\ Z.of_nat (coder_calls extra) <= nu l - 2
              /\ Forall (fun n => run l <= n <= MAX_RUNS) (run_numbers extra)
              /\ StronglySorted Z.le (run_numbers extra)).
  { intros l s0 s Hs Ht. exists []. rewrite app_nil_r.
    split; [exact Ht|]. change (runs_launched []) with 0%nat.
    change (coder_calls []) with 0%nat. change (run_numbers []) with (@nil Z).
    unfold settled, nu, MAX_ITERS, MAX_RUNS in *.
    split; [lia|]. split; [lia|]. split; constructor. }
  induction fuel as [|fuel IH]; intros l Hs s; simpl.
  - case_bool_decide; apply Hnil; auto.
  - case_bool_decide as Hrun; [|apply Hnil; auto].
    unfold bind.
    destruct (loop_body_trace folder_name l s) as (extra1 & Ht1 & Hcases).
    destruct (loop_body folder_name l s) as [[[l1|l1]| |] s1] eqn:Ebody;
      simpl in Ht1.
    + pose proof (loop_body_continue _ _ _ _ _ Ebody) as (Hci & _ & Hstep & _).
      pose proof (loop_body_continue_trace _ _ _ _ _ Ebody) as Ht.
      destruct (settled_continue l l1 Hs Hci Hrun Hstep) as (Hs1 & Hnu & Hle).
      destruct (IH l1 Hs1 s1) as (extra2 & Ht2 & Hr2 & Hc2 & Hn2 & Hsort2).
      exists ([CoderRun (next_prompt l); RunExperiment (run l)] ++ extra2).
      rewrite Ht2, Ht, <- app_assoc.
      rewrite runs_launched_app, coder_calls_app, run_numbers_app.
      split; [reflexivity|].
      change (runs_launched [CoderRun (next_prompt l); RunExperiment (run l)])
        with 1%nat.
      change (coder_calls [CoderRun (next_prompt l); RunExperiment (run l)])
        with 1%nat.
      change (run_numbers [CoderRun (next_prompt l); RunExperiment (run l)])
        with [run l].
      assert (Hall : Forall (fun n => run l <= n <= MAX_RUNS) (run_numbers extra2)).
      { eapply Forall_impl; [exact Hn2|]. simpl. intros n Hn. lia. }
      repeat split; try lia.
      * simpl. constructor; [unfold MAX_RUNS in *; lia | exact Hall].
      * simpl. constructor; [exact Hsort2|].
        eapply Forall_impl; [exact Hall|]. simpl. intros n Hn. lia.
    + exists extra1. split; [exact Ht1|].
      destruct Hcases as [-> | (Hci & [-> | ->])]; count_events;
        unfold settled, nu, MAX_ITERS, MAX_RUNS in *;
        (split; [lia|]); (split; [lia|]); split; repeat constructor; lia.
    + exists extra1. split; [exact Ht1|].
      destruct Hcases as [-> | (Hci & [-> | ->])]; count_events;
        unfold settled, nu, MAX_ITERS, MAX_RUNS in *;
        (split; [lia|]); (split; [lia|]); split; repeat constructor; lia.
    + exists extra1. split; [exact Ht1|].
      destruct Hcases as [-> | (Hci & [-> | ->])]; count_events;
        unfold settled, nu, MAX_ITERS, MAX_RUNS in *;
        (split; [lia|]); (split; [lia|]); split; repeat constructor; lia.
Qed.

Lemma perform_experiments_trace idea folder_name s :
  exists extra,
    trace (snd (perform_experiments idea folder_name s)) = trace s ++ extra
    /\ (runs_launched extra <= 7)%nat
    /\ (coder_calls extra <= 7)%nat
    /\ Forall (fun n => 1 <= n <= MAX_RUNS) (run_numbers extra)
    /\ StronglySorted Z.le (run_numbers extra).
Proof.
  unfold perform_experiments. unfold bind at 1.
  pose proof (first_prompt_state idea s) as Hs.
  destruct (first_prompt idea s) as [[p| |] s0]; simpl in Hs; subst s0;
    try (exists []; rewrite app_nil_r; count_events;
         split; [reflexivity|]; (split; [lia|]); (split; [lia|]);
         split; constructor).
  rewrite bind_preserves_tail.
  2:{ intros l. case_bool_decide.
      - apply preserves_bind; [apply preserves_print_trace|]. intros _.
        apply preserves_bind; [|intros r; apply preserves_ret].
        unfold read_results. destruct (results l);
          [apply preserves_ret | apply preserves_raise].
      - apply preserves_bind; [|intros r; apply preserves_ret].
        unfold read_results. destruct (results l);
          [apply preserves_ret | apply preserves_raise]. }
  destruct (while_loop_trace loop_fuel folder_name (mkLocals 0 1 p None)
              ltac:(unfold settled, MAX_ITERS, MAX_RUNS; simpl; lia) s)
    as (extra & Ht & Hr & Hc & Hn & Hsort).
  exists extra. unfold nu, MAX_ITERS, MAX_RUNS in *. simpl in Hr, Hc, Hn.
  split; [exact Ht|]. split; [lia|]. split; [lia|]. split; [|exact Hsort].
  eapply Forall_impl; [exact Hn|]. simpl. intros n Hle. lia.
Qed.

(** X1.  One call of [perform_experiments] asks the coder at most seven
    times and launches at most seven experiments, whatever the coder and the
    children do. *)
Theorem perform_experiments_attempts_bounded idea folder_name (s : St) :
  exists extra,
    trace (snd (perform_experiments idea folder_name s)) = trace s ++ extra
    /\ (runs_launched extra <= 7)%nat
    /\ (coder_calls extra <= 7)%nat.
Proof.
  destruct (perform_experiments_trace idea folder_name s)
    as (extra & Ht & Hr & Hc & _).
  exists extra. auto.
Qed.

(** X2.  The experiments of one call are launched under run numbers between
    1 and [MAX_RUNS], in non-decreasing order: a number is used again after a
    failed attempt and never goes back. *)
Theorem perform_experiments_run_numbers idea folder_name (s : St) :
  exists extra,
    trace (snd (perform_experiments idea folder_name s)) = trace s ++ extra
    /\ Forall (fun n => 1 <= n <= MAX_RUNS) (run_numbers extra)
    /\ StronglySorted Z.le (run_numbers extra).
Proof.
  destruct (perform_experiments_trace idea folder_name s)
    as (extra & Ht & _ & _ & Hn & Hsort).
  exists extra. auto.
Qed.

(** ** What [run_experiment] returns, and what [perform_experiments] hands on *)

(** The success branch, step by step. *)
Lemma run_experiment_zero_exit
  folder_name run_num timeout (s s1 : St) (err c : string) (v : Json) :
  launch folder_name run_num timeout s = (Ok (Completed 0 err), s1) ->
  fs s1 !! osp_join (run_dir ("./" +:+ folder_name) run_num) "results.json"
  = Some (File c) ->
  json_loads c = Some v ->
  run_experiment folder_name run_num timeout s
  = (Ok (0, completed_prompt run_num v, v), echo_stderr err s1).
Proof.
  intros Hl Hfile Hloads. unfold run_experiment.
  rewrite (bind_eq_ok _ _ _ _ _ Hl).
  assert (Hw : (if bool_decide (err <> EmptyString)
                then print_to Stderr err else ret tt) s1
               = (Ok tt, echo_stderr err s1)).
  { unfold echo_stderr. case_bool_decide; reflexivity. }
  rewrite (bind_eq_ok _ _ _ _ _ Hw).
  rewrite bool_decide_eq_false_2 by lia.
  assert (Hfs : fs (echo_stderr err s1) = fs s1).
  { unfold echo_stderr. case_bool_decide; reflexivity. }
  assert (Hr : load_json
                 (osp_join (run_dir ("./" +:+ folder_name) run_num) "results.json")
                 (echo_stderr err s1) = (Ok v, echo_stderr err s1)).
  { unfold load_json, bind, read_text. rewrite Hfs, Hfile, Hloads. reflexivity. }
  rewrite (bind_eq_ok _ _ _ _ _ Hr). reflexivity.
Qed.

(** X3.  When the child exits with code 0 and leaves a [results.json] that
    decodes, [run_experiment] returns code 0, the follow-up prompt built from
    the decoded results, and the decoded results themselves; the files are
    left as the child left them (nothing is removed on this branch). *)
Theorem run_experiment_success
  folder_name run_num timeout (s s1 : St) (err c : string) (v : Json) :
  launch folder_name run_num timeout s = (Ok (Completed 0 err), s1) ->
  fs s1 !! osp_join (run_dir ("./" +:+ folder_name) run_num) "results.json"
  = Some (File c) ->
  json_loads c = Some v ->
  exists s',
    run_experiment folder_name run_num timeout s
    = (Ok (0, completed_prompt run_num v, v), s')
    /\ fs s' = fs s1 /\ ext s' = ext s1.
Proof.
  intros Hl Hfile Hloads. exists (echo_stderr err s1).
  split; [eapply run_experiment_zero_exit; eassumption|].
  unfold echo_stderr. case_bool_decide; auto.
Qed.

(** A return code other than 0 always comes with the empty mapping. *)
Lemma run_experiment_failed_results folder_name run_num timeout
  (s s' : St) rc np res :
  run_experiment folder_name run_num timeout s = (Ok (rc, np, res), s') ->
  rc <> 0 -> res = JObj [].
Proof.
  unfold run_experiment. intros H Hrc.
  apply bind_ok_inv in H as (o & s1 & _ & H).
  destruct o as [returncode err| |e].
  - apply bind_ok_inv in H as ([] & s2 & _ & H).
    case_bool_decide as Hcode.
    + apply bind_ok_inv in H as ([] & s3 & _ & H).
      apply bind_ok_inv in H as ([] & s4 & _ & H).
      apply bind_ok_inv in H as ([] & s5 & _ & H).
      unfold ret in H. congruence.
    + apply bind_ok_inv in H as (v & s3 & _ & H).
      unfold ret in H. injection H as <- _ _ _. contradiction.
  - apply bind_ok_inv in H as ([] & s2 & _ & H).
    apply bind_ok_inv in H as ([] & s3 & _ & H).
    unfold ret in H. congruence.
  - discriminate.
Qed.

(** After a pass that goes round again either the counter is 1 (the attempt
    succeeded) or the results at hand are the empty mapping (it failed). *)
Lemma loop_body_continue_results folder_name l s l' s' :
  loop_body folder_name l s = (Ok (Continue l'), s') ->
  current_iter l' = 1 \/ results l' = Some (JObj []).
Proof.
  unfold loop_body. case_bool_decide as Hci.
  { unfold bind, print, print_to, modify, ret. discriminate. }
  intros H.
  apply bind_ok_inv in H as (out & s1 & _ & H).
  apply bind_ok_inv in H as ([] & s1' & _ & H).
  destruct (contains "ALL_COMPLETED" out); [discriminate|].
  apply bind_ok_inv in H as ([[rc np] res] & s2 & Hrun & H).
  injection H as <- <-.
  case_bool_decide as Hrc; simpl; [left; reflexivity|].
  right. f_equal. eapply run_experiment_failed_results; eassumption.
Qed.

Lemma while_loop_failed_results fuel folder_name :
  forall l s l' s',
  (2 <= current_iter l -> results l = Some (JObj [])) ->
  while_loop fuel folder_name l s = (Ok l', s') ->
  2 <= current_iter l' -> results l' = Some (JObj []).
Proof.
  induction fuel as [|fuel IH]; intros l s l' s' Hinv; simpl.
  - case_bool_decide as Hrun; [discriminate|].
    intros H. injection H as <- <-. exact Hinv.
  - case_bool_decide as Hrun.
    2:{ intros H. injection H as <- <-. exact Hinv. }
    intros H. apply bind_ok_inv in H as (f & s1 & Hbody & H).
    destruct f as [l1|l1].
    + eapply IH; [|exact H].
      destruct (loop_body_continue_results _ _ _ _ _ Hbody) as [H1 | Hres];
        [lia | auto].
    + apply loop_body_break in Hbody as (-> & _).
      injection H as <- <-. exact Hinv.
Qed.

(** X4.  Whenever [perform_experiments] reports failure, the results it
    returns are the empty mapping: what earlier successful runs produced is
    not handed on. *)
Theorem failure_returns_empty_results idea folder_name (s s' : St) (r : Json) :
  perform_experiments idea folder_name s = (Ok (false, r), s') ->
  r = JObj [].
Proof.
  unfold perform_experiments. intros H.
  apply bind_ok_inv in H as (p & s0 & _ & H).
  apply bind_ok_inv in H as (l & s1 & Hloop & H).
  assert (Hinit : 2 <= current_iter (mkLocals 0 1 p None) ->
                  results (mkLocals 0 1 p None) = Some (JObj []))
    by (simpl; lia).
  pose proof (while_loop_failed_results _ _ _ _ _ _ Hinit Hloop) as Hinv.
  case_bool_decide as Hci.
  - apply bind_ok_inv in H as ([] & s2 & _ & H).
    apply bind_ok_inv in H as (r' & s3 & Hread & H).
    unfold ret in H. injection H as <- _.
    unfold read_results in Hread. unfold MAX_ITERS in Hci.
    rewrite Hinv in Hread by lia. unfold ret in Hread. congruence.
  - apply bind_ok_inv in H as (r' & s3 & _ & H). discriminate.
Qed.

(** ** The snapshot of the code *)

(** X5.  When [experiment.py] is missing from the folder, [run_experiment]
    raises [FileNotFoundError] from the snapshot copy: no child is launched,
    and nothing but the trace entry of the call has changed. *)
Theorem run_experiment_without_code folder_name run_num timeout (s : St) :
  fs s !! osp_join folder_name "experiment.py" = None ->
  run_experiment folder_name run_num timeout s
  = (Raise (FileNotFoundError (osp_join folder_name "experiment.py")),
     mkSt (fs s) (ext s) (trace s ++ [RunExperiment run_num]) (console s)).
Proof.
  intros Hnone. unfold run_experiment, launch.
  apply bind_eq_raise. unfold bind at 1. unfold log at 1, modify at 1.
  apply bind_eq_raise. unfold shutil_copy. apply bind_eq_raise.
  unfold read_text. cbn [fs]. rewrite Hnone. reflexivity.
Qed.

(** X6.  Otherwise the child is launched on files in which
    [run_{run_num}.py] holds a copy of [experiment.py] as it was when the
    attempt began (unless a directory sits at that path, into which the copy
    goes). *)
Theorem launch_snapshots_code folder_name run_num timeout (s : St) (c : string) :
  fs s !! osp_join folder_name "experiment.py" = Some (File c) ->
  fs s !! osp_join folder_name ("run_" +:+ pretty run_num +:+ ".py")
  <> Some Dir ->
  launch folder_name run_num timeout s
  = run_subprocess
      ["python"; "experiment.py"; "--out_dir=run_" +:+ pretty run_num]
      ("./" +:+ folder_name) timeout
      (mkSt (<[osp_join folder_name ("run_" +:+ pretty run_num +:+ ".py")
               := File c]> (fs s))
            (ext s) (trace s ++ [RunExperiment run_num]) (console s)).
Proof.
  intros Hsrc Hdst. unfold launch.
  unfold bind at 1. unfold log at 1, modify at 1.
  unfold bind at 1. unfold shutil_copy. unfold bind at 1.
  unfold read_text. cbn [fs]. rewrite Hsrc.
  unfold modify. cbn [fs].
  destruct (fs s !! osp_join folder_name ("run_" +:+ pretty run_num +:+ ".py"))
    as [[d|]|]; try reflexivity.
  contradiction.
Qed.

(** ** The idea's fields *)

(** The keys of the idea that the first prompt reads. *)
Definition prompt_keys : list string :=
  ["narrative_perspective"; "theme"; "target_demographics"; "core_connection";
   "unique_hook"; "protagonist_choice"; "tone_and_style"; "world_expansion";
   "fan_service"].

(** X7.  [perform_experiments] never reads the idea's
    [novel_structure_models]: the prompt carries the literal list of line 106
    in its place, so setting the field to any value changes nothing. *)
Theorem structure_model_is_not_read idea folder_name (v : Json) (s : St) :
  perform_experiments (<["novel_structure_models" := v]> idea) folder_name s
  = perform_experiments idea folder_name s.
Proof.
  unfold perform_experiments.
  assert (Hp : first_prompt (<["novel_structure_models" := v]> idea)
               = first_prompt idea).
  { unfold first_prompt, getitem.
    rewrite !lookup_insert_ne by discriminate. reflexivity. }
  rewrite Hp. reflexivity.
Qed.

(** X8.  When the idea lacks one of the nine fields the first prompt reads,
    [perform_experiments] raises [KeyError] for a missing one before anything
    else happens: the state is as it was. *)
Theorem missing_field_raises idea folder_name (s : St) (key : string) :
  In key prompt_keys ->
  idea !! key = None ->
  exists k,
    In k prompt_keys /\ idea !! k = None
    /\ perform_experiments idea folder_name s = (Raise (KeyError k), s).
Proof.
  intros Hin Hnone. unfold perform_experiments.
  assert (Hp : exists k, In k prompt_keys /\ idea !! k = None
                         /\ first_prompt idea s = (Raise (KeyError k), s)).
  { unfold first_prompt, getitem, prompt_keys in *.
    repeat match goal with
           | |- context [bind (match idea !! ?k with _ => _ end)] =>
               destruct (idea !! k) eqn:?;
               [unfold bind at 1; unfold ret at 1
               | exists k; simpl; auto 12]
           end.
    exfalso. simpl in Hin.
    repeat destruct Hin as [<- | Hin]; congruence. }
  destruct Hp as (k & Hk & Hkn & Hp). exists k.
  rewrite (bind_eq_raise _ _ _ _ _ Hp). auto.
Qed.

End Experiments.

Arguments mkSt {Ext}.
Arguments fs {Ext}.
Arguments ext {Ext}.
Arguments trace {Ext}.
Arguments console {Ext}.
Arguments print {Ext}.
Arguments run_coder {Ext}.
Arguments launch {Ext}.
Arguments run_experiment {Ext}.
Arguments first_prompt {Ext}.
Arguments loop_body {Ext}.
Arguments while_loop {Ext}.
Arguments perform_experiments {Ext}.
Arguments passes {Ext}.
Arguments echo_stderr {Ext}.

(** ** A scripted world

    The coder's replies and the children's outcomes are read off a script, in
    order; a child may leave its output directory and a results artifact
    behind.  Used to run the model on concrete inputs. *)

Record Child : Type := mkChild {
  outcome : ProcOutcome;
  leaves_dir : bool;
  artifact : option string
}.

Definition Script : Type := (list (Reply string) * list Child)%type.

Definition scripted_coder (prompt : string) (w : FS * Script)
  : Reply string * (FS * Script) :=
  match w with
  | (files, ([], children)) => (Raised (OtherError "no reply left"), w)
  | (files, (r :: replies, children)) => (r, (files, (replies, children)))
  end.

(** The directory named by the [--out_dir=] argument. *)
Definition out_dir (command : list string) : string :=
  match command with
  | [_; _; arg] => drop_str 10 arg
  | _ => EmptyString
  end.

Definition scripted_child (command : list string) (cwd : string) (timeout : Z)
  (w : FS * Script) : ProcOutcome * (FS * Script) :=
  match w with
  | (files, (replies, [])) => (SpawnError (OtherError "no child left"), w)
  | (files, (replies, c :: children)) =>
      let d := osp_join cwd (out_dir command) in
      let files1 := if leaves_dir c then <[d := Dir]> files else files in
      let files2 :=
        match artifact c with
        | Some a => <[osp_join d "results.json" := File a]> files1
        | None => files1
        end in
      (outcome c, (files2, (replies, children)))
  end.

(** The one document the scripted decoder knows. *)
Definition scripted_loads (c : string) : option Json :=
  if bool_decide (c = "{}") then Some (JObj []) else None.

Definition scripted_str (v : Json) : string := "{}".

(** A child that succeeds and writes a readable artifact, one that fails
    with the given stderr and leaves its directory, and a reply without the
    completion marker. *)
Definition child_ok : Child :=
  mkChild (Completed 0 EmptyString) true (Some "{}").
Definition child_fail (err : string) : Child :=
  mkChild (Completed 1 err) true None.
Definition keep_going : Reply string := Returned "edited experiment.py".

Fixpoint repeat_str (n : nat) (s : string) : string :=
  match n with
  | O => EmptyString
  | Datatypes.S k => s +:+ repeat_str k s
  end.

(** A stderr of 1504 characters. *)
Definition long_stderr : string := "lost" +:+ repeat_str 1500 "x".

Definition start (script : Script) : St Script :=
  mkSt {[ "novel/experiment.py" := File "print(1)" ]} script [] [].

Definition an_idea : gmap string Json :=
  list_to_map
    (map (fun k => (k, JStr "x"))
       ["narrative_perspective"; "theme"; "novel_structure_models";
        "target_demographics"; "core_connection"; "unique_hook";
        "protagonist_choice"; "tone_and_style"; "world_expansion";
        "fan_service"; "Name"]).

Definition scripted_experiments (script : Script) : Res (bool * Json) :=
  fst (perform_experiments scripted_coder scripted_child scripted_loads
         scripted_str an_idea "novel" (start script)).

(** ** The verdict of the loop, in the spec's words

    The rounds of an execution as the claim speaks of them: the coder's reply
    carries the completion marker, or the attempt that follows it succeeds or
    fails. *)
Inductive Round : Type :=
| Marker
| Succeeds
| Fails.

(** Success iff the success counter reaches [budget], or the marker appears,
    strictly before [ceiling] consecutive failures accumulate; [None] when
    the rounds end before either. *)
Fixpoint spec_verdict (ceiling budget : nat) (fails successes : nat)
  (rounds : list Round) : option bool :=
  if (successes =? budget)%nat then Some true
  else if (fails =? ceiling)%nat then Some false
  else match rounds with
       | [] => None
       | Marker :: _ => Some true
       | Succeeds :: rest =>
           spec_verdict ceiling budget 0 (Datatypes.S successes) rest
       | Fails :: rest =>
           spec_verdict ceiling budget (Datatypes.S fails) successes rest
       end.

(** The rounds a script holds. *)
Fixpoint rounds_of (replies : list (Reply string)) (children : list Child)
  : list Round :=
  match replies with
  | Returned text :: replies' =>
      if contains "ALL_COMPLETED" text then [Marker]
      else match children with
           | c :: children' =>
               (match outcome c with
                | Completed rc _ => if bool_decide (rc = 0) then Succeeds else Fails
                | _ => Fails
                end) :: rounds_of replies' children'
           | [] => []
           end
  | _ => []
  end.

Definition five_replies : list (Reply string) :=
  [keep_going; keep_going; keep_going; keep_going; keep_going].

(** One success, two failures, and two successes that the loop never gets
    to. *)
Definition success_then_two_failures : list Child :=
  [child_ok; child_fail "boom"; child_fail "boom"; child_ok; child_ok].

(** C1.  Two executions on which [perform_experiments] does not report what
    the claim says.  When the coder's first reply carries [ALL_COMPLETED] the
    marker appears before any failure, yet the call raises
    [UnboundLocalError] instead of returning [True].  When one success is
    followed by two failures the call returns [False] although three
    consecutive failures never accumulated and the remaining attempts would
    have brought the run counter to its budget: after a success
    [current_iter] restarts at 1, not 0. *)
Theorem perform_experiments_verdict_slips :
  (scripted_experiments ([Returned "ALL_COMPLETED"], [])
   = Raise (UnboundLocalError "results")
   /\ spec_verdict 3 3 0 0 (rounds_of [Returned "ALL_COMPLETED"] [])
      = Some true)
  /\ (scripted_experiments (five_replies, success_then_two_failures)
      = Ok (false, JObj [])
      /\ spec_verdict 3 3 0 0 (rounds_of five_replies success_then_two_failures)
         = Some true).
Proof. vm_compute. auto. Qed.

(** Where the counter does start from zero the loop and the spec agree: two
    failures before the first success are tolerated. *)
Example two_failures_then_successes :
  scripted_experiments
    (five_replies,
     [child_fail "boom"; child_fail "boom"; child_ok; child_ok; child_ok])
  = Ok (true, JObj []).
Proof. vm_compute. reflexivity. Qed.

(** ** The theorems at concrete inputs *)

Lemma loop_body_counters_witness :
  exists l' s2,
    loop_body scripted_coder scripted_child scripted_loads scripted_str
      "novel" (mkLocals 0 1 "go" None) (start ([keep_going], [child_ok]))
    = (Ok (Continue l'), s2)
    /\ current_iter l' = 1 /\ run l' = 2.
Proof.
  edestruct (loop_body_counters Script scripted_coder scripted_child
               scripted_loads scripted_str "novel" (mkLocals 0 1 "go" None)
               (start ([keep_going], [child_ok])))
    as (l' & Hbody & Hok & _).
  - reflexivity.
  - reflexivity.
  - reflexivity.
  - reflexivity.
  - exists l'. eexists. split; [exact Hbody|]. apply Hok. reflexivity.
Defined.


Lemma run_experiment_truncates_stderr_witness :
  exists shown kept s',
    run_experiment scripted_child scripted_loads scripted_str "novel" 1 7200
      (start ([], [child_fail long_stderr]))
    = (Ok (1, "Run failed with the following error " +:+ shown, JObj []), s')
    /\ shown = "..." +:+ kept
    /\ String.length kept = 1500%nat.
Proof.
  edestruct (run_experiment_truncates_stderr Script scripted_child
               scripted_loads scripted_str "novel" 1 7200
               (start ([], [child_fail long_stderr])))
    as (shown & s' & Hrun & _ & Hlong).
  - vm_compute. reflexivity.
  - lia.
  - intros c. vm_compute. discriminate.
  - destruct Hlong as (dropped & kept & _ & Hlen & _ & Hshown).
    { apply Nat.ltb_lt. vm_compute. reflexivity. }
    exists shown, kept, s'. repeat split; assumption.
Defined.

Lemma perform_experiments_needs_attempt_witness :
  (forall b r s',
     perform_experiments scripted_coder scripted_child scripted_loads
       scripted_str an_idea "novel"
       (start ([keep_going; Returned "ALL_COMPLETED"], [child_ok]))
     = (Ok (b, r), s') ->
     (0 < runs_launched (trace s'))%nat)
  /\ scripted_experiments ([Returned "ALL_COMPLETED"], [])
     = Raise (UnboundLocalError "results").
Proof.
  split.
  - intros b r s' H.
    exact (proj1 (perform_experiments_needs_attempt Script scripted_coder
                    scripted_child scripted_loads scripted_str an_idea "novel"
                    (start ([keep_going; Returned "ALL_COMPLETED"], [child_ok])))
                 b r s' H).
  - unfold scripted_experiments.
    erewrite (proj2 (perform_experiments_needs_attempt Script scripted_coder
                       scripted_child scripted_loads scripted_str an_idea
                       "novel" (start ([Returned "ALL_COMPLETED"], [])))).
    + reflexivity.
    + vm_compute. reflexivity.
    + vm_compute. reflexivity.
    + reflexivity.
Defined.

(** The call of the first part of the witness above does return. *)
Example one_success_then_marker :
  scripted_experiments ([keep_going; Returned "ALL_COMPLETED"], [child_ok])
  = Ok (true, JObj []).
Proof. vm_compute. reflexivity. Qed.

(** ** The further properties at concrete inputs *)

(** Seven attempts are reached: two failures before each of three
    successes, with one failure less before the last two. *)
Example seven_attempts :
  runs_launched
    (trace
       (snd (perform_experiments scripted_coder scripted_child scripted_loads
               scripted_str an_idea "novel"
               (start ([keep_going; keep_going; keep_going; keep_going;
                        keep_going; keep_going; keep_going; keep_going],
                       [child_fail "a"; child_fail "b"; child_ok;
                        child_fail "c"; child_ok; child_fail "d"; child_ok;
                        child_ok])))))
  = 7%nat.
Proof. vm_compute. reflexivity. Qed.

(** A success, a failure, then the marker: the call reports success with
    the empty mapping of the failed attempt. *)
Example success_with_empty_results :
  scripted_experiments
    ([keep_going; keep_going; Returned "ALL_COMPLETED"],
     [child_ok; child_fail "boom"])
  = Ok (true, JObj []).
Proof. vm_compute. reflexivity. Qed.

Lemma run_experiment_success_witness :
  exists s',
    run_experiment scripted_child scripted_loads scripted_str "novel" 2 7200
      (start ([], [child_ok]))
    = (Ok (0, completed_prompt scripted_str 2 (JObj []), JObj []), s')
    /\ fs s' !! "./novel/run_2/results.json" = Some (File "{}").
Proof.
  edestruct (run_experiment_success Script scripted_child scripted_loads
               scripted_str "novel" 2 7200 (start ([], [child_ok])))
    as (s' & Hrun & Hfs & _).
  - vm_compute. reflexivity.
  - vm_compute. reflexivity.
  - reflexivity.
  - exists s'. split; [exact Hrun|]. rewrite Hfs. vm_compute. reflexivity.
Defined.

Lemma failure_returns_empty_results_witness :
  exists r s',
    perform_experiments scripted_coder scripted_child scripted_loads
      scripted_str an_idea "novel"
      (start ([keep_going; keep_going; keep_going],
              [child_fail "a"; child_fail "b"; child_fail "c"]))
    = (Ok (false, r), s')
    /\ r = JObj [].
Proof.
  eexists. eexists. split; [vm_compute; reflexivity|].
  eapply (failure_returns_empty_results Script scripted_coder scripted_child
            scripted_loads scripted_str an_idea "novel"
            (start ([keep_going; keep_going; keep_going],
                    [child_fail "a"; child_fail "b"; child_fail "c"]))).
  vm_compute. reflexivity.
Defined.

Lemma run_experiment_without_code_witness :
  fst (run_experiment scripted_child scripted_loads scripted_str "empty" 1 7200
         (start ([], [child_ok])))
  = Raise (FileNotFoundError "empty/experiment.py").
Proof.
  rewrite (run_experiment_without_code Script scripted_child scripted_loads
             scripted_str "empty" 1 7200 (start ([], [child_ok]))).
  - reflexivity.
  - vm_compute. reflexivity.
Defined.

Lemma launch_snapshots_code_witness :
  exists s1,
    launch scripted_child "novel" 3 7200 (start ([], [child_ok]))
    = (Ok (Completed 0 EmptyString), s1)
    /\ fs s1 !! "novel/run_3.py" = Some (File "print(1)").
Proof.
  rewrite (launch_snapshots_code Script scripted_child "novel" 3 7200
             (start ([], [child_ok])) "print(1)").
  - eexists. split; [vm_compute; reflexivity|]. vm_compute. reflexivity.
  - vm_compute. reflexivity.
  - vm_compute. discriminate.
Defined.

Lemma missing_field_raises_witness :
  exists k,
    In k prompt_keys /\ delete "theme" an_idea !! k = None
    /\ perform_experiments scripted_coder scripted_child scripted_loads
         scripted_str (delete "theme" an_idea) "novel" (start ([], []))
       = (Raise (KeyError k), start ([], [])).
Proof.
  apply (missing_field_raises Script scripted_coder scripted_child
           scripted_loads scripted_str (delete "theme" an_idea) "novel"
           (start ([], [])) "theme").
  - simpl. auto.
  - vm_compute. reflexivity.
Defined.

End PerformExperiments.

(** * [ai_novelist/generate_ideas.py] *)

Module GenerateIdeas.

(** What a call of the model is asked: the first-draft prompt with the values
    of its three placeholders, or the reflection prompt of a round. *)
Inductive Ask : Type :=
| FirstDraft (task_description summary prev_idea : string)
| Reflection (current_round num_reflections : Z).

Section Ideas.

(** The state of the model's client, and the message records of a
    conversation history. *)
Variable Ext : Type.
Variable Msg : Type.

(** One call of [get_response_from_llm], with what came back. *)
Inductive Event : Type :=
| ModelCall (ask : Ask) (reply : Reply (string * list Msg)).

(** The world, and the two locals of [generate_ideas] that outlive the [try]
    block of an idea. *)
Record St : Type := mkSt {
  fs : FS;
  ext : Ext;
  calls : list Event;
  console : list string;
  prev_idea : string;
  idea_str_archive : list string
}.

(** [get_response_from_llm(prompt, client, model, system_message,
    msg_history)] of [ai_novelist/llm.py]: the reply text and the history
    with the new turns. *)
Variable get_response_from_llm :
  string -> Json -> list Msg -> Ext -> Reply (string * list Msg) * Ext.
(** [extract_json_between_markers(text)] of [ai_novelist/llm.py]; [None] when
    the reply holds no valid JSON payload. *)
Variable extract_json_between_markers : string -> option Json.
(** [json.load] / [json.loads] ([None] is [JSONDecodeError]), [json.dumps],
    [json.dump(..., indent=4)], [str(v)] and [str(e)]. *)
Variable json_loads : string -> option Json.
Variable json_dumps : Json -> string.
Variable json_dumps_indent : Json -> string.
Variable py_str : Json -> string.
Variable exn_str : Exn -> string.
(** [idea_first_prompt.format(task_description=..., summary=...,
    prev_idea=...)] and [idea_reflection_prompt.format(current_round=...,
    num_reflections=...)]: the two templates with their placeholders
    filled. *)
Variable idea_first_prompt : string -> string -> string -> string.
Variable idea_reflection_prompt : Z -> Z -> string.

Definition render (a : Ask) : string :=
  match a with
  | FirstDraft task_description summary prev =>
      idea_first_prompt task_description summary prev
  | Reflection current_round num_reflections =>
      idea_reflection_prompt current_round num_reflections
  end.

Definition print (text : string) : M St unit :=
  modify (fun s =>
    mkSt (fs s) (ext s) (calls s) (console s ++ [text])
         (prev_idea s) (idea_str_archive s)).

Definition set_prev_idea (v : string) : M St unit :=
  modify (fun s =>
    mkSt (fs s) (ext s) (calls s) (console s) v (idea_str_archive s)).

Definition set_archive (v : list string) : M St unit :=
  modify (fun s => mkSt (fs s) (ext s) (calls s) (console s) (prev_idea s) v).

(** [idea_str_archive.append(v)]. *)
Definition archive_append (v : string) : M St unit :=
  modify (fun s =>
    mkSt (fs s) (ext s) (calls s) (console s) (prev_idea s)
         (idea_str_archive s ++ [v])).

(** [osp.exists(p)]. *)
Definition path_exists (p : string) : M St bool :=
  gets (fun s => bool_decide (is_Some (fs s !! p))).

(** [with open(p, "r") as f: json.load(f)]. *)
Definition load_json (p : string) : M St Json :=
  fun s =>
    match fs s !! p with
    | Some (File c) =>
        match json_loads c with
        | Some v => (Ok v, s)
        | None => (Raise JSONDecodeError, s)
        end
    | Some Dir => (Raise (IsADirectoryError p), s)
    | None => (Raise (FileNotFoundError p), s)
    end.

(** [with open(p, "w") as f: json.dump(v, f, indent=4)]. *)
Definition dump_json (p : string) (v : Json) : M St unit :=
  fun s =>
    match fs s !! p with
    | Some Dir => (Raise (IsADirectoryError p), s)
    | _ => (Ok tt,
            mkSt (<[p := File (json_dumps_indent v)]> (fs s)) (ext s) (calls s)
                 (console s) (prev_idea s) (idea_str_archive s))
    end.

Fixpoint assoc (key : string) (members : list (string * Json)) : option Json :=
  match members with
  | [] => None
  | (k, v) :: rest => if bool_decide (k = key) then Some v else assoc key rest
  end.

(** [d[key]] on a decoded document. *)
Definition getitem (d : Json) (key : string) : M St Json :=
  match d with
  | JObj members =>
      match assoc key members with
      | Some v => ret v
      | None => raise (KeyError key)
      end
  | _ => raise TypeError
  end.

(** [for x in v], as far as getting the items goes. *)
Definition iterate (v : Json) : M St (list Json) :=
  match py_iter v with
  | Some items => ret items
  | None => raise TypeError
  end.

(** One call of the model, recorded with its reply. *)
Definition ask_model (a : Ask) (system_message : Json) (msg_history : list Msg)
  : M St (string * list Msg) :=
  fun s =>
    let '(r, ext') := get_response_from_llm (render a) system_message
                        msg_history (ext s) in
    (of_reply r,
     mkSt (fs s) ext' (calls s ++ [ModelCall a r]) (console s)
          (prev_idea s) (idea_str_archive s)).

(** [json_output = extract_json_between_markers(text)] followed by
    [assert json_output is not None, "..."]. *)
Definition extract_or_fail (text : string) : M St Json :=
  match extract_json_between_markers text with
  | Some v => ret v
  | None => raise (AssertionError "Failed to extract JSON from LLM output")
  end.

(** [for j in range(num_reflections - 1): ...] (lines 174-193), with
    [rounds] passes left and [j] the loop variable. *)
Fixpoint reflections (prompt : Json) (num_reflections : Z) (rounds : nat)
  (j : Z) (msg_history : list Msg) (json_output : Json) : M St Json :=
  match rounds with
  | O => ret json_output
  | S rounds' =>
      print ("Iteration " +:+ pretty (j + 2) +:+ "/" +:+ pretty num_reflections) ;;
      system_message <- getitem prompt "system" ;;
      r <- ask_model (Reflection (j + 2) num_reflections) system_message
             msg_history ;;
      let '(text, msg_history') := r in
      json_output' <- extract_or_fail text ;;
      print (py_str json_output') ;;
      if contains "I am done" text then
        print ("Idea generation converged after " +:+ pretty (j + 2)
               +:+ " iterations.") ;;
        ret json_output'
      else
        reflections prompt num_reflections rounds' (j + 1) msg_history'
          json_output'
  end.

(** The body of the [try] block of one idea (lines 152-195). *)
Definition idea_rounds (prompt original_work : Json) (num_reflections : Z)
  : M St unit :=
  print ("Iteration 1/" +:+ pretty num_reflections) ;;
  task_description <- getitem prompt "task_description" ;;
  summary <- getitem original_work "summary" ;;
  prev <- gets prev_idea ;;
  system_message <- getitem prompt "system" ;;
  r <- ask_model (FirstDraft (py_str task_description) (py_str summary) prev)
         system_message [] ;;
  let '(text, msg_history) := r in
  json_output <- extract_or_fail text ;;
  items <- iterate json_output ;;
  set_prev_idea (str_join "

" (map json_dumps items)) ;;
  json_output <-
    (if bool_decide (num_reflections > 1)
     then reflections prompt num_reflections (Z.to_nat (num_reflections - 1))
            0 msg_history json_output
     else ret json_output) ;;
  archive_append (json_dumps json_output).

(** Lines 149-150: the two lines printed before an idea's [try] block. *)
Definition announce (max_num_generations i : Z) : M St unit :=
  print EmptyString ;;
  print ("Generating idea " +:+ pretty (i + 1) +:+ "/"
         +:+ pretty max_num_generations).

(** One pass of [for i in range(max_num_generations)]: the [try] block and
    its handler (lines 149-198). *)
Definition one_idea (prompt original_work : Json)
  (max_num_generations num_reflections : Z) (i : Z) : M St unit :=
  announce max_num_generations i ;;
  try_except (idea_rounds prompt original_work num_reflections)
    (fun e => print ("Failed to generate idea: " +:+ exn_str e)).

Fixpoint ideas_loop (prompt original_work : Json)
  (max_num_generations num_reflections : Z) (todo : nat) (i : Z) : M St unit :=
  match todo with
  | O => ret tt
  | S todo' =>
      one_idea prompt original_work max_num_generations num_reflections i ;;
      ideas_loop prompt original_work max_num_generations num_reflections
        todo' (i + 1)
  end.

(** [[json.loads(idea_str) for idea_str in idea_str_archive]]. *)
Fixpoint loads_all (archive : list string) : M St (list Json) :=
  match archive with
  | [] => ret []
  | x :: rest =>
      match json_loads x with
      | Some v => vs <- loads_all rest ;; ret (v :: vs)
      | None => raise JSONDecodeError
      end
  end.

(** [for idea in ideas: print(idea)]. *)
Fixpoint print_all (items : list Json) : M St unit :=
  match items with
  | [] => ret tt
  | x :: rest => print (py_str x) ;; print_all rest
  end.

(** The [try] block of the skip branch (lines 120-125). *)
Definition load_existing (base_dir : string) : M St Json :=
  ideas <- load_json (osp_join base_dir "ideas.json") ;;
  print "Loaded existing ideas:" ;;
  items <- iterate ideas ;;
  print_all items ;;
  ret ideas.

(** Lines 131-205: the generation proper. *)
Definition generate (base_dir : string) (max_num_generations num_reflections : Z)
  : M St Json :=
  set_archive [] ;;
  prompt <- load_json (osp_join base_dir "prompt.json") ;;
  original_work <- load_json (osp_join base_dir "original_work_info.json") ;;
  set_prev_idea EmptyString ;;
  let seed_path := osp_join base_dir "seed_idea.json" in
  seeded <- path_exists seed_path ;;
  (if seeded then
     seed_ideas <- load_json seed_path ;;
     items <- iterate seed_ideas ;;
     set_prev_idea (str_join "

" (map json_dumps items))
   else ret tt) ;;
  ideas_loop prompt original_work max_num_generations num_reflections
    (Z.to_nat max_num_generations) 0 ;;
  archive <- gets idea_str_archive ;;
  ideas <- loads_all archive ;;
  dump_json (osp_join base_dir "ideas.json") (JArr ideas) ;;
  ret (JArr ideas).

(** [generate_ideas(base_dir, client, model, skip_generation,
    max_num_generations, num_reflections)]. *)
Definition generate_ideas (base_dir : string) (skip_generation : bool)
  (max_num_generations num_reflections : Z) : M St Json :=
  if skip_generation then
    fun s =>
      match load_existing base_dir s with
      | (Raise (FileNotFoundError _), s') =>
          (print "No existing ideas found. Generating new ideas." ;;
           generate base_dir max_num_generations num_reflections) s'
      | (Raise JSONDecodeError, s') =>
          (print "Error decoding existing ideas. Generating new ideas." ;;
           generate base_dir max_num_generations num_reflections) s'
      | r => r
      end
  else generate base_dir max_num_generations num_reflections.

(** ** The calls one idea makes *)

(** A call that ends its idea: the model call raised, or its reply holds no
    JSON payload. *)
Definition failed (e : Event) : bool :=
  match e with
  | ModelCall _ (Returned (text, _)) =>
      match extract_json_between_markers text with
      | Some _ => false
      | None => true
      end
  | ModelCall _ (Raised _) => true
  end.

(** The reply of a call carries the convergence phrase. *)
Definition marked (e : Event) : bool :=
  match e with
  | ModelCall _ (Returned (text, _)) => contains "I am done" text
  | ModelCall _ (Raised _) => false
  end.

Definition is_reflection (e : Event) : bool :=
  match e with
  | ModelCall (Reflection _ _) _ => true
  | ModelCall (FirstDraft _ _ _) _ => false
  end.

(** The calls of the reflection loop from loop variable [j] on: round
    [j + 2], then round [j + 3], ...; a call is followed by another only when
    its reply was extracted and does not carry the phrase. *)
Inductive reflection_run (num_reflections : Z) : Z -> list Event -> Prop :=
| run_nil j : reflection_run num_reflections j []
| run_cons j r rest :
    (rest <> [] ->
     failed (ModelCall (Reflection (j + 2) num_reflections) r) = false
     /\ marked (ModelCall (Reflection (j + 2) num_reflections) r) = false) ->
    reflection_run num_reflections (j + 1) rest ->
    reflection_run num_reflections j
      (ModelCall (Reflection (j + 2) num_reflections) r :: rest).

(** The local [prev_idea] after a first-draft call: the joined JSON strings
    of the items of its payload when the reply was extracted and could be
    iterated, and what it was otherwise. *)
Definition prev_idea_after (old : string) (reply : Reply (string * list Msg))
  : string :=
  match reply with
  | Returned (text, _) =>
      match extract_json_between_markers text with
      | Some v =>
          match py_iter v with
          | Some items => str_join "

" (map json_dumps items)
          | None => old
          end
      | None => old
      end
  | Raised _ => old
  end.

(** Closes the case of a run that ended with the calls [l]. *)
Ltac ended_with H l :=
  injection H as <- <-; exists l; simpl; rewrite ?app_nil_r;
  repeat match goal with |- _ /\ _ => split end;
  try reflexivity; try lia; try discriminate;
  try (constructor; [intros Hne; contradiction | constructor]);
  try (constructor; fail).

Lemma reflections_spec prompt num_reflections rounds :
  forall j msg_history json_output s res s',
  reflections prompt num_reflections rounds j msg_history json_output s
  = (res, s') ->
  exists refl,
    calls s' = calls s ++ refl
    /\ reflection_run num_reflections j refl
    /\ (length refl <= rounds)%nat
    /\ prev_idea s' = prev_idea s
    /\ idea_str_archive s' = idea_str_archive s
    /\ fs s' = fs s
    /\ (forall v, res = Ok v -> Forall (fun e => failed e = false) refl).
Proof.
  induction rounds as [|rounds IH]; intros j h jo s res s' H.
  - ended_with H (@nil Event).
  - cbn [reflections] in H. unfold bind at 1 in H.
    unfold print at 1, modify at 1 in H.
    unfold bind at 1 in H. unfold getitem at 1 in H.
    destruct prompt as [| | | | |members];
      try (ended_with H (@nil Event); fail).
    destruct (assoc "system" members) as [system_message|];
      [|ended_with H (@nil Event)].
    unfold ret at 1 in H. unfold bind at 1 in H.
    unfold ask_model at 1 in H. cbn [ext] in H.
    destruct (get_response_from_llm _ system_message h (ext s))
      as [reply ext'] eqn:Ellm.
    set (ev := ModelCall (Reflection (j + 2) num_reflections) reply).
    destruct reply as [[text h']|e]; cbn [of_reply] in H; [|ended_with H [ev]].
    unfold bind at 1 in H. unfold extract_or_fail at 1 in H.
    destruct (extract_json_between_markers text) as [jo'|] eqn:Eex;
      [|ended_with H [ev]].
    unfold ret at 1 in H. unfold bind at 1 in H.
    unfold print at 1, modify at 1 in H.
    destruct (contains "I am done" text) eqn:Emark.
    + unfold bind, print, modify, ret in H. ended_with H [ev].
      intros _ _. constructor; [|constructor].
      simpl. rewrite Eex. reflexivity.
    + apply IH in H
        as (refl & Hcalls & Hrun & Hlen & Hprev & Harch & Hfs & Hok).
      exists (ev :: refl). rewrite Hcalls, Hprev, Harch, Hfs. simpl.
      rewrite <- app_assoc. simpl.
      repeat match goal with |- _ /\ _ => split end; auto; try lia.
      * constructor; [|exact Hrun]. intros _. simpl. rewrite Eex, Emark. auto.
      * intros v Hres. constructor; [simpl; rewrite Eex; reflexivity|].
        eapply Hok. exact Hres.
Qed.

(** What a call does to the local [prev_idea]: only a first-draft call can
    change it. *)
Definition prev_step (old : string) (e : Event) : string :=
  match e with
  | ModelCall (FirstDraft _ _ _) reply => prev_idea_after old reply
  | ModelCall (Reflection _ _) _ => old
  end.

(** The local [prev_idea] after the calls [events], starting from [old]. *)
Definition prev_idea_through (old : string) (events : list Event) : string :=
  fold_left prev_step events old.

(** The calls of one idea: none (a key of the prompt files is missing), or a
    first-draft call that embeds [prev], followed by reflection rounds that
    are only there when the first reply was extracted. *)
Definition idea_calls (num_reflections : Z) (prev : string)
  (new : list Event) : Prop :=
  new = []
  \/ exists td sm reply refl,
       new = ModelCall (FirstDraft td sm prev) reply :: refl
       /\ (refl <> [] ->
           failed (ModelCall (FirstDraft td sm prev) reply) = false)
       /\ reflection_run num_reflections 0 refl
       /\ (length refl <= Z.to_nat (num_reflections - 1))%nat.

Lemma prev_idea_through_cons old e rest :
  prev_idea_through old (e :: rest) = prev_idea_through (prev_step old e) rest.
Proof. reflexivity. Qed.

Lemma reflection_run_prev num_reflections j refl old :
  reflection_run num_reflections j refl ->
  prev_idea_through old refl = old.
Proof. induction 1; simpl; auto. Qed.

Lemma total_getitem d key : total (getitem d key).
Proof.
  unfold getitem. destruct d; try apply total_raise.
  destruct (assoc key members); [apply total_ret | apply total_raise].
Qed.

Lemma total_ask_model a system_message msg_history :
  total (ask_model a system_message msg_history).
Proof.
  intros s. unfold ask_model.
  destruct (get_response_from_llm _ _ _ _) as [[x|e] ext']; discriminate.
Qed.

Lemma total_extract_or_fail text : total (extract_or_fail text).
Proof.
  unfold extract_or_fail.
  destruct (extract_json_between_markers text);
    [apply total_ret | apply total_raise].
Qed.

Lemma total_reflections prompt num_reflections rounds :
  forall j msg_history json_output,
  total (reflections prompt num_reflections rounds j msg_history json_output).
Proof.
  induction rounds as [|rounds IH]; intros j h jo; cbn [reflections].
  - apply total_ret.
  - apply total_bind; [apply total_modify|]. intros _.
    apply total_bind; [apply total_getitem|]. intros system_message.
    apply total_bind; [apply total_ask_model|]. intros [text h'].
    apply total_bind; [apply total_extract_or_fail|]. intros jo'.
    apply total_bind; [apply total_modify|]. intros _.
    destruct (contains "I am done" text); [|apply IH].
    apply total_bind; [apply total_modify|]. intros _. apply total_ret.
Qed.

Lemma idea_rounds_spec prompt original_work num_reflections s res s' :
  idea_rounds prompt original_work num_reflections s = (res, s') ->
  exists new,
    calls s' = calls s ++ new
    /\ fs s' = fs s
    /\ idea_calls num_reflections (prev_idea s) new
    /\ prev_idea s' = prev_idea_through (prev_idea s) new
    /\ (res = Ok tt ->
        Forall (fun e => failed e = false) new /\ new <> []
        /\ exists entry, idea_str_archive s' = idea_str_archive s ++ [entry])
    /\ (forall e, res = Raise e -> idea_str_archive s' = idea_str_archive s)
    /\ res <> Diverge.
Proof.
  intros H. unfold idea_rounds in H.
  unfold bind at 1 in H. unfold print at 1, modify at 1 in H.
  unfold bind at 1 in H. unfold getitem at 1 in H.
  assert (Hearly : forall e s0,
            calls s0 = calls s -> fs s0 = fs s -> prev_idea s0 = prev_idea s ->
            idea_str_archive s0 = idea_str_archive s ->
            (Raise e, s0) = (res, s') ->
            exists new,
              calls s' = calls s ++ new
              /\ fs s' = fs s
              /\ idea_calls num_reflections (prev_idea s) new
              /\ prev_idea s' = prev_idea_through (prev_idea s) new
              /\ (res = Ok tt ->
                  Forall (fun e => failed e = false) new /\ new <> []
                  /\ exists entry,
                       idea_str_archive s' = idea_str_archive s ++ [entry])
              /\ (forall e, res = Raise e ->
                            idea_str_archive s' = idea_str_archive s)
              /\ res <> Diverge).
  { intros e s0 Hc Hf Hp Ha Heq. injection Heq as <- <-. exists [].
    rewrite app_nil_r. repeat split; auto; try discriminate. left. reflexivity. }
  destruct prompt as [| | | | |members];
    try (eapply Hearly; [| | | |exact H]; reflexivity).
  destruct (assoc "task_description" members) as [td|];
    [|eapply Hearly; [| | | |exact H]; reflexivity].
  unfold ret at 1 in H. unfold bind at 1 in H. unfold getitem at 1 in H.
  destruct original_work as [| | | | |ow_members];
    try (eapply Hearly; [| | | |exact H]; reflexivity).
  destruct (assoc "summary" ow_members) as [sm|];
    [|eapply Hearly; [| | | |exact H]; reflexivity].
  unfold ret at 1 in H. unfold bind at 1 in H. unfold gets at 1 in H.
  cbn [prev_idea] in H.
  unfold bind at 1 in H. unfold getitem at 1 in H.
  destruct (assoc "system" members) as [system_message|];
    [|eapply Hearly; [| | | |exact H]; reflexivity].
  clear Hearly.
  unfold ret at 1 in H. unfold bind at 1 in H.
  unfold ask_model at 1 in H. cbn [ext] in H.
  destruct (get_response_from_llm _ system_message [] (ext s))
    as [reply ext'] eqn:Ellm.
  set (first := ModelCall (FirstDraft (py_str td) (py_str sm) (prev_idea s)) reply)
    in *.
  assert (Hlate : forall e s0,
            calls s0 = calls s ++ [first] -> fs s0 = fs s ->
            prev_idea s0 = prev_idea_after (prev_idea s) reply ->
            idea_str_archive s0 = idea_str_archive s ->
            (Raise e, s0) = (res, s') ->
            exists new,
              calls s' = calls s ++ new
              /\ fs s' = fs s
              /\ idea_calls num_reflections (prev_idea s) new
              /\ prev_idea s' = prev_idea_through (prev_idea s) new
              /\ (res = Ok tt ->
                  Forall (fun e => failed e = false) new /\ new <> []
                  /\ exists entry,
                       idea_str_archive s' = idea_str_archive s ++ [entry])
              /\ (forall e, res = Raise e ->
                            idea_str_archive s' = idea_str_archive s)
              /\ res <> Diverge).
  { intros e s0 Hc Hf Hp Ha Heq. injection Heq as <- <-. exists [first].
    repeat split; auto; try discriminate.
    right. exists (py_str td), (py_str sm), reply, [].
    repeat split; [intros Hne; contradiction | constructor | simpl; lia]. }
  destruct reply as [[text h]|e]; cbn [of_reply] in H;
    [|eapply Hlate; [| | | |exact H]; reflexivity].
  unfold bind at 1 in H. unfold extract_or_fail at 1 in H.
  destruct (extract_json_between_markers text) as [jo|] eqn:Eex;
    [|eapply Hlate; [| | | |exact H]; try reflexivity;
      simpl; rewrite Eex; reflexivity].
  unfold ret at 1 in H. unfold bind at 1 in H. unfold iterate at 1 in H.
  destruct (py_iter jo) as [items|] eqn:Eit;
    [|eapply Hlate; [| | | |exact H]; try reflexivity;
      simpl; rewrite Eex, Eit; reflexivity].
  unfold ret at 1 in H. unfold bind at 1 in H.
  unfold set_prev_idea at 1, modify at 1 in H. cbn [fs ext calls console
    prev_idea idea_str_archive] in H.
  match type of H with
  | bind _ _ ?s1 = _ => set (sa := s1) in H
  end.
  assert (Hfirst : failed first = false).
  { simpl. rewrite Eex. reflexivity. }
  assert (Hprev : prev_idea sa = prev_idea_after (prev_idea s) (Returned (text, h))).
  { simpl. rewrite Eex, Eit. reflexivity. }
  unfold bind at 1 in H.
  destruct ((if bool_decide (num_reflections > 1)
             then reflections (JObj members) num_reflections
                    (Z.to_nat (num_reflections - 1)) 0 h jo
             else ret jo) sa) as [r2 s2] eqn:Eloop.
  assert (Hloop : exists refl,
            calls s2 = calls sa ++ refl
            /\ reflection_run num_reflections 0 refl
            /\ (length refl <= Z.to_nat (num_reflections - 1))%nat
            /\ prev_idea s2 = prev_idea sa
            /\ idea_str_archive s2 = idea_str_archive sa
            /\ fs s2 = fs sa
            /\ (forall v, r2 = Ok v -> Forall (fun e => failed e = false) refl)
            /\ r2 <> Diverge).
  { destruct (bool_decide (num_reflections > 1)).
    - pose proof Eloop as Hr. apply reflections_spec in Hr
        as (refl & H1 & H2 & H3 & H4 & H5 & H6 & H7).
      exists refl. repeat split; auto.
      intros ->.
      apply (total_reflections (JObj members) num_reflections
               (Z.to_nat (num_reflections - 1)) 0 h jo sa).
      rewrite Eloop. reflexivity.
    - unfold ret in Eloop. injection Eloop as <- <-. exists [].
      rewrite app_nil_r.
      repeat split; auto; try (simpl; lia); try discriminate; apply run_nil. }
  destruct Hloop as (refl & H1 & H2 & H3 & H4 & H5 & H6 & H7 & H8).
  assert (Hshape : idea_calls num_reflections (prev_idea s) (first :: refl)).
  { right. exists (py_str td), (py_str sm), (Returned (text, h)), refl.
    repeat split; auto. }
  assert (Hthrough : prev_idea_through (prev_idea s) (first :: refl)
                     = prev_idea sa).
  { rewrite prev_idea_through_cons, (reflection_run_prev _ _ _ _ H2).
    symmetry. exact Hprev. }
  destruct r2 as [v|e|].
  - unfold archive_append, modify in H. injection H as <- <-.
    exists (first :: refl). cbn [fs calls prev_idea idea_str_archive].
    rewrite H1, H4, H5, H6, Hthrough. unfold sa.
    cbn [fs calls prev_idea idea_str_archive]. rewrite <- app_assoc.
    repeat split; auto; try discriminate.
    + constructor; [exact Hfirst | eapply H7; reflexivity].
    + eexists. reflexivity.
  - injection H as <- <-.
    exists (first :: refl). rewrite H1, H4, H5, H6, Hthrough. unfold sa.
    cbn [fs calls prev_idea idea_str_archive]. rewrite <- app_assoc.
    repeat split; auto; try discriminate.
  - exfalso. apply H8. reflexivity.
Qed.

(** ** The round budget and the convergence phrase *)

(** A reflection round whose reply carries the convergence phrase. *)
Definition converged (e : Event) : bool := is_reflection e && marked e.

(** The claim of the spec read on the calls of one idea: no call follows a
    round, the first-draft round included, whose reply carries the phrase. *)
Definition stops_at_marked_round (new : list Event) : Prop :=
  forall front e back, new = front ++ e :: back -> marked e = true -> back = [].

Lemma reflection_run_last num_reflections j refl :
  reflection_run num_reflections j refl ->
  forall front e back,
    refl = front ++ e :: back -> back <> [] ->
    failed e = false /\ marked e = false.
Proof.
  induction 1 as [j | j r rest Hhead Hrest IH]; intros front e back Heq Hback.
  - destruct front; discriminate.
  - destruct front as [|x front]; simpl in Heq; injection Heq as Hx Hr.
    + subst. apply Hhead. exact Hback.
    + eapply IH; eassumption.
Qed.

(** In the calls of one idea only the last one can have failed, and only the
    last one can be a reflection round that converged. *)
Lemma idea_calls_last num_reflections prev new :
  idea_calls num_reflections prev new ->
  forall front e back,
    new = front ++ e :: back -> back <> [] ->
    failed e = false /\ converged e = false.
Proof.
  intros [-> | (td & sm & reply & refl & -> & Hfirst & Hrun & _)]
    front e back Heq Hback.
  - destruct front; discriminate.
  - destruct front as [|x front]; simpl in Heq; injection Heq as Hx Hr.
    + subst. split; [|reflexivity]. apply Hfirst.
      destruct back; [contradiction | discriminate].
    + destruct (reflection_run_last _ _ _ Hrun _ _ _ Hr Hback) as (Hf & Hm).
      split; [exact Hf|]. unfold converged. rewrite Hm. apply andb_false_r.
Qed.

Lemma idea_calls_length num_reflections prev new :
  1 <= num_reflections ->
  idea_calls num_reflections prev new ->
  Z.of_nat (length new) <= num_reflections
  /\ Z.of_nat (length (filter (fun e => is_reflection e = true) new))
     <= num_reflections - 1.
Proof.
  intros HN [-> | (td & sm & reply & refl & -> & _ & Hrun & Hlen)].
  - simpl. lia.
  - rewrite filter_cons_False by (simpl; discriminate).
    pose proof (length_filter (fun e => is_reflection e = true) refl).
    simpl. lia.
Qed.

(** C2, as the code has it.  With a round budget [num_reflections] of at
    least 1, one idea calls the model at most [num_reflections] times, of
    which at most [num_reflections - 1] are reflection rounds, and no call
    follows a reflection round whose reply carries [I am done].  The reply
    of the first-draft round is not looked at for the phrase. *)
Theorem idea_rounds_budget prompt original_work num_reflections (s : St) :
  1 <= num_reflections ->
  exists new,
    calls (snd (idea_rounds prompt original_work num_reflections s))
    = calls s ++ new
    /\ Z.of_nat (length new) <= num_reflections
    /\ Z.of_nat (length (filter (fun e => is_reflection e = true) new))
       <= num_reflections - 1
    /\ (forall front e back,
          new = front ++ e :: back -> converged e = true -> back = []).
Proof.
  intros HN.
  destruct (idea_rounds prompt original_work num_reflections s)
    as [res s'] eqn:E.
  apply idea_rounds_spec in E as (new & Hcalls & _ & Hshape & _).
  exists new. simpl.
  destruct (idea_calls_length _ _ _ HN Hshape) as (Hlen & Hrefl).
  repeat split; auto.
  intros front e back Heq Hconv.
  destruct back as [|b back]; [reflexivity|]. exfalso.
  destruct (idea_calls_last _ _ _ Hshape _ _ _ Heq) as (_ & Hc);
    [discriminate | congruence].
Qed.

(** ** An idea that fails *)

(** C8.  Whatever happens in one idea's sequence: a call that failed (the
    model call raised, or [extract_json_between_markers] found no payload in
    its reply) is the last call of that idea and makes the sequence end in an
    exception; and when the sequence ends in an exception, no entry is added
    to the idea archive, the handler swallows the exception, and the outer
    loop goes on with the next index. *)
Theorem failed_idea_is_skipped prompt original_work max_num_generations
  num_reflections (todo : nat) (i : Z) (s s1 : St) (res : Res unit) :
  idea_rounds prompt original_work num_reflections
    (snd (announce max_num_generations i s)) = (res, s1) ->
  exists new,
    calls s1 = calls s ++ new
    /\ (forall front ev back,
          new = front ++ ev :: back -> failed ev = true ->
          back = [] /\ exists e, res = Raise e)
    /\ (forall e,
          res = Raise e ->
          idea_str_archive s1 = idea_str_archive s
          /\ one_idea prompt original_work max_num_generations num_reflections
               i s
             = (Ok tt, snd (print ("Failed to generate idea: " +:+ exn_str e) s1))
          /\ ideas_loop prompt original_work max_num_generations
               num_reflections (Datatypes.S todo) i s
             = ideas_loop prompt original_work max_num_generations
                 num_reflections todo (i + 1)
                 (snd (print ("Failed to generate idea: " +:+ exn_str e) s1))).
Proof.
  intros H. pose proof H as Hspec.
  apply idea_rounds_spec in Hspec
    as (new & Hcalls & _ & Hshape & _ & Hok & Hraise & Hdiv).
  exists new. split; [exact Hcalls|]. split.
  - intros front ev back Heq Hfailed.
    assert (Hback : back = []).
    { destruct back as [|b back]; [reflexivity|]. exfalso.
      destruct (idea_calls_last _ _ _ Hshape _ _ _ Heq) as (Hf & _);
        [discriminate | congruence]. }
    split; [exact Hback|].
    destruct res as [[]|e|]; [|eauto|contradiction].
    exfalso. destruct (Hok eq_refl) as (Hall & _).
    rewrite Heq in Hall. apply Forall_app in Hall as (_ & Hall).
    apply Forall_cons in Hall as (Hev & _). congruence.
  - intros e ->.
    assert (Hone : one_idea prompt original_work max_num_generations
                     num_reflections i s
                   = (Ok tt,
                      snd (print ("Failed to generate idea: " +:+ exn_str e) s1))).
    { unfold one_idea, bind.
      destruct (announce max_num_generations i s) as [[[]| |] s0] eqn:Ea;
        try discriminate.
      simpl in H. unfold try_except. rewrite H. reflexivity. }
    repeat split.
    + rewrite (Hraise e eq_refl). reflexivity.
    + exact Hone.
    + cbn [ideas_loop]. rewrite (bind_eq_ok _ _ _ _ _ Hone). reflexivity.
Qed.

(** ** What a first-draft prompt embeds *)

(** [embeds_latest prev events]: every first-draft call among [events]
    embeds, as its [prev_idea], the value the local has at that point,
    starting from [prev] and changed by first-draft calls only. *)
Inductive embeds_latest : string -> list Event -> Prop :=
| embeds_nil prev : embeds_latest prev []
| embeds_cons prev e rest :
    (forall td sm p r, e = ModelCall (FirstDraft td sm p) r -> p = prev) ->
    embeds_latest (prev_step prev e) rest ->
    embeds_latest prev (e :: rest).

(** The local [prev_idea] when the loop over the ideas starts: the joined
    JSON strings of the seed ideas, the empty string without a seed file. *)
Definition seeded_prev_idea (base_dir : string) (files : FS) : string :=
  match files !! osp_join base_dir "seed_idea.json" with
  | Some (File c) =>
      match json_loads c with
      | Some v =>
          match py_iter v with
          | Some items => str_join "

" (map json_dumps items)
          | None => EmptyString
          end
      | None => EmptyString
      end
  | _ => EmptyString
  end.

Lemma embeds_latest_app prev new1 new2 :
  embeds_latest prev new1 ->
  embeds_latest (prev_idea_through prev new1) new2 ->
  embeds_latest prev (new1 ++ new2).
Proof.
  induction 1 as [prev | prev e rest He Hrest IH]; intros H2; simpl; auto.
  constructor; [exact He|]. apply IH. exact H2.
Qed.

Lemma reflection_run_embeds num_reflections j refl prev :
  reflection_run num_reflections j refl -> embeds_latest prev refl.
Proof.
  induction 1; constructor; auto. intros td sm p r0 Heq. discriminate.
Qed.

Lemma idea_calls_embeds num_reflections prev new :
  idea_calls num_reflections prev new -> embeds_latest prev new.
Proof.
  intros [-> | (td & sm & reply & refl & -> & _ & Hrun & _)].
  - constructor.
  - constructor.
    + intros td' sm' p r Heq. injection Heq as _ _ <- _. reflexivity.
    + eapply reflection_run_embeds. exact Hrun.
Qed.

Lemma one_idea_spec prompt original_work max_num_generations num_reflections
  i s :
  exists new,
    calls (snd (one_idea prompt original_work max_num_generations
                  num_reflections i s)) = calls s ++ new
    /\ embeds_latest (prev_idea s) new
    /\ prev_idea (snd (one_idea prompt original_work max_num_generations
                         num_reflections i s))
       = prev_idea_through (prev_idea s) new
    /\ fs (snd (one_idea prompt original_work max_num_generations
                  num_reflections i s)) = fs s
    /\ fst (one_idea prompt original_work max_num_generations
              num_reflections i s) = Ok tt.
Proof.
  unfold one_idea, bind.
  destruct (announce max_num_generations i s) as [[[]| |] s0] eqn:Ea;
    try discriminate.
  assert (Hs0 : calls s0 = calls s /\ prev_idea s0 = prev_idea s /\ fs s0 = fs s).
  { unfold announce, bind, print, modify in Ea. injection Ea as <-. auto. }
  destruct Hs0 as (Hc0 & Hp0 & Hf0).
  unfold try_except.
  destruct (idea_rounds prompt original_work num_reflections s0)
    as [res s1] eqn:E.
  apply idea_rounds_spec in E
    as (new & Hcalls & Hfs & Hshape & Hprev & _ & _ & Hdiv).
  rewrite Hc0 in Hcalls. rewrite Hp0 in Hshape, Hprev. rewrite Hf0 in Hfs.
  exists new.
  destruct res as [[]|e|]; [| |exfalso; apply Hdiv; reflexivity]; simpl;
    repeat split; try assumption; eapply idea_calls_embeds; eassumption.
Qed.

Lemma ideas_loop_spec prompt original_work max_num_generations num_reflections
  todo :
  forall i s,
  exists new,
    calls (snd (ideas_loop prompt original_work max_num_generations
                  num_reflections todo i s)) = calls s ++ new
    /\ embeds_latest (prev_idea s) new
    /\ fs (snd (ideas_loop prompt original_work max_num_generations
                  num_reflections todo i s)) = fs s.
Proof.
  induction todo as [|todo IH]; intros i s.
  - exists []. simpl. rewrite app_nil_r. repeat split. constructor.
  - cbn [ideas_loop]. unfold bind.
    destruct (one_idea_spec prompt original_work max_num_generations
                num_reflections i s) as (new1 & Hc1 & He1 & Hp1 & Hf1 & Hok).
    destruct (one_idea prompt original_work max_num_generations
                num_reflections i s) as [[[]| |] s1]; try discriminate.
    simpl in *.
    destruct (IH (i + 1) s1) as (new2 & Hc2 & He2 & Hf2).
    exists (new1 ++ new2). rewrite Hc2, Hc1, Hf2, Hf1, app_assoc.
    repeat split. apply embeds_latest_app; [exact He1|].
    rewrite <- Hp1. exact He2.
Qed.

Lemma load_json_state p (s : St) : snd (load_json p s) = s.
Proof.
  unfold load_json. destruct (fs s !! p) as [[c|]|]; try reflexivity.
  destruct (json_loads c); reflexivity.
Qed.

Lemma preserves_loads_all {B} (proj : St -> B) archive :
  preserves proj (loads_all archive).
Proof.
  induction archive as [|x rest IH]; simpl; [apply preserves_ret|].
  destruct (json_loads x); [|apply preserves_raise].
  apply preserves_bind; [exact IH | intros vs; apply preserves_ret].
Qed.

Lemma preserves_dump_json_calls p v : preserves calls (dump_json p v).
Proof.
  intros s. unfold dump_json. destruct (fs s !! p) as [[c|]|]; reflexivity.
Qed.

(** C4, as the code has it.  Every first-draft prompt of a batch embeds, as
    [prev_idea], the value the local has when the call is made: before the
    first first-draft reply that is extracted and iterated, the joined JSON
    strings of the seed ideas (the empty string without a seed file); after
    it, the joined JSON strings of the items of the most recent such
    first-draft payload, which replaces what was there.  Neither the
    reflection rounds nor the idea archive feed it. *)
Theorem first_draft_embeds_latest_payload base_dir max_num_generations
  num_reflections (s : St) :
  exists new,
    calls (snd (generate base_dir max_num_generations num_reflections s))
    = calls s ++ new
    /\ embeds_latest (seeded_prev_idea base_dir (fs s)) new.
Proof.
  assert (Hnone : forall s0 : St, calls s0 = calls s ->
            exists new, calls s0 = calls s ++ new
              /\ embeds_latest (seeded_prev_idea base_dir (fs s)) new).
  { intros s0 Hc. exists []. rewrite app_nil_r. split; [exact Hc | constructor]. }
  unfold generate. unfold bind at 1. unfold set_archive at 1, modify at 1.
  set (s0 := mkSt _ _ _ _ _ _).
  unfold bind at 1.
  pose proof (load_json_state (osp_join base_dir "prompt.json") s0) as H1.
  destruct (load_json (osp_join base_dir "prompt.json") s0)
    as [[prompt|e|] s1]; simpl in H1; subst s1; try (apply Hnone; reflexivity).
  unfold bind at 1.
  pose proof (load_json_state (osp_join base_dir "original_work_info.json") s0)
    as H2.
  destruct (load_json (osp_join base_dir "original_work_info.json") s0)
    as [[original_work|e|] s1]; simpl in H2; subst s1;
    try (apply Hnone; reflexivity).
  unfold bind at 1. unfold set_prev_idea at 1, modify at 1.
  unfold bind at 1. unfold path_exists at 1, gets at 1.
  cbn [fs ext calls console prev_idea idea_str_archive].
  set (sa := mkSt _ _ _ _ _ _).
  set (seed_path := osp_join base_dir "seed_idea.json").
  set (loop := ideas_loop prompt original_work max_num_generations
                 num_reflections (Z.to_nat max_num_generations) 0).
  assert (Htail : forall sb : St,
            calls sb = calls s -> fs sb = fs s ->
            prev_idea sb = seeded_prev_idea base_dir (fs s) ->
            exists new,
              calls (snd (bind loop (fun _ =>
                       archive <- gets idea_str_archive ;;
                       ideas <- loads_all archive ;;
                       dump_json (osp_join base_dir "ideas.json") (JArr ideas) ;;
                       ret (JArr ideas)) sb)) = calls s ++ new
              /\ embeds_latest (seeded_prev_idea base_dir (fs s)) new).
  { intros sb Hc Hf Hp. rewrite bind_preserves_tail.
    2:{ intros _. apply preserves_bind; [apply preserves_gets|]. intros archive.
        apply preserves_bind; [apply preserves_loads_all|]. intros ideas.
        apply preserves_bind; [apply preserves_dump_json_calls|]. intros _.
        apply preserves_ret. }
    destruct (ideas_loop_spec prompt original_work max_num_generations
                num_reflections (Z.to_nat max_num_generations) 0 sb)
      as (new & Hcalls & Hemb & _).
    exists new. fold loop in Hcalls. rewrite Hcalls, Hc, <- Hp. auto. }
  unfold seeded_prev_idea in *. fold seed_path in Htail, Hnone |- *.
  subst sa s0. cbn [fs].
  destruct (fs s !! seed_path) as [[c|]|] eqn:Eseed.
  - rewrite bool_decide_eq_true_2 by eauto.
    unfold bind at 1. unfold bind at 1. unfold load_json at 1.
    cbn [fs]. rewrite Eseed.
    destruct (json_loads c) as [seed_ideas|]; [|apply Hnone; reflexivity].
    unfold bind at 1. unfold iterate at 1.
    destruct (py_iter seed_ideas) as [items|]; [|apply Hnone; reflexivity].
    apply Htail; reflexivity.
  - rewrite bool_decide_eq_true_2 by eauto.
    unfold bind at 1. unfold bind at 1. unfold load_json at 1.
    cbn [fs]. rewrite Eseed. apply Hnone. reflexivity.
  - rewrite bool_decide_eq_false_2 by (intros [x Hx]; discriminate).
    unfold bind at 1. apply Htail; reflexivity.
Qed.

(** ** Skipping the generation *)

Lemma print_all_spec items : forall s : St,
  exists s',
    print_all items s = (Ok tt, s')
    /\ fs s' = fs s /\ calls s' = calls s /\ ext s' = ext s.
Proof.
  induction items as [|x rest IH]; intros s; simpl.
  - exists s. auto.
  - unfold bind at 1. unfold print at 1, modify at 1.
    match goal with |- context [print_all rest ?s0] =>
      destruct (IH s0) as (s' & Hrun & Hfs & Hcalls & Hext)
    end.
    exists s'. auto.
Qed.

(** C9.  With [skip_generation] set and an [ideas.json] under [base_dir]
    that decodes to a list (or to anything else a [for] loop can walk),
    [generate_ideas] returns the decoded document as it is, makes no model
    call, and leaves every file, [ideas.json] included, as it was. *)
Theorem skip_generation_returns_persisted base_dir max_num_generations
  num_reflections (s : St) (c : string) (ideas : Json) (items : list Json) :
  fs s !! osp_join base_dir "ideas.json" = Some (File c) ->
  json_loads c = Some ideas ->
  py_iter ideas = Some items ->
  exists s',
    generate_ideas base_dir true max_num_generations num_reflections s
    = (Ok ideas, s')
    /\ fs s' = fs s /\ calls s' = calls s /\ ext s' = ext s.
Proof.
  intros Hfile Hloads Hiter. unfold generate_ideas.
  assert (Hload : exists s',
            load_existing base_dir s = (Ok ideas, s')
            /\ fs s' = fs s /\ calls s' = calls s /\ ext s' = ext s).
  { unfold load_existing. unfold bind at 1. unfold load_json.
    rewrite Hfile, Hloads.
    unfold bind at 1. unfold print at 1, modify at 1.
    unfold bind at 1. unfold iterate. rewrite Hiter. unfold ret at 1.
    unfold bind at 1.
    match goal with |- context [print_all items ?s0] =>
      destruct (print_all_spec items s0) as (s' & Hrun & Hfs & Hcalls & Hext)
    end.
    rewrite Hrun. exists s'. auto. }
  destruct Hload as (s' & Hrun & Hrest). rewrite Hrun. exists s'. auto.
Qed.

(** ** The rounds of an idea, by number *)

Lemma reflection_run_lookup num_reflections j refl :
  reflection_run num_reflections j refl ->
  forall (k : nat) e, refl !! k = Some e ->
  exists r, e = ModelCall (Reflection (j + Z.of_nat k + 2) num_reflections) r.
Proof.
  induction 1 as [j | j r rest Hhead Hrest IH]; intros k e Hk.
  - discriminate.
  - destruct k as [|k]; simpl in Hk.
    + injection Hk as <-. exists r. do 2 f_equal. lia.
    + destruct (IH k e Hk) as (r' & ->). exists r'. do 2 f_equal. lia.
Qed.

(** X9.  The calls of one idea come in the order of the rounds: the first is
    the first-draft prompt with the [prev_idea] of that moment, and the call
    after [k + 1] calls is the reflection prompt announcing round [k + 2] of
    [num_reflections]. *)
Theorem idea_rounds_are_numbered prompt original_work num_reflections (s : St) :
  exists new,
    calls (snd (idea_rounds prompt original_work num_reflections s))
    = calls s ++ new
    /\ (forall e, new !! 0%nat = Some e ->
        exists td sm r, e = ModelCall (FirstDraft td sm (prev_idea s)) r)
    /\ (forall (k : nat) e, new !! Datatypes.S k = Some e ->
        exists r,
          e = ModelCall (Reflection (Z.of_nat k + 2) num_reflections) r).
Proof.
  destruct (idea_rounds prompt original_work num_reflections s)
    as [res s'] eqn:E.
  apply idea_rounds_spec in E as (new & Hcalls & _ & Hshape & _).
  exists new. split; [exact Hcalls|].
  destruct Hshape as [-> | (td & sm & reply & refl & -> & _ & Hrun & _)].
  - split; intros; discriminate.
  - split.
    + intros e He. injection He as <-. eauto.
    + intros k e He. simpl in He.
      destruct (reflection_run_lookup _ _ _ Hrun k e He) as (r & ->).
      exists r. do 2 f_equal.
Qed.

(** ** The idea that is archived *)

(** The value the reflection loop ends with is the payload of the last
    reply, or the value it started with when no round was made. *)
Lemma reflections_last prompt num_reflections rounds :
  forall j msg_history json_output s v s',
  reflections prompt num_reflections rounds j msg_history json_output s
  = (Ok v, s') ->
  exists refl,
    calls s' = calls s ++ refl
    /\ idea_str_archive s' = idea_str_archive s
    /\ ((refl = [] /\ v = json_output)
        \/ exists front a text h,
             refl = front ++ [ModelCall a (Returned (text, h))]
             /\ extract_json_between_markers text = Some v).
Proof.
  induction rounds as [|rounds IH]; intros j h jo s v s' H.
  - injection H as <- <-. exists []. rewrite app_nil_r. auto.
  - cbn [reflections] in H.
    apply bind_ok_inv in H as ([] & s0 & Hprint & H).
    unfold print, modify in Hprint. injection Hprint as <-.
    apply bind_ok_inv in H as (system_message & s1 & Hget & H).
    assert (s1 = mkSt (fs s) (ext s) (calls s)
                   (console s ++ ["Iteration " +:+ pretty (j + 2) +:+ "/"
                                  +:+ pretty num_reflections])
                   (prev_idea s) (idea_str_archive s)) as ->.
    { unfold getitem in Hget. destruct prompt; try discriminate.
      destruct (assoc "system" members); [|discriminate].
      unfold ret in Hget. congruence. }
    apply bind_ok_inv in H as ([text1 h1] & s2 & Hask & H).
    unfold ask_model in Hask. cbn [ext fs calls console prev_idea
      idea_str_archive] in Hask.
    destruct (get_response_from_llm _ system_message h (ext s))
      as [reply ext'] eqn:Ellm.
    destruct reply as [[text h']|e]; cbn [of_reply] in Hask; [|discriminate].
    injection Hask as Ht Hh Hs. subst text1 h1 s2.
    apply bind_ok_inv in H as (jo' & s3 & Hex & H).
    unfold extract_or_fail in Hex.
    destruct (extract_json_between_markers text) as [x|] eqn:Eex;
      [|discriminate].
    unfold ret in Hex. injection Hex as <- <-.
    apply bind_ok_inv in H as ([] & s4 & Hprint & H).
    unfold print, modify in Hprint. injection Hprint as <-.
    cbn [ext fs calls console prev_idea idea_str_archive] in H.
    set (ev := ModelCall (Reflection (j + 2) num_reflections)
                 (Returned (text, h'))) in *.
    destruct (contains "I am done" text).
    + unfold bind, print, modify, ret in H. injection H as <- <-.
      exists [ev]. simpl. split; [reflexivity|]. split; [reflexivity|].
      right. exists [], (Reflection (j + 2) num_reflections), text, h'. auto.
    + apply IH in H as (refl & Hcalls & Harch & Hlast).
      exists (ev :: refl). simpl in Hcalls, Harch.
      rewrite Hcalls, Harch, <- app_assoc. split; [reflexivity|].
      split; [reflexivity|]. right.
      destruct Hlast as [(-> & ->) | (front & a & text2 & h2 & -> & Hv)].
      * exists [], (Reflection (j + 2) num_reflections), text, h'. auto.
      * exists (ev :: front), a, text2, h2. auto.
Qed.

(** X10.  When one idea's sequence ends without an exception, exactly one
    entry is added to the archive: the JSON string of the payload extracted
    from the reply of the last call made for that idea. *)
Theorem archived_idea_is_last_payload prompt original_work num_reflections
  (s s' : St) :
  idea_rounds prompt original_work num_reflections s = (Ok tt, s') ->
  exists front a text h v,
    calls s' = calls s ++ front ++ [ModelCall a (Returned (text, h))]
    /\ extract_json_between_markers text = Some v
    /\ idea_str_archive s' = idea_str_archive s ++ [json_dumps v].
Proof.
  intros H. unfold idea_rounds in H.
  apply bind_ok_inv in H as ([] & s0 & Hprint & H).
  unfold print, modify in Hprint. injection Hprint as <-.
  apply bind_ok_inv in H as (td & s1 & Hget & H).
  assert (Hsame : forall d key x (sa sb : St),
            getitem d key sa = (Ok x, sb) -> sb = sa).
  { intros d key x sa sb Hg. unfold getitem in Hg.
    destruct d; try discriminate.
    destruct (assoc key members); [|discriminate].
    unfold ret in Hg. congruence. }
  apply Hsame in Hget. subst s1.
  apply bind_ok_inv in H as (sm & s1 & Hget & H).
  apply Hsame in Hget. subst s1.
  apply bind_ok_inv in H as (prev & s1 & Hgets & H).
  unfold gets in Hgets. injection Hgets as <- <-.
  apply bind_ok_inv in H as (system_message & s1 & Hget & H).
  apply Hsame in Hget. subst s1.
  apply bind_ok_inv in H as ([text1 h1] & s2 & Hask & H).
  unfold ask_model in Hask. cbn [ext fs calls console prev_idea
    idea_str_archive] in Hask.
  destruct (get_response_from_llm _ system_message [] (ext s))
    as [reply ext'] eqn:Ellm.
  destruct reply as [[text h]|e]; cbn [of_reply] in Hask; [|discriminate].
  injection Hask as Ht Hh Hs. subst text1 h1 s2.
  set (first := ModelCall (FirstDraft (py_str td) (py_str sm) (prev_idea s))
                  (Returned (text, h))) in *.
  apply bind_ok_inv in H as (jo & s3 & Hex & H).
  unfold extract_or_fail in Hex.
  destruct (extract_json_between_markers text) as [x|] eqn:Eex; [|discriminate].
  unfold ret in Hex. injection Hex as <- <-.
  apply bind_ok_inv in H as (items & s4 & Hit & H).
  unfold iterate in Hit. destruct (py_iter x); [|discriminate].
  unfold ret in Hit. injection Hit as <- <-.
  apply bind_ok_inv in H as ([] & s5 & Hset & H).
  unfold set_prev_idea, modify in Hset. injection Hset as <-.
  cbn [ext fs calls console prev_idea idea_str_archive] in H.
  apply bind_ok_inv in H as (jo' & s6 & Hloop & H).
  unfold archive_append, modify in H. injection H as <-.
  cbn [calls idea_str_archive].
  case_bool_decide.
  - apply reflections_last in Hloop as (refl & Hcalls & Harch & Hlast).
    simpl in Hcalls, Harch. rewrite Hcalls, Harch, <- app_assoc.
    destruct Hlast as [(-> & ->) | (front & a & text2 & h2 & -> & Hv)].
    + exists [], (FirstDraft (py_str td) (py_str sm) (prev_idea s)), text, h, x.
      auto.
    + exists (first :: front), a, text2, h2, jo'. auto.
  - unfold ret in Hloop. injection Hloop as <- <-. simpl.
    exists [], (FirstDraft (py_str td) (py_str sm) (prev_idea s)), text, h, x.
    auto.
Qed.

(** ** The size of a batch *)

Lemma one_idea_counts prompt original_work max_num_generations num_reflections
  i (s : St) :
  exists s' new added,
    one_idea prompt original_work max_num_generations num_reflections i s
    = (Ok tt, s')
    /\ calls s' = calls s ++ new
    /\ idea_str_archive s' = idea_str_archive s ++ added
    /\ fs s' = fs s
    /\ (length new <= 1 + Z.to_nat (num_reflections - 1))%nat
    /\ (length added <= 1)%nat.
Proof.
  unfold one_idea, bind.
  destruct (announce max_num_generations i s) as [[[]| |] s0] eqn:Ea;
    try discriminate.
  assert (Hs0 : calls s0 = calls s /\ idea_str_archive s0 = idea_str_archive s
                /\ fs s0 = fs s).
  { unfold announce, bind, print, modify in Ea. injection Ea as <-. auto. }
  destruct Hs0 as (Hc0 & Ha0 & Hf0).
  unfold try_except.
  destruct (idea_rounds prompt original_work num_reflections s0)
    as [res s1] eqn:E.
  apply idea_rounds_spec in E
    as (new & Hcalls & Hfs & Hshape & _ & Hok & Hraise & Hdiv).
  rewrite Hc0 in Hcalls. rewrite Ha0 in Hok, Hraise. rewrite Hf0 in Hfs.
  assert (Hlen : (length new <= 1 + Z.to_nat (num_reflections - 1))%nat).
  { destruct Hshape as [-> | (td & sm & reply & refl & -> & _ & _ & Hl)];
      simpl; lia. }
  destruct res as [[]|e|]; [| |exfalso; apply Hdiv; reflexivity].
  - destruct (Hok eq_refl) as (_ & _ & entry & Harch).
    exists s1, new, [entry]. simpl. auto 10.
  - exists (snd (print ("Failed to generate idea: " +:+ exn_str e) s1)), new, [].
    rewrite app_nil_r.
    split; [reflexivity|]. simpl.
    split; [exact Hcalls|]. split; [exact (Hraise e eq_refl)|].
    split; [exact Hfs|]. split; [exact Hlen | lia].
Qed.

Lemma ideas_loop_counts prompt original_work max_num_generations
  num_reflections todo :
  forall i (s : St),
  exists s' new added,
    ideas_loop prompt original_work max_num_generations num_reflections todo i s
    = (Ok tt, s')
    /\ calls s' = calls s ++ new
    /\ idea_str_archive s' = idea_str_archive s ++ added
    /\ fs s' = fs s
    /\ (length new <= todo * (1 + Z.to_nat (num_reflections - 1)))%nat
    /\ (length added <= todo)%nat.
Proof.
  induction todo as [|todo IH]; intros i s.
  - exists s, [], []. simpl. rewrite !app_nil_r. auto 10.
  - cbn [ideas_loop].
    destruct (one_idea_counts prompt original_work max_num_generations
                num_reflections i s)
      as (s1 & new1 & added1 & Hone & Hc1 & Ha1 & Hf1 & Hl1 & Hd1).
    rewrite (bind_eq_ok _ _ _ _ _ Hone).
    destruct (IH (i + 1) s1)
      as (s2 & new2 & added2 & Hloop & Hc2 & Ha2 & Hf2 & Hl2 & Hd2).
    exists s2, (new1 ++ new2), (added1 ++ added2).
    rewrite Hloop, Hc2, Hc1, Ha2, Ha1, Hf2, Hf1, !app_assoc, !length_app.
    repeat split; lia.
Qed.

Lemma loads_all_spec archive : forall (s : St) res s',
  loads_all archive s = (res, s') ->
  s' = s /\ res <> Diverge
  /\ (forall ideas, res = Ok ideas -> length ideas = length archive).
Proof.
  induction archive as [|x rest IH]; intros s res s' H; simpl in H.
  - injection H as <- <-. repeat split; [discriminate|].
    intros ideas Hi. injection Hi as <-. reflexivity.
  - destruct (json_loads x) as [v|].
    + unfold bind in H. destruct (loads_all rest s) as [r1 s1] eqn:E.
      apply IH in E as (-> & Hd & Hlen).
      destruct r1 as [vs| |]; [| |contradiction].
      * injection H as <- <-. repeat split; [discriminate|].
        intros ideas Hi. injection Hi as <-. simpl. f_equal. auto.
      * injection H as <- <-. repeat split; discriminate.
    + injection H as <- <-. repeat split; discriminate.
Qed.

Lemma load_json_cases p (s : St) :
  (exists v, load_json p s = (Ok v, s))
  \/ (exists e, load_json p s = (Raise e, s)).
Proof.
  unfold load_json. destruct (fs s !! p) as [[c|]|]; eauto.
  destruct (json_loads c); eauto.
Qed.

(** The ways [generate] can go: it raises before the loop over the ideas is
    entered, with nothing changed but the two locals; or the loop runs from
    an empty archive and the seeded [prev_idea], and what is left is to
    decode the archive and write [ideas.json]. *)
Lemma generate_cases base_dir max_num_generations num_reflections
  (s : St) res s' :
  generate base_dir max_num_generations num_reflections s = (res, s') ->
  (exists e, res = Raise e /\ calls s' = calls s /\ fs s' = fs s)
  \/ exists prompt original_work sb sc,
       calls sb = calls s /\ fs sb = fs s /\ idea_str_archive sb = []
       /\ prev_idea sb = seeded_prev_idea base_dir (fs s)
       /\ ideas_loop prompt original_work max_num_generations num_reflections
            (Z.to_nat max_num_generations) 0 sb = (Ok tt, sc)
       /\ (archive <- gets idea_str_archive ;;
           ideas <- loads_all archive ;;
           dump_json (osp_join base_dir "ideas.json") (JArr ideas) ;;
           ret (JArr ideas)) sc = (res, s').
Proof.
  intros H. unfold generate in H.
  unfold bind at 1 in H. unfold set_archive at 1, modify at 1 in H.
  unfold bind at 1 in H.
  match type of H with
  | context [load_json ?p ?s0] =>
      destruct (load_json_cases p s0) as [[prompt E1] | [e E1]];
      rewrite E1 in H
  end;
    [| injection H as <- <-; left; eauto].
  unfold bind at 1 in H.
  match type of H with
  | context [load_json ?p ?s0] =>
      destruct (load_json_cases p s0) as [[original_work E2] | [e E2]];
      rewrite E2 in H
  end;
    [| injection H as <- <-; left; eauto].
  unfold bind at 1 in H. unfold set_prev_idea at 1, modify at 1 in H.
  unfold bind at 1 in H. unfold path_exists at 1, gets at 1 in H.
  cbn [fs ext calls console prev_idea idea_str_archive] in H.
  assert (Hgo : forall sb : St,
            calls sb = calls s -> fs sb = fs s -> idea_str_archive sb = [] ->
            prev_idea sb = seeded_prev_idea base_dir (fs s) ->
            (ideas_loop prompt original_work max_num_generations
               num_reflections (Z.to_nat max_num_generations) 0 ;;
             archive <- gets idea_str_archive ;;
             ideas <- loads_all archive ;;
             dump_json (osp_join base_dir "ideas.json") (JArr ideas) ;;
             ret (JArr ideas)) sb = (res, s') ->
            exists prompt original_work sb sc,
              calls sb = calls s /\ fs sb = fs s /\ idea_str_archive sb = []
              /\ prev_idea sb = seeded_prev_idea base_dir (fs s)
              /\ ideas_loop prompt original_work max_num_generations
                   num_reflections (Z.to_nat max_num_generations) 0 sb
                 = (Ok tt, sc)
              /\ (archive <- gets idea_str_archive ;;
                  ideas <- loads_all archive ;;
                  dump_json (osp_join base_dir "ideas.json") (JArr ideas) ;;
                  ret (JArr ideas)) sc = (res, s')).
  { intros sb Hc Hf Ha Hp Hrun.
    destruct (ideas_loop_counts prompt original_work max_num_generations
                num_reflections (Z.to_nat max_num_generations) 0 sb)
      as (sc & new & added & Hloop & _).
    rewrite (bind_eq_ok _ _ _ _ _ Hloop) in Hrun.
    exists prompt, original_work, sb, sc. auto 10. }
  unfold seeded_prev_idea in *.
  destruct (fs s !! osp_join base_dir "seed_idea.json") as [[c|]|] eqn:Eseed.
  - rewrite bool_decide_eq_true_2 in H by eauto.
    unfold bind at 1 in H. unfold bind at 1 in H. unfold load_json at 1 in H.
    cbn [fs] in H. rewrite Eseed in H.
    destruct (json_loads c) as [seed_ideas|];
      [|injection H as <- <-; left; eauto].
    unfold bind at 1 in H. unfold iterate at 1 in H.
    destruct (py_iter seed_ideas) as [items|];
      [|injection H as <- <-; left; eauto].
    right. eapply Hgo; [| | | |exact H]; reflexivity.
  - rewrite bool_decide_eq_true_2 in H by eauto.
    unfold bind at 1 in H. unfold bind at 1 in H. unfold load_json at 1 in H.
    cbn [fs] in H. rewrite Eseed in H. injection H as <- <-. left. eauto.
  - rewrite bool_decide_eq_false_2 in H by (intros [x Hx]; discriminate).
    unfold bind at 1 in H.
    right. eapply Hgo; [| | | |exact H]; reflexivity.
Qed.

(** What is left after the loop: the archive is decoded and written. *)
Lemma persist_spec base_dir (sc : St) res s' :
  (archive <- gets idea_str_archive ;;
   ideas <- loads_all archive ;;
   dump_json (osp_join base_dir "ideas.json") (JArr ideas) ;;
   ret (JArr ideas)) sc = (res, s') ->
  calls s' = calls sc
  /\ res <> Diverge
  /\ (forall e, res = Raise e -> fs s' = fs sc)
  /\ (forall v, res = Ok v ->
      exists ideas,
        v = JArr ideas
        /\ length ideas = length (idea_str_archive sc)
        /\ fs s' = <[osp_join base_dir "ideas.json"
                     := File (json_dumps_indent v)]> (fs sc)).
Proof.
  intros H. unfold bind at 1 in H. unfold gets at 1 in H.
  unfold bind at 1 in H.
  destruct (loads_all (idea_str_archive sc) sc) as [r1 s1] eqn:E.
  apply loads_all_spec in E as (-> & Hd & Hlen).
  destruct r1 as [ideas|e|]; [| |contradiction].
  - unfold bind at 1 in H. unfold dump_json at 1 in H.
    destruct (fs sc !! osp_join base_dir "ideas.json") as [[c|]|] eqn:Ef;
      unfold ret in H; injection H as <- <-; simpl;
      repeat split; try discriminate; try reflexivity;
      intros v Hv; injection Hv as <-; exists ideas; auto.
  - injection H as <- <-. repeat split; try discriminate; reflexivity.
Qed.

(** X11.  A batch makes at most
    [max_num_generations * max(1, num_reflections)] model calls, and the
    list it returns holds at most [max_num_generations] ideas. *)
Theorem batch_is_bounded base_dir max_num_generations num_reflections (s : St) :
  exists new,
    calls (snd (generate base_dir max_num_generations num_reflections s))
    = calls s ++ new
    /\ Z.of_nat (length new)
       <= Z.max 0 max_num_generations * Z.max 1 num_reflections
    /\ (forall v s',
          generate base_dir max_num_generations num_reflections s = (Ok v, s') ->
          exists ideas,
            v = JArr ideas
            /\ Z.of_nat (length ideas) <= Z.max 0 max_num_generations).
Proof.
  destruct (generate base_dir max_num_generations num_reflections s)
    as [res s'] eqn:E.
  destruct (generate_cases _ _ _ _ _ _ E)
    as [(e & -> & Hc & _)
       | (prompt & ow & sb & sc & Hc & _ & Ha & _ & Hloop & Htail)].
  - exists []. simpl. rewrite app_nil_r. split; [exact Hc|].
    split; [lia|]. intros v s'' Hv. discriminate.
  - destruct (ideas_loop_counts prompt ow max_num_generations num_reflections
                (Z.to_nat max_num_generations) 0 sb)
      as (sc' & new & added & Hloop' & Hcalls & Harch & _ & Hlen & Hadd).
    rewrite Hloop in Hloop'. injection Hloop' as <-.
    apply persist_spec in Htail as (Hc' & _ & _ & Hok).
    exists new. simpl. rewrite Hc', Hcalls, Hc. split; [reflexivity|].
    split; [nia|].
    intros v s'' Hv. injection Hv as -> ->.
    destruct (Hok v eq_refl) as (ideas & -> & Hl & _).
    exists ideas. split; [reflexivity|].
    rewrite Hl, Harch, Ha. simpl. lia.
Qed.

(** X12.  When [generate_ideas] generates and returns, [ideas.json] holds
    the indent-4 dump of exactly the list returned, and no other file was
    touched by the call. *)
Theorem generated_ideas_are_persisted base_dir max_num_generations
  num_reflections (s s' : St) (v : Json) :
  generate_ideas base_dir false max_num_generations num_reflections s
  = (Ok v, s') ->
  fs s' = <[osp_join base_dir "ideas.json" := File (json_dumps_indent v)]> (fs s).
Proof.
  unfold generate_ideas. intros E.
  destruct (generate_cases _ _ _ _ _ _ E)
    as [(e & He & _) | (prompt & ow & sb & sc & _ & Hf & _ & _ & Hloop & Htail)];
    [discriminate|].
  destruct (ideas_loop_counts prompt ow max_num_generations num_reflections
              (Z.to_nat max_num_generations) 0 sb)
    as (sc' & new & added & Hloop' & _ & _ & Hfs & _).
  rewrite Hloop in Hloop'. injection Hloop' as <-.
  apply persist_spec in Htail as (_ & _ & _ & Hok).
  destruct (Hok v eq_refl) as (ideas & _ & _ & Hwrite).
  rewrite Hwrite, Hfs, Hf. reflexivity.
Qed.

(** ** The skip flag without usable ideas *)


(** X14.  With [skip_generation] set and an [ideas.json] that decodes to a
    value a [for] loop cannot walk (a number, [true], [null]), the call
    raises [TypeError]: nothing is generated and no file is written. *)
Theorem skip_with_unwalkable_ideas base_dir max_num_generations
  num_reflections (s : St) (c : string) (v : Json) :
  fs s !! osp_join base_dir "ideas.json" = Some (File c) ->
  json_loads c = Some v ->
  py_iter v = None ->
  generate_ideas base_dir true max_num_generations num_reflections s
  = (Raise TypeError, snd (print "Loaded existing ideas:" s)).
Proof.
  intros Hfile Hloads Hiter. unfold generate_ideas, load_existing.
  unfold bind at 1. unfold load_json. rewrite Hfile, Hloads.
  unfold bind at 1. unfold print at 1, modify at 1.
  unfold bind at 1. unfold iterate. rewrite Hiter. reflexivity.
Qed.

End Ideas.

Arguments mkSt {Ext Msg}.
Arguments fs {Ext Msg}.
Arguments ext {Ext Msg}.
Arguments calls {Ext Msg}.
Arguments console {Ext Msg}.
Arguments prev_idea {Ext Msg}.
Arguments idea_str_archive {Ext Msg}.
Arguments ModelCall {Msg}.
Arguments idea_rounds {Ext Msg}.
Arguments one_idea {Ext Msg}.
Arguments ideas_loop {Ext Msg}.
Arguments generate {Ext Msg}.
Arguments generate_ideas {Ext Msg}.
Arguments announce {Ext Msg}.
Arguments print {Ext Msg}.
Arguments marked {Msg}.
Arguments failed {Msg}.
Arguments converged {Msg}.
Arguments stops_at_marked_round {Msg}.

(** ** A scripted model

    The replies of the model are read off a script, in order; a history is
    the list of the texts exchanged.  A reply holds a payload unless it
    starts with [no json]; the payload is a list with one object, named after
    the reply. *)

Definition scripted_llm (prompt : string) (system_message : Json)
  (msg_history : list string) (script : list (Reply string))
  : Reply (string * list string) * list (Reply string) :=
  match script with
  | [] => (Raised (OtherError "no reply left"), [])
  | Returned text :: rest =>
      (Returned (text, msg_history ++ [prompt; text]), rest)
  | Raised e :: rest => (Raised e, rest)
  end.

Definition scripted_extract (text : string) : option Json :=
  if String.prefix "no json" text then None
  else Some (JArr [JObj [("Name", JStr text)]]).

(** The decoder of the scripted files: the three input files by their
    contents, and a string for anything else. *)
Definition scripted_loads (c : string) : option Json :=
  if bool_decide (c = "PROMPT") then
    Some (JObj [("system", JStr "You are an editor.");
                ("task_description", JStr "Plan a spin-off.")])
  else if bool_decide (c = "WORK") then
    Some (JObj [("summary", JStr "A summary.")])
  else if bool_decide (c = "SEEDS") then
    Some (JArr [JObj [("Name", JStr "seed_idea")]])
  else if bool_decide (c = "IDEAS") then
    Some (JArr [JObj [("Name", JStr "kept_idea")]])
  else if bool_decide (c = "BROKEN") then None
  else Some (JStr c).

(** Enough of a serializer to tell the scripted ideas apart. *)
Definition scripted_dumps (v : Json) : string :=
  match v with
  | JObj [(_, JStr name)] => "{" +:+ name +:+ "}"
  | JArr [JObj [(_, JStr name)]] => "[{" +:+ name +:+ "}]"
  | JStr text => text
  | _ => "?"
  end.

Definition scripted_exn (e : Exn) : string := "error".
Definition scripted_first (task_description summary prev : string) : string :=
  task_description +:+ "|" +:+ summary +:+ "|" +:+ prev.
Definition scripted_reflection (current_round num_reflections : Z) : string :=
  "Round " +:+ pretty current_round +:+ "/" +:+ pretty num_reflections.

Definition template_files : FS :=
  {[ "t/prompt.json" := File "PROMPT";
     "t/original_work_info.json" := File "WORK";
     "t/seed_idea.json" := File "SEEDS";
     "t/ideas.json" := File "IDEAS" ]}.

Definition start (script : list (Reply string))
  : St (list (Reply string)) string :=
  mkSt template_files script [] [] EmptyString [].

Definition the_prompt : Json :=
  JObj [("system", JStr "You are an editor.");
        ("task_description", JStr "Plan a spin-off.")].
Definition the_work : Json := JObj [("summary", JStr "A summary.")].

(** One idea's sequence in the scripted world. *)
Definition scripted_idea (num_reflections : Z) (script : list (Reply string))
  : Res unit * St (list (Reply string)) string :=
  idea_rounds scripted_llm scripted_extract scripted_dumps scripted_dumps
    scripted_first scripted_reflection the_prompt the_work num_reflections
    (start script).

(** A whole batch in the scripted world. *)
Definition scripted_batch (skip_generation : bool)
  (max_num_generations num_reflections : Z) (script : list (Reply string))
  : Res Json * St (list (Reply string)) string :=
  generate_ideas scripted_llm scripted_extract scripted_loads scripted_dumps
    scripted_dumps scripted_dumps scripted_exn scripted_first
    scripted_reflection "t" skip_generation max_num_generations
    num_reflections (start script).

Definition asks (events : list (Event string)) : list Ask :=
  map (fun e => match e with ModelCall a _ => a end) events.

(** ** The claims at concrete inputs *)

(** Round 1 replies with the phrase; rounds 2 and 3 are made all the
    same. *)
Definition phrase_in_first_draft : list (Reply string) :=
  [Returned "a I am done"; Returned "b"; Returned "c"].

Example phrase_in_first_draft_asks :
  asks (calls (snd (scripted_idea 3 phrase_in_first_draft)))
  = [FirstDraft "Plan a spin-off." "A summary." EmptyString;
     Reflection 2 3; Reflection 3 3].
Proof. vm_compute. reflexivity. Qed.

(** C2 as stated fails: the reply of round 1 carries [I am done] and two
    more rounds follow. *)
Lemma first_draft_phrase_is_ignored :
  ~ stops_at_marked_round (calls (snd (scripted_idea 3 phrase_in_first_draft))).
Proof.
  intros H.
  specialize (H []
    (ModelCall (FirstDraft "Plan a spin-off." "A summary." EmptyString)
       (Returned ("a I am done",
                  [scripted_first "Plan a spin-off." "A summary." EmptyString;
                   "a I am done"])))
    [ModelCall (Reflection 2 3)
       (Returned ("b",
                  [scripted_first "Plan a spin-off." "A summary." EmptyString;
                   "a I am done"; scripted_reflection 2 3; "b"]));
     ModelCall (Reflection 3 3)
       (Returned ("c",
                  [scripted_first "Plan a spin-off." "A summary." EmptyString;
                   "a I am done"; scripted_reflection 2 3; "b";
                   scripted_reflection 3 3; "c"]))]).
  discriminate H; vm_compute; reflexivity.
Qed.

(** Round 2 of 3 replies with the phrase: two calls, no third. *)
Lemma idea_rounds_budget_witness :
  exists new,
    calls (snd (scripted_idea 3 [Returned "a"; Returned "b I am done";
                                 Returned "c"])) = new
    /\ length new = 2%nat
    /\ (forall front e back,
          new = front ++ e :: back -> converged e = true -> back = []).
Proof.
  destruct (idea_rounds_budget (list (Reply string)) string scripted_llm
              scripted_extract scripted_dumps scripted_dumps scripted_first
              scripted_reflection the_prompt the_work 3
              (start [Returned "a"; Returned "b I am done"; Returned "c"]))
    as (new & Hcalls & Hlen & _ & Hstop).
  - lia.
  - exists new. split; [exact Hcalls|]. split; [|exact Hstop].
    apply (f_equal (@length _)) in Hcalls. vm_compute in Hcalls.
    symmetry. exact Hcalls.
Defined.

(** Round 2 of 3 replies without a payload: the idea is dropped after two
    calls and the batch goes on. *)
Lemma failed_idea_is_skipped_witness :
  exists s1 e,
    idea_rounds scripted_llm scripted_extract scripted_dumps scripted_dumps
      scripted_first scripted_reflection the_prompt the_work 3
      (snd (announce 5 0 (start [Returned "a"; Returned "no json here";
                                 Returned "c"])))
    = (Raise e, s1)
    /\ length (calls s1) = 2%nat
    /\ idea_str_archive s1 = []
    /\ fst (one_idea scripted_llm scripted_extract scripted_dumps
              scripted_dumps scripted_exn scripted_first scripted_reflection
              the_prompt the_work 5 3 0
              (start [Returned "a"; Returned "no json here"; Returned "c"]))
       = Ok tt.
Proof.
  eexists. eexists. split; [vm_compute; reflexivity|].
  edestruct (failed_idea_is_skipped (list (Reply string)) string scripted_llm
               scripted_extract scripted_dumps scripted_dumps scripted_exn
               scripted_first scripted_reflection the_prompt the_work 5 3
               0%nat 0
               (start [Returned "a"; Returned "no json here"; Returned "c"]))
    as (new & Hcalls & _ & Hraise).
  { vm_compute. reflexivity. }
  destruct (Hraise _ eq_refl) as (Harch & Hone & _).
  split; [vm_compute; reflexivity|]. split; [exact Harch|].
  rewrite Hone. reflexivity.
Defined.

Lemma skip_generation_returns_persisted_witness :
  exists s',
    scripted_batch true 5 5 [Returned "never asked"]
    = (Ok (JArr [JObj [("Name", JStr "kept_idea")]]), s')
    /\ fs s' = template_files /\ calls s' = []
    /\ ext s' = [Returned "never asked"].
Proof.
  apply (skip_generation_returns_persisted (list (Reply string)) string
           scripted_llm scripted_extract scripted_loads scripted_dumps
           scripted_dumps scripted_dumps scripted_exn scripted_first
           scripted_reflection "t" 5 5 (start [Returned "never asked"])
           "IDEAS" (JArr [JObj [("Name", JStr "kept_idea")]])
           [JObj [("Name", JStr "kept_idea")]]).
  - vm_compute. reflexivity.
  - reflexivity.
  - reflexivity.
Defined.

(** Three ideas of two rounds each, with a seed idea on file. *)
Definition three_ideas : list (Reply string) :=
  [Returned "a"; Returned "a2"; Returned "b"; Returned "b2";
   Returned "c"; Returned "c2"].

Example three_ideas_asks :
  asks (calls (snd (scripted_batch false 3 2 three_ideas)))
  = [FirstDraft "Plan a spin-off." "A summary." "{seed_idea}"; Reflection 2 2;
     FirstDraft "Plan a spin-off." "A summary." "{a}"; Reflection 2 2;
     FirstDraft "Plan a spin-off." "A summary." "{b}"; Reflection 2 2].
Proof. vm_compute. reflexivity. Qed.

(** The claim of the spec read on one first-draft prompt: its [prev_idea]
    mentions every idea of [names], the seed ideas and the ideas finalized
    so far. *)
Definition mentions_all (names : list string) (prev : string) : Prop :=
  forall name, In name names -> contains name prev = true.

(** C4 as stated fails: when the third idea is drafted the archive holds the
    finalized ideas [a2] and [b2] and there is a seed idea, yet the prompt
    embeds only the first draft [b] of the second idea. *)
Lemma prev_idea_forgets_earlier_ideas :
  exists td sm prev,
    asks (calls (snd (scripted_batch false 3 2 three_ideas))) !! 4%nat
    = Some (FirstDraft td sm prev)
    /\ idea_str_archive (snd (scripted_batch false 3 2 three_ideas))
       = ["[{a2}]"; "[{b2}]"; "[{c2}]"]
    /\ ~ mentions_all ["seed_idea"; "a2"; "b2"] prev.
Proof.
  exists "Plan a spin-off.", "A summary.", "{b}".
  split; [vm_compute; reflexivity|]. split; [vm_compute; reflexivity|].
  intros H. specialize (H "a2" ltac:(simpl; auto)). vm_compute in H.
  discriminate.
Qed.

(** ** The further properties at concrete inputs *)

(** Round 2 of 3 converges: the archive gets the payload of that reply. *)
Lemma archived_idea_is_last_payload_witness :
  exists front a text h v,
    calls (snd (scripted_idea 3 [Returned "a"; Returned "b I am done";
                                 Returned "c"]))
    = front ++ [ModelCall a (Returned (text, h))]
    /\ scripted_extract text = Some v
    /\ idea_str_archive (snd (scripted_idea 3 [Returned "a";
                                               Returned "b I am done";
                                               Returned "c"]))
       = [scripted_dumps v].
Proof.
  edestruct (archived_idea_is_last_payload (list (Reply string)) string
               scripted_llm scripted_extract scripted_dumps scripted_dumps
               scripted_first scripted_reflection the_prompt the_work 3
               (start [Returned "a"; Returned "b I am done"; Returned "c"]))
    as (front & a & text & h & v & Hc & He & Ha).
  { vm_compute. reflexivity. }
  exists front, a, text, h, v.
  split; [exact Hc|]. split; [exact He | exact Ha].
Defined.

Lemma generated_ideas_are_persisted_witness :
  exists v s',
    scripted_batch false 3 2 three_ideas = (Ok v, s')
    /\ fs s' = <["t/ideas.json" := File (scripted_dumps v)]> template_files.
Proof.
  eexists. eexists. split; [vm_compute; reflexivity|].
  apply (generated_ideas_are_persisted (list (Reply string)) string
           scripted_llm scripted_extract scripted_loads scripted_dumps
           scripted_dumps scripted_dumps scripted_exn scripted_first
           scripted_reflection "t" 3 2 (start three_ideas)).
  vm_compute. reflexivity.
Defined.

(** The template directory without [ideas.json]. *)
Definition without_ideas (script : list (Reply string))
  : St (list (Reply string)) string :=
  mkSt (delete "t/ideas.json" template_files) script [] [] EmptyString [].


(** A decoder under which [ideas.json] holds a number. *)
Definition number_loads (c : string) : option Json :=
  if bool_decide (c = "IDEAS") then Some (JNum "7") else scripted_loads c.

Lemma skip_with_unwalkable_ideas_witness :
  generate_ideas scripted_llm scripted_extract number_loads scripted_dumps
    scripted_dumps scripted_dumps scripted_exn scripted_first
    scripted_reflection "t" true 5 5 (start [Returned "never asked"])
  = (Raise TypeError,
     snd (print "Loaded existing ideas:" (start [Returned "never asked"]))).
Proof.
  apply (skip_with_unwalkable_ideas (list (Reply string)) string
           scripted_llm scripted_extract number_loads scripted_dumps
           scripted_dumps scripted_dumps scripted_exn scripted_first
           scripted_reflection "t" 5 5 (start [Returned "never asked"])
           "IDEAS" (JNum "7")).
  - vm_compute. reflexivity.
  - reflexivity.
  - reflexivity.
Defined.

End GenerateIdeas.

(** * [launch_novelist.py] *)

Module Launch.
Import PerformExperiments.

Section DoIdea.

Variable Ext : Type.
Variable coder_run : string -> FS * Ext -> Reply string * (FS * Ext).
Variable subprocess_run :
  list string -> string -> Z -> FS * Ext -> ProcOutcome * (FS * Ext).
Variable json_loads : string -> option Json.
Variable py_str : Json -> string.
(** [InputOutput(...)], [Model(...)] and [Coder.create(...)]: setting up the
    coding assistant. *)
Variable make_coder : FS * Ext -> Reply unit * (FS * Ext).
(** [perform_writeup(idea, folder_name, coder, results)]. *)
Variable perform_writeup :
  gmap string Json -> string -> Json -> FS * Ext -> Reply unit * (FS * Ext).
(** [str(e)], and [datetime.now().strftime(...)]. *)
Variable exn_str : Exn -> string.
Variable now : Ext -> string.

(** A call to an external collaborator. *)
Definition external {A} (f : FS * Ext -> Reply A * (FS * Ext)) : M (St Ext) A :=
  fun s =>
    let '(r, (fs', ext')) := f (fs s, ext s) in
    (of_reply r, mkSt fs' ext' (trace s) (console s)).

Definition print_time : M (St Ext) unit :=
  fun s => print (now (ext s)) s.

(** Lines 147-169 of [do_idea]: what precedes the experiments inside the
    [try] block. *)
Definition before_experiments (idea_name : string) : M (St Ext) unit :=
  print_time ;;
  print ("*Starting idea: " +:+ idea_name +:+ "*") ;;
  external make_coder ;;
  print_time ;;
  print "*Starting Experiments*".

(** The writeup stage (lines 181-208). *)
Definition writeup_stage (idea : gmap string Json) (folder_name writeup : string)
  (results : Json) : M (St Ext) (option bool) :=
  print_time ;;
  print "*Starting Writeup*" ;;
  if bool_decide (writeup = "latex") then
    external make_coder ;;
    done <- try_except
              (external (perform_writeup idea folder_name results) ;; ret true)
              (fun e =>
                 print ("Failed to perform writeup: " +:+ exn_str e) ;;
                 ret false) ;;
    if done : bool then print "Done writeup" ;; ret None
    else ret (Some false)
  else
    raise (ValueError ("Writeup format " +:+ writeup +:+ " not supported.")).

(** [do_idea] from its [try] block on (lines 146-217), for a project folder
    that has been set up; [Some false] is [return False], [None] is falling
    off the end.  The redirection of the console to a log file is left
    out. *)
Definition do_idea (idea : gmap string Json)
  (idea_name folder_name writeup : string) : M (St Ext) (option bool) :=
  r <- try_except
         (before_experiments idea_name ;;
          r <- try_except
                 (x <- perform_experiments coder_run subprocess_run json_loads
                         py_str idea folder_name ;;
                  ret (inl x))
                 (fun e =>
                    print ("Error during experiments: " +:+ exn_str e) ;;
                    print ("Experiments failed for idea " +:+ idea_name) ;;
                    ret (inr false)) ;;
          match r with
          | inr b => ret (Some b)
          | inl (success, results) =>
              if negb success then
                print ("Experiments failed for idea " +:+ idea_name) ;;
                ret (Some false)
              else writeup_stage idea folder_name writeup results
          end)
         (fun e =>
            print ("Failed to evaluate idea " +:+ idea_name +:+ ": "
                   +:+ exn_str e) ;;
            ret (Some false)) ;;
  print "FINISHED IDEA" ;;
  ret r.

(** The handler around [perform_experiments]: whatever it raises, the idea
    is reported as failed. *)
Lemma do_idea_experiments_raise idea idea_name folder_name writeup
  (s sc s' : St Ext) (e : Exn) :
  before_experiments idea_name s = (Ok tt, sc) ->
  perform_experiments coder_run subprocess_run json_loads py_str idea
    folder_name sc = (Raise e, s') ->
  exists sf,
    do_idea idea idea_name folder_name writeup s = (Ok (Some false), sf)
    /\ fs sf = fs s' /\ ext sf = ext s' /\ trace sf = trace s'
    /\ console sf
       = console s'
         ++ [(Stdout, "Error during experiments: " +:+ exn_str e);
             (Stdout, "Experiments failed for idea " +:+ idea_name);
             (Stdout, "FINISHED IDEA")].
Proof.
  intros Hbefore Hexp. unfold do_idea.
  unfold bind at 1. unfold try_except at 1.
  rewrite (bind_eq_ok _ _ _ _ _ Hbefore).
  unfold bind at 1. unfold try_except at 1.
  rewrite (bind_eq_raise _ _ _ _ _ Hexp).
  unfold bind, print, print_to, modify, ret. simpl.
  eexists. split; [reflexivity|]. simpl.
  rewrite <- !app_assoc. auto.
Qed.


(** ** What [do_idea] returns *)

(** [m] returns only values that satisfy [P]. *)
Definition ensures {S A} (P : A -> Prop) (m : M S A) : Prop :=
  forall s a s', m s = (Ok a, s') -> P a.

Lemma ensures_ret {S A} (P : A -> Prop) (a : A) :
  P a -> ensures P (ret (S := S) a).
Proof. intros HP s a' s' H. injection H as <- _. exact HP. Qed.

Lemma ensures_raise {S A} (P : A -> Prop) (e : Exn) :
  ensures P (raise (S := S) (A := A) e).
Proof. intros s a s' H. discriminate. Qed.

Lemma ensures_bind {S A B} (P : B -> Prop) (m : M S A) (k : A -> M S B) :
  (forall a, ensures P (k a)) -> ensures P (bind m k).
Proof.
  intros Hk s b s' H. apply bind_ok_inv in H as (a & s1 & _ & H).
  exact (Hk a s1 b s' H).
Qed.

Lemma ensures_try_except {S A} (P : A -> Prop) (m : M S A) (h : Exn -> M S A) :
  ensures P m -> (forall e, ensures P (h e)) -> ensures P (try_except m h).
Proof.
  intros Hm Hh s a s' H. unfold try_except in H.
  destruct (m s) as [[a1|e|] s1] eqn:E; try discriminate.
  - injection H as <- <-. exact (Hm s a1 s1 E).
  - exact (Hh e s1 a s' H).
Qed.

Lemma total_try_except {S A} (m : M S A) (h : Exn -> M S A) :
  total m -> (forall e, total (h e)) -> total (try_except m h).
Proof.
  intros Hm Hh s. unfold try_except. specialize (Hm s).
  destruct (m s) as [[a|e|] s1]; simpl in *; try discriminate.
  - apply Hh.
  - contradiction.
Qed.

Lemma total_external {A} (f : FS * Ext -> Reply A * (FS * Ext)) :
  total (external f).
Proof.
  intros s. unfold external.
  destruct (f (fs s, ext s)) as [[a|e] [fs' ext']]; discriminate.
Qed.

Lemma total_print_time : total print_time.
Proof. intros s. discriminate. Qed.

Lemma total_print text : total (print (Ext := Ext) text).
Proof. intros s. discriminate. Qed.

Lemma total_before_experiments idea_name : total (before_experiments idea_name).
Proof.
  unfold before_experiments.
  repeat (apply total_bind; [|intros ?]);
    auto using total_print_time, total_print, total_external.
Qed.

Lemma total_writeup_stage idea folder_name writeup results :
  total (writeup_stage idea folder_name writeup results).
Proof.
  unfold writeup_stage.
  apply total_bind; [apply total_print_time|]. intros _.
  apply total_bind; [apply total_print|]. intros _.
  case_bool_decide as Hw; [|apply total_raise].
  apply total_bind; [apply total_external|]. intros _.
  apply total_bind.
  - apply total_try_except.
    + apply total_bind; [apply total_external|]. intros _. apply total_ret.
    + intros e. apply total_bind; [apply total_print|]. intros _.
      apply total_ret.
  - intros [|]; [|apply total_ret].
    apply total_bind; [apply total_print|]. intros _. apply total_ret.
Qed.

(** The verdicts the function has: [return False], or falling off the
    end. *)
Definition verdict (r : option bool) : Prop := r = Some false \/ r = None.

Lemma writeup_stage_verdict idea folder_name writeup results :
  ensures verdict (writeup_stage idea folder_name writeup results).
Proof.
  unfold writeup_stage.
  apply ensures_bind. intros _. apply ensures_bind. intros _.
  case_bool_decide as Hw; [|apply ensures_raise].
  apply ensures_bind. intros _. apply ensures_bind. intros [|].
  - apply ensures_bind. intros _. apply ensures_ret. right. reflexivity.
  - apply ensures_ret. left. reflexivity.
Qed.

Lemma ensures_bind_with {S A B} (Q : A -> Prop) (P : B -> Prop) (m : M S A)
  (k : A -> M S B) :
  ensures Q m -> (forall a, Q a -> ensures P (k a)) -> ensures P (bind m k).
Proof.
  intros Hm Hk s b s' H. apply bind_ok_inv in H as (a & s1 & Ha & H).
  exact (Hk a (Hm s a s1 Ha) s1 b s' H).
Qed.

(** The [try] statement of [do_idea] with its handlers, and the [finally]
    clause after it. *)
Lemma do_idea_outcome idea idea_name folder_name writeup (s : St Ext) :
  exists r s1,
    do_idea idea idea_name folder_name writeup s
    = (Ok r, snd (print "FINISHED IDEA" s1))
    /\ verdict r.
Proof.
  unfold do_idea.
  match goal with
  | |- context [bind (try_except ?m ?h) _] =>
      set (body := m); set (handler := h)
  end.
  assert (Htotal : total (try_except body handler)).
  { apply total_try_except.
    - unfold body.
      apply total_bind; [apply total_before_experiments|]. intros _.
      apply total_bind.
      + apply total_try_except.
        * apply total_bind; [apply perform_experiments_total|]. intros x.
          apply total_ret.
        * intros e. repeat (apply total_bind; [apply total_print|]; intros _).
          apply total_ret.
      + intros [[[|] results]|b]; simpl.
        * apply total_writeup_stage.
        * apply total_bind; [apply total_print|]. intros _. apply total_ret.
        * apply total_ret.
    - intros e. apply total_bind; [apply total_print|]. intros _.
      apply total_ret. }
  assert (Hverdict : ensures verdict (try_except body handler)).
  { apply ensures_try_except.
    - unfold body. apply ensures_bind. intros _.
      apply (ensures_bind_with
               (fun r : bool * Json + bool => forall b, r = inr b -> b = false)).
      + apply ensures_try_except.
        * apply ensures_bind. intros x. apply ensures_ret.
          intros b Hb. discriminate.
        * intros e. apply ensures_bind. intros _. apply ensures_bind.
          intros _. apply ensures_ret. intros b Hb. injection Hb as <-.
          reflexivity.
      + intros [[[|] results]|b] Hr; simpl.
        * apply writeup_stage_verdict.
        * apply ensures_bind. intros _. apply ensures_ret. left. reflexivity.
        * apply ensures_ret. left. rewrite (Hr b eq_refl). reflexivity.
    - intros e. apply ensures_bind. intros _. apply ensures_ret.
      left. reflexivity. }
  pose proof (Htotal s) as Hnd. pose proof (Hverdict s) as Hv.
  unfold bind at 1.
  destruct (try_except body handler s) as [[r|e|] s1] eqn:E.
  - exists r, s1. split; [reflexivity|]. exact (Hv r s1 eq_refl).
  - exfalso. unfold try_except in E.
    destruct (body s) as [[a|e0|] s0]; try discriminate.
  - exfalso. apply Hnd. reflexivity.
Qed.






(** ** The project folder (lines 121-145) and the whole call *)

(** [shutil.copytree(src, dst, dirs_exist_ok=True)], and
    [datetime.now().strftime("%Y%m%d_%H%M%S")]. *)
Variable copytree : string -> string -> FS * Ext -> Reply unit * (FS * Ext).
Variable stamp : Ext -> string.

Definition nl : string := "
".

(** [d[key]] on a decoded document. *)
Definition json_getitem (d : Json) (key : string) : M (St Ext) Json :=
  match d with
  | JObj members =>
      match GenerateIdeas.assoc key members with
      | Some v => ret v
      | None => raise (KeyError key)
      end
  | _ => raise TypeError
  end.

(** [open(p, "w")] and [f.write(text)] on the file opened at [p]. *)
Definition open_w (p : string) : M (St Ext) unit :=
  fun s =>
    match fs s !! p with
    | Some Dir => (Raise (IsADirectoryError p), s)
    | _ => (Ok tt, set_fs Ext (insert p (File EmptyString)) s)
    end.

Definition f_write (p text : string) : M (St Ext) unit :=
  modify (set_fs Ext (fun files =>
    match files !! p with
    | Some (File c) => <[p := File (c +:+ text)]> files
    | _ => files
    end)).

(** The body of a [with open(p, "w") as f:] made of [f.write] statements:
    each text is evaluated, then written. *)
Fixpoint write_all (p : string) (texts : list (M (St Ext) string))
  : M (St Ext) unit :=
  match texts with
  | [] => ret tt
  | text :: rest => t <- text ;; f_write p t ;; write_all p rest
  end.

Definition field_line (label : string) (idea : gmap string Json) (key : string)
  : M (St Ext) string :=
  v <- getitem Ext idea key ;; ret (label +:+ py_str v +:+ nl).

Definition baseline_line (label : string) (baseline_results : Json)
  (key : string) : M (St Ext) string :=
  v <- json_getitem baseline_results key ;; ret (label +:+ py_str v +:+ nl).

(** The fields of the idea that the notes quote, in the order of the
    [f.write] statements. *)
Definition noted_fields : list (string * string) :=
  [("# Narrative Perspective: ", "narrative_perspective");
   ("# Theme: ", "theme");
   ("# Novel Structure Models: ", "novel_structure_models");
   ("# Target Demographics: ", "target_demographics");
   ("# Core Connection: ", "core_connection");
   ("# Unique Hook: ", "unique_hook");
   ("# Protagonist Choice: ", "protagonist_choice");
   ("# Tone and Style: ", "tone_and_style");
   ("# World Expansion: ", "world_expansion");
   ("# Fan Service: ", "fan_service")].

Definition note_lines (idea : gmap string Json) (baseline_results : Json)
  : list (M (St Ext) string) :=
  [ret ("## Run 0: OverAll Vision " +:+ nl)]
  ++ map (fun lk => field_line (fst lk) idea (snd lk)) noted_fields
  ++ [ret ("## Run 0: The first draft " +:+ nl);
      baseline_line "task: " baseline_results "task_prompt";
      baseline_line "The first draft of the spin-off work: " baseline_results
        "model_response"].

(** Lines 121-145; the result is [(idea_name, folder_name)]. *)
Definition set_up (base_dir results_dir : string) (idea : gmap string Json)
  : M (St Ext) (string * string) :=
  timestamp <- gets (fun s => stamp (ext s)) ;;
  name <- getitem Ext idea "Name" ;;
  let idea_name := timestamp +:+ "_" +:+ py_str name in
  let folder_name := osp_join results_dir idea_name in
  taken <- path_exists Ext folder_name ;;
  if taken : bool then
    raise (AssertionError ("Folder " +:+ folder_name +:+ " already exists."))
  else
    external (copytree base_dir folder_name) ;;
    baseline_results <-
      load_json Ext json_loads
        (osp_join (osp_join base_dir "run_0") "results.json") ;;
    let notes := osp_join folder_name "notes.txt" in
    open_w notes ;;
    write_all notes (note_lines idea baseline_results) ;;
    ret (idea_name, folder_name).

(** The whole of [do_idea].  With [log_file] set, the [finally] clause,
    after its [print], assigns [original_stdout] to [sys.stdout]; no such
    name is bound in the function or in the module, so the statement raises
    [NameError], which replaces the pending [return]. *)
Definition do_idea_call (base_dir results_dir : string)
  (idea : gmap string Json) (writeup : string) (log_file : bool)
  : M (St Ext) (option bool) :=
  names <- set_up base_dir results_dir idea ;;
  r <- do_idea idea (fst names) (snd names) writeup ;;
  if log_file then
    raise (OtherError "NameError: name 'original_stdout' is not defined")
  else ret r.

(** [str(success)]. *)
Definition success_str (r : option bool) : string :=
  match r with
  | Some true => "True"
  | Some false => "False"
  | None => "None"
  end.

(** One pass of the sequential loop of the main block (lines 286-299),
    over an idea that is an object. *)
Definition process_idea (base_dir results_dir writeup : string)
  (idea : gmap string Json) : M (St Ext) unit :=
  name <- getitem Ext idea "Name" ;;
  print ("Processing idea: " +:+ py_str name) ;;
  try_except
    (success <- do_idea_call base_dir results_dir idea writeup false ;;
     name <- getitem Ext idea "Name" ;;
     print ("Completed idea: " +:+ py_str name +:+ ", Success: "
            +:+ success_str success))
    (fun e =>
       name <- getitem Ext idea "Name" ;;
       print ("Failed to evaluate idea " +:+ py_str name +:+ ": "
              +:+ exn_str e)).

Fixpoint run_ideas (base_dir results_dir writeup : string)
  (ideas : list (gmap string Json)) : M (St Ext) unit :=
  match ideas with
  | [] => ret tt
  | idea :: rest =>
      process_idea base_dir results_dir writeup idea ;;
      run_ideas base_dir results_dir writeup rest
  end.

(** Lines 285-301. *)
Definition main_sequential (base_dir results_dir writeup : string)
  (ideas : list (gmap string Json)) : M (St Ext) unit :=
  run_ideas base_dir results_dir writeup ideas ;;
  print "All ideas evaluated.".

Lemma total_gets {A} (f : St Ext -> A) : total (gets f).
Proof. intros s. discriminate. Qed.

Lemma total_idea_getitem idea key : total (getitem Ext idea key).
Proof. intros s. unfold getitem. destruct (idea !! key); discriminate. Qed.

Lemma total_json_getitem d key : total (json_getitem d key).
Proof.
  intros s. unfold json_getitem. destruct d as [| | | | |members];
    try discriminate.
  destruct (GenerateIdeas.assoc key members); discriminate.
Qed.

Lemma total_write_all p texts :
  Forall total texts -> total (write_all p texts).
Proof.
  induction 1 as [|text rest Ht _ IH]; simpl; [apply total_ret|].
  apply total_bind; [exact Ht|]. intros t.
  apply total_bind; [apply total_modify|]. intros _. exact IH.
Qed.

Lemma total_note_lines idea baseline_results :
  Forall total (note_lines idea baseline_results).
Proof.
  unfold note_lines. repeat apply Forall_app_2.
  - repeat constructor. apply total_ret.
  - apply Forall_map, Forall_true. intros [label key]. simpl.
    apply total_bind; [apply total_idea_getitem|]. intros v. apply total_ret.
  - repeat constructor; try apply total_ret;
      (apply total_bind; [apply total_json_getitem|]; intros v;
       apply total_ret).
Qed.

Lemma total_set_up base_dir results_dir idea :
  total (set_up base_dir results_dir idea).
Proof.
  unfold set_up.
  apply total_bind; [apply total_gets|]. intros timestamp.
  apply total_bind; [apply total_idea_getitem|]. intros name.
  apply total_bind; [apply total_gets|]. intros [|]; [apply total_raise|].
  apply total_bind; [apply total_external|]. intros _.
  apply total_bind; [apply total_load_json|]. intros baseline_results.
  apply total_bind.
  { intros s. unfold open_w. destruct (fs s !! _) as [[c|]|]; discriminate. }
  intros _.
  apply total_bind; [apply total_write_all, total_note_lines|]. intros _.
  apply total_ret.
Qed.

Lemma total_do_idea idea idea_name folder_name writeup :
  total (do_idea idea idea_name folder_name writeup).
Proof.
  intros s.
  destruct (do_idea_outcome idea idea_name folder_name writeup s)
    as (r & s1 & -> & _). discriminate.
Qed.

Lemma total_do_idea_call base_dir results_dir idea writeup log_file :
  total (do_idea_call base_dir results_dir idea writeup log_file).
Proof.
  unfold do_idea_call.
  apply total_bind; [apply total_set_up|]. intros names.
  apply total_bind; [apply total_do_idea|]. intros r.
  destruct log_file; [apply total_raise | apply total_ret].
Qed.

(** One pass of the loop over an idea that has a name returns. *)
Lemma process_idea_named base_dir results_dir writeup idea name (s : St Ext) :
  idea !! "Name" = Some name ->
  exists s1, process_idea base_dir results_dir writeup idea s = (Ok tt, s1).
Proof.
  intros Hname. unfold process_idea. unfold bind at 1.
  unfold getitem at 1. rewrite Hname. unfold ret at 1.
  unfold bind at 1. unfold print at 1, print_to at 1, modify at 1.
  unfold try_except.
  match goal with
  | |- context [bind (do_idea_call ?b ?r ?i ?w false) ?k ?s0] =>
      pose proof (total_do_idea_call b r i w false s0) as Htotal;
      unfold bind at 1;
      destruct (do_idea_call b r i w false s0) as [[success|e|] s1]
  end.
  - unfold bind, getitem. rewrite Hname. unfold ret, print, print_to, modify.
    eexists. reflexivity.
  - unfold bind, getitem. rewrite Hname. unfold ret, print, print_to, modify.
    eexists. reflexivity.
  - exfalso. apply Htotal. reflexivity.
Qed.

Lemma run_ideas_named base_dir results_dir writeup ideas :
  forall s : St Ext,
  Forall (fun idea : gmap string Json => is_Some (idea !! "Name")) ideas ->
  exists s1, run_ideas base_dir results_dir writeup ideas s = (Ok tt, s1).
Proof.
  induction ideas as [|idea rest IH]; intros s Hall.
  - exists s. reflexivity.
  - apply Forall_cons in Hall as [[name Hname] Hrest].
    destruct (process_idea_named base_dir results_dir writeup idea name s
                Hname) as (s0 & Hpass).
    cbn [run_ideas]. rewrite (bind_eq_ok _ _ _ _ _ Hpass).
    apply IH. exact Hrest.
Qed.

Lemma run_ideas_nameless base_dir results_dir writeup front idea rest :
  forall s : St Ext,
  Forall (fun idea : gmap string Json => is_Some (idea !! "Name")) front ->
  idea !! "Name" = None ->
  exists s1,
    run_ideas base_dir results_dir writeup front s = (Ok tt, s1)
    /\ run_ideas base_dir results_dir writeup (front ++ idea :: rest) s
       = (Raise (KeyError "Name"), s1).
Proof.
  induction front as [|first front IH]; intros s Hfront Hnone.
  - exists s. split; [reflexivity|]. cbn [app run_ideas].
    unfold bind, process_idea, bind, getitem. rewrite Hnone. reflexivity.
  - apply Forall_cons in Hfront as [[name Hname] Hfront].
    destruct (process_idea_named base_dir results_dir writeup first name s
                Hname) as (s0 & Hpass).
    destruct (IH s0 Hfront Hnone) as (s1 & Hrun & Hstop).
    exists s1. cbn [app run_ideas].
    rewrite !(bind_eq_ok _ _ _ _ _ Hpass). auto.
Qed.

(** X20.  A project folder that already exists is refused before anything
    is copied, written or printed: [do_idea] raises [AssertionError] and
    leaves the state as it was. *)
Theorem existing_folder_is_refused base_dir results_dir idea writeup log_file
  (s : St Ext) (name : Json) :
  idea !! "Name" = Some name ->
  is_Some (fs s !! osp_join results_dir
                     (stamp (ext s) +:+ "_" +:+ py_str name)) ->
  do_idea_call base_dir results_dir idea writeup log_file s
  = (Raise (AssertionError
              ("Folder "
               +:+ osp_join results_dir (stamp (ext s) +:+ "_" +:+ py_str name)
               +:+ " already exists.")), s).
Proof.
  intros Hname Htaken. unfold do_idea_call, set_up.
  unfold bind at 1. unfold bind at 1. unfold gets at 1.
  unfold bind at 1. unfold getitem at 1. rewrite Hname. unfold ret at 1.
  unfold bind at 1. unfold path_exists at 1, gets at 1.
  rewrite bool_decide_eq_true_2 by exact Htaken. reflexivity.
Qed.

(** The notes stop at the first field the idea lacks. *)
Lemma write_fields_missing p idea (fields : list (string * string)) tail :
  forall s : St Ext,
  Exists (fun lk => idea !! snd lk = None) fields ->
  exists key s',
    In key (map snd fields) /\ idea !! key = None
    /\ write_all p (map (fun lk => field_line (fst lk) idea (snd lk)) fields
                    ++ tail) s
       = (Raise (KeyError key), s')
    /\ trace s' = trace s /\ console s' = console s /\ ext s' = ext s.
Proof.
  induction fields as [|[label key] rest IH]; intros s Hex.
  - inversion Hex.
  - cbn [map app write_all fst snd].
    destruct (idea !! key) as [v|] eqn:Ek.
    + apply Exists_cons in Hex as [Hhere | Hlater];
        [simpl in Hhere; congruence|].
      unfold bind at 1. unfold field_line at 1, bind at 1, getitem at 1.
      rewrite Ek. unfold ret at 1. unfold ret at 1.
      unfold bind at 1. unfold f_write at 1, modify at 1.
      match goal with
      | |- context [write_all p _ ?s0] =>
          destruct (IH s0 Hlater) as (k & s' & Hin & Hk & Hrun & Ht & Hc & He)
      end.
      exists k, s'. split; [right; exact Hin|]. split; [exact Hk|].
      split; [exact Hrun|]. auto.
    + exists key, s. split; [left; reflexivity|]. split; [exact Ek|].
      unfold bind at 1. unfold field_line, bind, getitem. rewrite Ek.
      auto.
Qed.

(** X21.  An idea that lacks one of the ten fields quoted in [notes.txt]
    makes [do_idea] raise [KeyError] for a missing field: the exception
    arises before the [try] statement, so it is not turned into [False],
    no prompt is sent, no experiment is launched and nothing is printed,
    not even [FINISHED IDEA]. *)
Theorem missing_field_escapes_do_idea base_dir results_dir idea writeup
  log_file (s : St Ext) (name baseline_results : Json) (c : string)
  (fs1 : FS) (ext1 : Ext) (missing : string) :
  let folder_name :=
    osp_join results_dir (stamp (ext s) +:+ "_" +:+ py_str name) in
  idea !! "Name" = Some name ->
  fs s !! folder_name = None ->
  copytree base_dir folder_name (fs s, ext s) = (Returned tt, (fs1, ext1)) ->
  fs1 !! osp_join (osp_join base_dir "run_0") "results.json" = Some (File c) ->
  json_loads c = Some baseline_results ->
  fs1 !! osp_join folder_name "notes.txt" <> Some Dir ->
  In missing (map snd noted_fields) ->
  idea !! missing = None ->
  exists key sf,
    In key (map snd noted_fields) /\ idea !! key = None
    /\ do_idea_call base_dir results_dir idea writeup log_file s
       = (Raise (KeyError key), sf)
    /\ trace sf = trace s /\ console sf = console s /\ ext sf = ext1.
Proof.
  intros folder_name Hname Hfresh Hcopy Hbase Hloads Hnotes Hin Hmissing.
  unfold do_idea_call, set_up.
  unfold bind at 1. unfold bind at 1. unfold gets at 1.
  unfold bind at 1. unfold getitem at 1. rewrite Hname. unfold ret at 1.
  unfold bind at 1. unfold path_exists at 1, gets at 1.
  fold folder_name.
  rewrite bool_decide_eq_false_2
    by (rewrite Hfresh; intros [x Hx]; discriminate).
  unfold bind at 1. unfold external at 1. rewrite Hcopy. cbn [of_reply].
  unfold bind at 1. unfold load_json at 1, bind at 1, read_text at 1.
  cbn [fs]. rewrite Hbase, Hloads. unfold ret at 1.
  unfold bind at 1. unfold open_w at 1. cbn [fs].
  set (s1 := set_fs Ext _ _).
  assert (Hopen : match fs1 !! osp_join folder_name "notes.txt" with
                  | Some Dir =>
                      (Raise (IsADirectoryError
                                (osp_join folder_name "notes.txt")),
                       mkSt fs1 ext1 (trace s) (console s))
                  | _ => (Ok tt, s1)
                  end = (Ok tt, s1)).
  { destruct (fs1 !! osp_join folder_name "notes.txt") as [[c0|]|];
      try reflexivity. contradiction. }
  rewrite Hopen. clear Hopen.
  unfold note_lines. cbn [app write_all].
  unfold bind at 1. unfold bind at 1. unfold ret at 1.
  unfold bind at 1. unfold f_write at 1, modify at 1.
  assert (Hex : Exists (fun lk : string * string => idea !! snd lk = None)
                  noted_fields).
  { apply Exists_exists. apply in_map_iff in Hin as ([label k] & Hk & Hin).
    simpl in Hk. subst k. exists (label, missing).
    split; [apply list_elem_of_In; exact Hin | exact Hmissing]. }
  match goal with
  | |- context [write_all ?p (map _ noted_fields ++ ?tail) ?s0] =>
      destruct (write_fields_missing p idea noted_fields tail s0 Hex)
        as (key & s' & Hk & Hnone & Hrun & Ht & Hc & He)
  end.
  exists key, s'. split; [exact Hk|]. split; [exact Hnone|].
  rewrite Hrun. split; [reflexivity|]. rewrite Ht, Hc, He. auto.
Qed.

(** X22.  With [log_file] set, a call of [do_idea] whose project folder was
    set up never returns a verdict: after [FINISHED IDEA] is printed the
    [finally] clause raises [NameError] for [original_stdout]. *)
Theorem log_file_call_raises base_dir results_dir idea writeup
  (s s1 : St Ext) (names : string * string) :
  set_up base_dir results_dir idea s = (Ok names, s1) ->
  exists sf,
    do_idea_call base_dir results_dir idea writeup true s
    = (Raise (OtherError "NameError: name 'original_stdout' is not defined"),
       sf)
    /\ last (console sf) = Some (Stdout, "FINISHED IDEA").
Proof.
  intros Hset. unfold do_idea_call.
  rewrite (bind_eq_ok _ _ _ _ _ Hset).
  destruct (do_idea_outcome idea (fst names) (snd names) writeup s1)
    as (r & s2 & Hdo & _).
  rewrite (bind_eq_ok _ _ _ _ _ Hdo).
  eexists. split; [reflexivity|]. simpl. apply last_snoc.
Qed.

(** X23.  The sequential loop outlives every failure of an idea: when each
    idea has a [Name], whatever the set-up, the coder, the experiments and
    the writeup do, the loop goes through all the ideas without raising and
    ends by printing [All ideas evaluated.]. *)
Theorem sequential_run_outlives_failures base_dir results_dir writeup ideas
  (s : St Ext) :
  Forall (fun idea : gmap string Json => is_Some (idea !! "Name")) ideas ->
  exists sf,
    main_sequential base_dir results_dir writeup ideas s = (Ok tt, sf)
    /\ last (console sf) = Some (Stdout, "All ideas evaluated.").
Proof.
  intros Hall. unfold main_sequential.
  destruct (run_ideas_named base_dir results_dir writeup ideas s Hall)
    as (s1 & Hrun).
  rewrite (bind_eq_ok _ _ _ _ _ Hrun).
  eexists. split; [reflexivity|]. simpl. apply last_snoc.
Qed.

(** X24.  An idea without a [Name] stops the sequential loop: the
    [KeyError] arises in the [print] before the [try] statement, so the
    ideas after it are never started and [All ideas evaluated.] is not
    printed. *)
Theorem nameless_idea_stops_the_run base_dir results_dir writeup
  (front rest : list (gmap string Json)) (idea : gmap string Json)
  (s : St Ext) :
  Forall (fun idea : gmap string Json => is_Some (idea !! "Name")) front ->
  idea !! "Name" = None ->
  exists s1,
    run_ideas base_dir results_dir writeup front s = (Ok tt, s1)
    /\ main_sequential base_dir results_dir writeup (front ++ idea :: rest) s
       = (Raise (KeyError "Name"), s1).
Proof.
  intros Hfront Hnone. unfold main_sequential.
  destruct (run_ideas_nameless base_dir results_dir writeup front idea rest
              s Hfront Hnone) as (s1 & Hrun & Hstop).
  exists s1. split; [exact Hrun|].
  apply bind_eq_raise. exact Hstop.
Qed.

End DoIdea.

Arguments do_idea {Ext}.
Arguments before_experiments {Ext}.
Arguments set_up {Ext}.
Arguments do_idea_call {Ext}.
Arguments run_ideas {Ext}.
Arguments main_sequential {Ext}.

(** ** The claim at a concrete input *)

Definition scripted_make_coder (w : FS * Script) : Reply unit * (FS * Script) :=
  (Returned tt, w).

Definition scripted_writeup (idea : gmap string Json) (folder_name : string)
  (results : Json) (w : FS * Script) : Reply unit * (FS * Script) :=
  (Returned tt, w).

Definition scripted_exn (e : Exn) : string :=
  match e with
  | FileNotFoundError path => "No such file or directory: " +:+ path
  | _ => "error"
  end.

Definition scripted_now (w : Script) : string := "2025-01-01 00:00:00".

(** A child that exits with code 0 and leaves its directory without any
    [results.json]. *)
Definition child_without_artifact : Child :=
  mkChild (Completed 0 EmptyString) true None.


(** ** The further properties at concrete inputs *)

Definition failing_make_coder (w : FS * Script) : Reply unit * (FS * Script) :=
  (Raised (OtherError "no such model"), w).

Definition failing_writeup (idea : gmap string Json) (folder_name : string)
  (results : Json) (w : FS * Script) : Reply unit * (FS * Script) :=
  (Raised (KeyError "model_response"), w).

Definition three_replies : list (Reply string) :=
  [keep_going; keep_going; keep_going].
Definition three_successes : Script :=
  (three_replies, [child_ok; child_ok; child_ok]).
Definition three_failures : Script :=
  (three_replies, [child_fail "boom"; child_fail "boom"; child_fail "boom"]).





(** A template directory with a baseline run, a copy that only makes the
    destination, and a decoder that knows the baseline. *)
Definition template : FS :=
  {[ "templates/t/experiment.py" := File "print(1)";
     "templates/t/run_0/results.json" := File "BASE" ]}.

Definition scripted_copytree (src dst : string) (w : FS * Script)
  : Reply unit * (FS * Script) :=
  (Returned tt, (<[dst := Dir]> (fst w), snd w)).

Definition scripted_stamp (w : Script) : string := "20250101_000000".

Definition baseline_loads (c : string) : option Json :=
  if bool_decide (c = "BASE") then
    Some (JObj [("task_prompt", JStr "write"); ("model_response", JStr "draft")])
  else scripted_loads c.

Definition template_start (script : Script) : St Script :=
  mkSt template script [] [].

(** An idea without its [theme]. *)
Definition themeless_idea : gmap string Json := delete "theme" an_idea.

Lemma existing_folder_is_refused_witness :
  fst (do_idea_call scripted_coder scripted_child baseline_loads scripted_str
         scripted_make_coder scripted_writeup scripted_exn scripted_now
         scripted_copytree scripted_stamp "templates/t" "results/t" an_idea
         "latex" false
         (mkSt (<["results/t/20250101_000000_{}" := Dir]> template)
            three_successes [] []))
  = Raise (AssertionError
             "Folder results/t/20250101_000000_{} already exists.").
Proof.
  rewrite (existing_folder_is_refused Script scripted_coder scripted_child
             baseline_loads scripted_str scripted_make_coder scripted_writeup
             scripted_exn scripted_now scripted_copytree scripted_stamp
             "templates/t" "results/t" an_idea "latex" false
             (mkSt (<["results/t/20250101_000000_{}" := Dir]> template)
                three_successes [] [])
             (JStr "x")).
  - reflexivity.
  - vm_compute. reflexivity.
  - vm_compute. eexists. reflexivity.
Defined.

Lemma missing_field_escapes_do_idea_witness :
  exists key sf,
    do_idea_call scripted_coder scripted_child baseline_loads scripted_str
      scripted_make_coder scripted_writeup scripted_exn scripted_now
      scripted_copytree scripted_stamp "templates/t" "results/t"
      themeless_idea "latex" false (template_start three_successes)
    = (Raise (KeyError key), sf)
    /\ themeless_idea !! key = None /\ trace sf = [].
Proof.
  edestruct (missing_field_escapes_do_idea Script scripted_coder
               scripted_child baseline_loads scripted_str scripted_make_coder
               scripted_writeup scripted_exn scripted_now scripted_copytree
               scripted_stamp "templates/t" "results/t" themeless_idea
               "latex" false (template_start three_successes) (JStr "x")
               (JObj [("task_prompt", JStr "write");
                      ("model_response", JStr "draft")])
               "BASE")
    as (key & sf & _ & Hnone & Hdo & Htrace & _).
  - vm_compute. reflexivity.
  - vm_compute. reflexivity.
  - reflexivity.
  - vm_compute. reflexivity.
  - reflexivity.
  - vm_compute. discriminate.
  - right. left. reflexivity.
  - vm_compute. reflexivity.
  - exists key, sf. auto.
Defined.

Lemma log_file_call_raises_witness :
  exists sf,
    do_idea_call scripted_coder scripted_child baseline_loads scripted_str
      scripted_make_coder scripted_writeup scripted_exn scripted_now
      scripted_copytree scripted_stamp "templates/t" "results/t" an_idea
      "latex" true (template_start three_successes)
    = (Raise (OtherError "NameError: name 'original_stdout' is not defined"),
       sf).
Proof.
  edestruct (log_file_call_raises Script scripted_coder scripted_child
               baseline_loads scripted_str scripted_make_coder
               scripted_writeup scripted_exn scripted_now scripted_copytree
               scripted_stamp "templates/t" "results/t" an_idea "latex"
               (template_start three_successes))
    as (sf & Hdo & _).
  - vm_compute. reflexivity.
  - exists sf. exact Hdo.
Defined.

Lemma sequential_run_outlives_failures_witness :
  exists sf,
    main_sequential scripted_coder scripted_child baseline_loads scripted_str
      scripted_make_coder scripted_writeup scripted_exn scripted_now
      scripted_copytree scripted_stamp "templates/t" "results/t" "latex"
      [an_idea; themeless_idea; an_idea] (template_start three_successes)
    = (Ok tt, sf).
Proof.
  edestruct (sequential_run_outlives_failures Script scripted_coder
               scripted_child baseline_loads scripted_str scripted_make_coder
               scripted_writeup scripted_exn scripted_now scripted_copytree
               scripted_stamp "templates/t" "results/t" "latex"
               [an_idea; themeless_idea; an_idea]
               (template_start three_successes))
    as (sf & Hrun & _).
  - repeat constructor; exists (JStr "x"); vm_compute; reflexivity.
  - exists sf. exact Hrun.
Defined.

Lemma nameless_idea_stops_the_run_witness :
  exists s1,
    main_sequential scripted_coder scripted_child baseline_loads scripted_str
      scripted_make_coder scripted_writeup scripted_exn scripted_now
      scripted_copytree scripted_stamp "templates/t" "results/t" "latex"
      ([themeless_idea] ++ delete "Name" an_idea :: [an_idea])
      (template_start three_successes)
    = (Raise (KeyError "Name"), s1).
Proof.
  edestruct (nameless_idea_stops_the_run Script scripted_coder
               scripted_child baseline_loads scripted_str scripted_make_coder
               scripted_writeup scripted_exn scripted_now scripted_copytree
               scripted_stamp "templates/t" "results/t" "latex"
               [themeless_idea] [an_idea] (delete "Name" an_idea)
               (template_start three_successes))
    as (s1 & _ & Hstop).
  - repeat constructor; exists (JStr "x"); vm_compute; reflexivity.
  - vm_compute. reflexivity.
  - exists s1. exact Hstop.
Defined.

End Launch.

(** * [ai_novelist/perform_writeup.py] *)

Module PerformWriteup.

(** What [subprocess.run(command, cwd=cwd, stdout=PIPE, stderr=PIPE,
    text=True, timeout=timeout)] comes to.  The call has no [check], so it
    never raises [CalledProcessError]; [Failed] is any exception other than
    the timeout, such as the one of a program that cannot be started. *)
Inductive Outcome : Type :=
| Finished (stdout stderr : string)
| TimedOut
| Failed (e : Exn).

Inductive Event : Type :=
| CoderRun (prompt : string)
| Chktex (command : string)
| Pdflatex (command : list string) (cwd : string).

Definition is_chktex (e : Event) : bool :=
  match e with Chktex _ => true | _ => false end.
Definition is_pdflatex (e : Event) : bool :=
  match e with Pdflatex _ _ => true | _ => false end.
Definition is_coder_run (e : Event) : bool :=
  match e with CoderRun _ => true | _ => false end.

(** The number of events of one kind in a trace. *)
Definition count (kind : Event -> bool) (t : list Event) : nat :=
  length (List.filter kind t).

Lemma count_app kind t u : count kind (t ++ u) = (count kind t + count kind u)%nat.
Proof. unfold count. rewrite List.filter_app, length_app. reflexivity. Qed.

Definition nl : string := "
".

Section Writeup.

Variable Ext : Type.
(** [coder.run(prompt)]. *)
Variable coder_run : string -> FS * Ext -> Reply string * (FS * Ext).
Variable subprocess_run :
  list string -> string -> Z -> FS * Ext -> Outcome * (FS * Ext).
(** [os.popen(command).read()]. *)
Variable popen_read : string -> FS * Ext -> Reply string * (FS * Ext).
(** [shutil.move(src, dst)] when [src] is a directory. *)
Variable move_tree : string -> string -> FS * Ext -> Reply unit * (FS * Ext).
Variable abspath : string -> string.
(** [re.findall] with the pattern of the figures and with the pattern of
    the section headers. *)
Variable findall_figures findall_sections : string -> list string.
(** The order in which a [for] loop walks the set of the members of a
    list. *)
Variable set_iter : list string -> list string.
Variable py_str : Json -> string.
(** [idea.items()]. *)
Variable items : gmap string Json -> list (string * Json).
(** The f-string [novel_prompt] as a function of [idea_text] and of
    [results["model_response"]], and the prompts that are constants;
    [refinement_prompt] and [second_refinement_prompt] stand for the texts
    after their two [replace] calls. *)
Variable novel_prompt : string -> string -> string.
Variables tex_prompt title_prompt refinement_prompt section_prompt
  final_prompt second_refinement_prompt : string.

Record St : Type := mkSt {
  fs : FS;
  ext : Ext;
  trace : list Event;
  console : list string
}.

Definition print (text : string) : M St unit :=
  modify (fun s => mkSt (fs s) (ext s) (trace s) (console s ++ [text])).

Definition run_coder (prompt : string) : M St string :=
  fun s =>
    let '(r, (fs', ext')) := coder_run prompt (fs s, ext s) in
    (of_reply r, mkSt fs' ext' (trace s ++ [CoderRun prompt]) (console s)).

Definition chktex (command : string) : M St string :=
  fun s =>
    let '(r, (fs', ext')) := popen_read command (fs s, ext s) in
    (of_reply r, mkSt fs' ext' (trace s ++ [Chktex command]) (console s)).

Definition pdflatex (command : list string) (cwd : string) (timeout : Z)
  : M St Outcome :=
  fun s =>
    let '(o, (fs', ext')) := subprocess_run command cwd timeout (fs s, ext s) in
    (Ok o, mkSt fs' ext' (trace s ++ [Pdflatex command cwd]) (console s)).

(** [open(p, "r").read()]. *)
Definition read_text (p : string) : M St string :=
  fun s =>
    match fs s !! p with
    | Some (File c) => (Ok c, s)
    | Some Dir => (Raise (IsADirectoryError p), s)
    | None => (Raise (FileNotFoundError p), s)
    end.

Fixpoint basename (s : string) : string :=
  match s with
  | EmptyString => EmptyString
  | String _ t => if contains "/" s then basename t else s
  end.

(** [shutil.move(src, dst)]: a file moved into [dst] when that is a
    directory, unless the name is taken there, and onto [dst] otherwise. *)
Definition shutil_move (src dst : string) : M St unit :=
  fun s =>
    match fs s !! src with
    | None => (Raise (FileNotFoundError src), s)
    | Some (File c) =>
        match fs s !! dst with
        | Some Dir =>
            let real_dst := osp_join dst (basename src) in
            match fs s !! real_dst with
            | Some _ =>
                (Raise (OtherError ("Destination path '" +:+ real_dst
                                    +:+ "' already exists")), s)
            | None =>
                (Ok tt, mkSt (<[real_dst := File c]> (delete src (fs s)))
                          (ext s) (trace s) (console s))
            end
        | _ =>
            (Ok tt, mkSt (<[dst := File c]> (delete src (fs s)))
                      (ext s) (trace s) (console s))
        end
    | Some Dir =>
        let '(r, (fs', ext')) := move_tree src dst (fs s, ext s) in
        (of_reply r, mkSt fs' ext' (trace s) (console s))
    end.

(** ** [compile_latex] *)

Definition commands : list (list string) :=
  [["pdflatex"; "-interaction=nonstopmode"; "template.tex"];
   ["pdflatex"; "-interaction=nonstopmode"; "template.tex"];
   ["pdflatex"; "-interaction=nonstopmode"; "template.tex"]].

(** One pass of [for command in commands]: the timeout is the one exception
    of the call that has a live handler. *)
Definition run_command (command : list string) (cwd : string) (timeout : Z)
  : M St unit :=
  o <- pdflatex command cwd timeout ;;
  match o with
  | Finished stdout stderr =>
      print ("Standard Output:" +:+ nl +:+ " " +:+ stdout) ;;
      print ("Standard Error:" +:+ nl +:+ " " +:+ stderr)
  | TimedOut =>
      print ("Latex timed out after " +:+ pretty timeout +:+ " seconds")
  | Failed e => raise e
  end.

Fixpoint run_commands (todo : list (list string)) (cwd : string) (timeout : Z)
  : M St unit :=
  match todo with
  | [] => ret tt
  | command :: rest =>
      run_command command cwd timeout ;; run_commands rest cwd timeout
  end.

(** The [try] statement around [shutil.move]. *)
Definition move_pdf (cwd pdf_file : string) : M St unit :=
  fun s =>
    match shutil_move (osp_join cwd "template.pdf") pdf_file s with
    | (Raise (FileNotFoundError _), s') => print "Failed to rename PDF." s'
    | r => r
    end.

(** [compile_latex(cwd, pdf_file, timeout)]. *)
Definition compile_latex (cwd pdf_file : string) (timeout : Z) : M St unit :=
  print "GENERATING LATEX" ;;
  run_commands commands cwd timeout ;;
  print "FINISHED GENERATING LATEX" ;;
  move_pdf cwd pdf_file.

(** ** [generate_latex] *)

(** [{x for x in found if found.count(x) > 1}], as the loop walks it. *)
Definition duplicates (found : list string) : list string :=
  set_iter
    (List.filter (fun x => Nat.ltb 1 (count_occ String.string_dec found x))
       found).

Definition figure_prompt (dup : string) : string :=
  "Duplicate figures found: " +:+ dup
  +:+ ". Ensure any figure is only included once." +:+ nl
  +:+ "If duplicated, identify the best location for the figure and remove any other.".

Definition header_prompt (dup : string) : string :=
  "Duplicate section header found: " +:+ dup
  +:+ ". Ensure any section header is declared once." +:+ nl
  +:+ "If duplicated, identify the best location for the section header and remove any other.".

Definition chktex_prompt (check_output : string) : string :=
  "Please fix the following LaTeX errors in `template.tex` guided by the output of `chktek`:"
  +:+ nl +:+ check_output +:+ "." +:+ nl +:+ nl
  +:+ "Make the minimal fix required and do not remove or change any packages."
  +:+ nl
  +:+ "Pay attention to any accidental uses of HTML syntax, e.g. </end instead of \end."
  +:+ nl.

(** [for dup in duplicates: print(notice); coder.run(prompt)]. *)
Fixpoint report_all (notice prompt : string -> string) (dups : list string)
  : M St unit :=
  match dups with
  | [] => ret tt
  | dup :: rest =>
      print (notice dup) ;;
      run_coder (prompt dup) ;;
      report_all notice prompt rest
  end.

(** [for i in range(num_error_corrections)], [todo] passes being left. *)
Fixpoint fix_errors (writeup_file : string) (todo : nat) : M St unit :=
  match todo with
  | O => ret tt
  | S todo' =>
      check_output <-
        chktex ("chktex " +:+ writeup_file +:+ " -q -n2 -n24 -n13 -n1") ;;
      if bool_decide (check_output = EmptyString) then ret tt
      else
        run_coder (chktex_prompt check_output) ;;
        fix_errors writeup_file todo'
  end.

(** [generate_latex(coder, folder_name, pdf_file, timeout,
    num_error_corrections)]. *)
Definition generate_latex (folder_name pdf_file : string)
  (timeout num_error_corrections : Z) : M St unit :=
  let folder := abspath folder_name in
  let cwd := osp_join folder "latex" in
  let writeup_file := osp_join cwd "template.tex" in
  tex_text <- read_text writeup_file ;;
  report_all (fun dup => "Duplicate figure found: " +:+ dup +:+ ".")
    figure_prompt (duplicates (findall_figures tex_text)) ;;
  tex_text <- read_text writeup_file ;;
  report_all (fun dup => "Duplicate section header found: " +:+ dup)
    header_prompt (duplicates (findall_sections tex_text)) ;;
  fix_errors writeup_file (Z.to_nat num_error_corrections) ;;
  compile_latex cwd pdf_file timeout.

(** ** [perform_writeup] *)

(** [idea[key]] and [results[key]]. *)
Definition getitem (idea : gmap string Json) (key : string) : M St Json :=
  match idea !! key with
  | Some v => ret v
  | None => raise (KeyError key)
  end.

Definition json_getitem (d : Json) (key : string) : M St Json :=
  match d with
  | JObj members =>
      match GenerateIdeas.assoc key members with
      | Some v => ret v
      | None => raise (KeyError key)
      end
  | _ => raise TypeError
  end.

(** The lines [key: value] of the members whose value is a string. *)
Fixpoint idea_lines (members : list (string * Json)) : list string :=
  match members with
  | [] => []
  | (key, JStr value) :: rest => (key +:+ ": " +:+ value) :: idea_lines rest
  | _ :: rest => idea_lines rest
  end.

(** [for section in range(n)] over the bodies of the two loops. *)
Fixpoint write_sections (todo : nat) : M St unit :=
  match todo with
  | O => ret tt
  | S todo' =>
      run_coder section_prompt ;;
      run_coder refinement_prompt ;;
      write_sections todo'
  end.

Fixpoint refine_again (todo : nat) : M St unit :=
  match todo with
  | O => ret tt
  | S todo' => run_coder second_refinement_prompt ;; refine_again todo'
  end.

(** [perform_writeup(idea, folder_name, coder, results)].  The f-string
    [chapter_prompt] is built between the first two calls of the coder and
    never sent; building it reads [idea["novel_structure_models"]]. *)
Definition perform_writeup (idea : gmap string Json) (folder_name : string)
  (results : Json) : M St unit :=
  let idea_text := str_join nl (idea_lines (items idea)) in
  model_response <- json_getitem results "model_response" ;;
  let novel := novel_prompt idea_text (py_str model_response) in
  run_coder novel ;;
  getitem idea "novel_structure_models" ;;
  run_coder novel ;;
  run_coder tex_prompt ;;
  run_coder title_prompt ;;
  run_coder refinement_prompt ;;
  write_sections 5 ;;
  run_coder final_prompt ;;
  refine_again 2 ;;
  generate_latex folder_name (folder_name +:+ "/Spin-off_novel.pdf") 30 5.

(** ** How often the tools are run *)

(** [m] adds at most [n] events of the kind [kind] to the trace. *)
Definition adds_at_most {A} (kind : Event -> bool) (n : nat) (m : M St A)
  : Prop :=
  forall s, (count kind (trace (snd (m s))) <= count kind (trace s) + n)%nat.

Lemma adds_ret {A} kind (a : A) : adds_at_most kind 0 (ret a).
Proof. intros s. simpl. lia. Qed.

Lemma adds_raise {A} kind (e : Exn) : adds_at_most kind 0 (raise (A := A) e).
Proof. intros s. simpl. lia. Qed.

Lemma adds_print kind text : adds_at_most kind 0 (print text).
Proof. intros s. simpl. lia. Qed.

Lemma adds_read_text kind p : adds_at_most kind 0 (read_text p).
Proof.
  intros s. unfold read_text. destruct (fs s !! p) as [[c|]|]; simpl; lia.
Qed.

Lemma adds_bind {A B} kind n1 n2 (m : M St A) (k : A -> M St B) :
  adds_at_most kind n1 m -> (forall a, adds_at_most kind n2 (k a)) ->
  adds_at_most kind (n1 + n2) (bind m k).
Proof.
  intros Hm Hk s. unfold bind. specialize (Hm s).
  destruct (m s) as [[a|e|] s1]; simpl in *; try lia.
  specialize (Hk a s1). lia.
Qed.

Lemma adds_weaken {A} kind n n' (m : M St A) :
  (n <= n')%nat -> adds_at_most kind n m -> adds_at_most kind n' m.
Proof. intros Hle Hm s. specialize (Hm s). lia. Qed.

Lemma adds_run_coder kind prompt :
  kind (CoderRun prompt) = false -> adds_at_most kind 0 (run_coder prompt).
Proof.
  intros Hk s. unfold run_coder.
  destruct (coder_run prompt (fs s, ext s)) as [r [fs' ext']]. simpl.
  rewrite count_app. unfold count at 2. simpl. rewrite Hk. simpl. lia.
Qed.

Lemma adds_chktex kind command : adds_at_most kind 1 (chktex command).
Proof.
  intros s. unfold chktex.
  destruct (popen_read command (fs s, ext s)) as [r [fs' ext']]. simpl.
  rewrite count_app. unfold count at 2. simpl.
  destruct (kind (Chktex command)); simpl; lia.
Qed.

Lemma adds_pdflatex kind command cwd timeout :
  adds_at_most kind 1 (pdflatex command cwd timeout).
Proof.
  intros s. unfold pdflatex.
  destruct (subprocess_run command cwd timeout (fs s, ext s)) as [o [fs' ext']].
  simpl. rewrite count_app. unfold count at 2. simpl.
  destruct (kind (Pdflatex command cwd)); simpl; lia.
Qed.

Lemma adds_pdflatex_other kind command cwd timeout :
  kind (Pdflatex command cwd) = false ->
  adds_at_most kind 0 (pdflatex command cwd timeout).
Proof.
  intros Hk s. unfold pdflatex.
  destruct (subprocess_run command cwd timeout (fs s, ext s)) as [o [fs' ext']].
  simpl. rewrite count_app. unfold count at 2. simpl. rewrite Hk. simpl. lia.
Qed.

Lemma shutil_move_trace src dst s :
  trace (snd (shutil_move src dst s)) = trace s.
Proof.
  unfold shutil_move. destruct (fs s !! src) as [[c|]|]; try reflexivity.
  - destruct (fs s !! dst) as [[c'|]|]; try reflexivity.
    destruct (fs s !! osp_join dst (basename src)); reflexivity.
  - destruct (move_tree src dst (fs s, ext s)) as [r [fs' ext']]. reflexivity.
Qed.

Lemma move_pdf_trace cwd pdf_file s :
  trace (snd (move_pdf cwd pdf_file s)) = trace s.
Proof.
  unfold move_pdf.
  pose proof (shutil_move_trace (osp_join cwd "template.pdf") pdf_file s) as H.
  destruct (shutil_move (osp_join cwd "template.pdf") pdf_file s)
    as [[[]|e|] s1]; simpl in *; try exact H.
  destruct e; simpl; exact H.
Qed.

Lemma adds_move_pdf kind cwd pdf_file :
  adds_at_most kind 0 (move_pdf cwd pdf_file).
Proof. intros s. rewrite move_pdf_trace. lia. Qed.

Lemma adds_run_command kind command cwd timeout :
  adds_at_most kind 1 (run_command command cwd timeout).
Proof.
  unfold run_command. apply (adds_bind kind 1 0); [apply adds_pdflatex|].
  intros [stdout stderr| |e].
  - apply (adds_bind kind 0 0); [apply adds_print|]. intros _.
    apply adds_print.
  - apply adds_print.
  - apply adds_raise.
Qed.

Lemma adds_run_commands kind todo cwd timeout :
  adds_at_most kind (length todo) (run_commands todo cwd timeout).
Proof.
  induction todo as [|command rest IH]; simpl; [apply adds_ret|].
  apply (adds_bind kind 1 (length rest)); [apply adds_run_command|].
  intros _. exact IH.
Qed.

Lemma adds_compile_latex kind cwd pdf_file timeout :
  adds_at_most kind 3 (compile_latex cwd pdf_file timeout).
Proof.
  unfold compile_latex.
  apply (adds_bind kind 0 3); [apply adds_print|]. intros _.
  apply (adds_bind kind 3 0); [apply (adds_run_commands kind commands)|].
  intros _. apply (adds_bind kind 0 0); [apply adds_print|]. intros _.
  apply adds_move_pdf.
Qed.

Lemma no_chktex_in_compile_latex cwd pdf_file timeout :
  adds_at_most is_chktex 0 (compile_latex cwd pdf_file timeout).
Proof.
  unfold compile_latex.
  apply (adds_bind _ 0 0); [apply adds_print|]. intros _.
  apply (adds_bind _ 0 0).
  { unfold commands. simpl.
    repeat (apply (adds_bind _ 0 0);
            [unfold run_command; apply (adds_bind _ 0 0);
             [apply adds_pdflatex_other; reflexivity|];
             intros [stdout stderr| |e];
             [apply (adds_bind _ 0 0); [apply adds_print|]; intros _;
              apply adds_print
             | apply adds_print | apply adds_raise]
            | intros _]).
    apply adds_ret. }
  intros _. apply (adds_bind _ 0 0); [apply adds_print|]. intros _.
  apply adds_move_pdf.
Qed.

Lemma adds_report_all kind notice prompt dups :
  (forall p, kind (CoderRun p) = false) ->
  adds_at_most kind 0 (report_all notice prompt dups).
Proof.
  intros Hk. induction dups as [|dup rest IH]; simpl; [apply adds_ret|].
  apply (adds_bind kind 0 0); [apply adds_print|]. intros _.
  apply (adds_bind kind 0 0); [apply adds_run_coder, Hk|]. intros _.
  exact IH.
Qed.

Lemma chktex_in_fix_errors writeup_file todo :
  adds_at_most is_chktex todo (fix_errors writeup_file todo).
Proof.
  induction todo as [|todo IH]; simpl; [apply adds_ret|].
  apply (adds_bind _ 1 todo); [apply adds_chktex|]. intros check_output.
  case_bool_decide as Hclean.
  - apply (adds_weaken _ 0); [lia | apply adds_ret].
  - apply (adds_bind _ 0 todo); [apply adds_run_coder; reflexivity|].
    intros _. exact IH.
Qed.

Lemma no_pdflatex_in_fix_errors writeup_file todo :
  adds_at_most is_pdflatex 0 (fix_errors writeup_file todo).
Proof.
  induction todo as [|todo IH]; simpl; [apply adds_ret|].
  apply (adds_bind _ 0 0).
  { intros s. unfold chktex.
    destruct (popen_read _ (fs s, ext s)) as [r [fs' ext']]. simpl.
    rewrite count_app. unfold count at 2. simpl. lia. }
  intros check_output. case_bool_decide as Hclean; [apply adds_ret|].
  apply (adds_bind _ 0 0); [apply adds_run_coder; reflexivity|].
  intros _. exact IH.
Qed.

(** X25.  Whatever the tools and the coder reply, [generate_latex] runs
    [chktex] at most [num_error_corrections] times and [pdflatex] at most
    three times. *)
Theorem generate_latex_tool_runs folder_name pdf_file timeout
  num_error_corrections (s : St) :
  (count is_chktex
     (trace (snd (generate_latex folder_name pdf_file timeout
                    num_error_corrections s)))
   <= count is_chktex (trace s) + Z.to_nat num_error_corrections)%nat
  /\ (count is_pdflatex
        (trace (snd (generate_latex folder_name pdf_file timeout
                       num_error_corrections s)))
      <= count is_pdflatex (trace s) + 3)%nat.
Proof.
  split.
  - assert (H : adds_at_most is_chktex (Z.to_nat num_error_corrections)
                  (generate_latex folder_name pdf_file timeout
                     num_error_corrections)).
    { unfold generate_latex. generalize (Z.to_nat num_error_corrections).
      intros n.
      apply (adds_bind _ 0 n); [apply adds_read_text|]. intros tex_text.
      apply (adds_bind _ 0 n); [apply adds_report_all; reflexivity|].
      intros _.
      apply (adds_bind _ 0 n); [apply adds_read_text|]. intros tex_text'.
      apply (adds_bind _ 0 n); [apply adds_report_all; reflexivity|].
      intros _.
      apply (adds_weaken _ (n + 0)); [lia|].
      apply adds_bind; [apply chktex_in_fix_errors|]. intros _.
      apply no_chktex_in_compile_latex. }
    exact (H s).
  - assert (H : adds_at_most is_pdflatex 3
                  (generate_latex folder_name pdf_file timeout
                     num_error_corrections)).
    { unfold generate_latex.
      apply (adds_bind _ 0 3); [apply adds_read_text|]. intros tex_text.
      apply (adds_bind _ 0 3); [apply adds_report_all; reflexivity|].
      intros _.
      apply (adds_bind _ 0 3); [apply adds_read_text|]. intros tex_text'.
      apply (adds_bind _ 0 3); [apply adds_report_all; reflexivity|].
      intros _.
      apply (adds_bind _ 0 3); [apply no_pdflatex_in_fix_errors|]. intros _.
      apply adds_compile_latex. }
    exact (H s).
Qed.

(** ** [compile_latex] *)

Definition the_command : list string :=
  ["pdflatex"; "-interaction=nonstopmode"; "template.tex"].

Lemma run_command_started command cwd timeout s :
  (forall e, fst (subprocess_run command cwd timeout (fs s, ext s))
             <> Failed e) ->
  exists s1,
    run_command command cwd timeout s = (Ok tt, s1)
    /\ trace s1 = trace s ++ [Pdflatex command cwd]
    /\ exists more, console s1 = console s ++ more.
Proof.
  intros Hstart. unfold run_command, bind, pdflatex.
  destruct (subprocess_run command cwd timeout (fs s, ext s))
    as [[stdout stderr| |e] [fs' ext']]; simpl in *.
  - eexists. split; [reflexivity|]. simpl. split; [reflexivity|].
    rewrite <- app_assoc. eauto.
  - eexists. split; [reflexivity|]. simpl. eauto.
  - exfalso. exact (Hstart e eq_refl).
Qed.

Lemma run_commands_started cwd timeout s :
  (forall w e, fst (subprocess_run the_command cwd timeout w) <> Failed e) ->
  exists s3,
    run_commands commands cwd timeout s = (Ok tt, s3)
    /\ trace s3 = trace s ++ [Pdflatex the_command cwd;
                              Pdflatex the_command cwd;
                              Pdflatex the_command cwd].
Proof.
  intros Hstart. unfold commands. fold the_command. cbn [run_commands].
  destruct (run_command_started the_command cwd timeout s
              (fun e => Hstart _ e)) as (s1 & H1 & Ht1 & _).
  destruct (run_command_started the_command cwd timeout s1
              (fun e => Hstart _ e)) as (s2 & H2 & Ht2 & _).
  destruct (run_command_started the_command cwd timeout s2
              (fun e => Hstart _ e)) as (s3 & H3 & Ht3 & _).
  rewrite (bind_eq_ok _ _ _ _ _ H1), (bind_eq_ok _ _ _ _ _ H2),
    (bind_eq_ok _ _ _ _ _ H3).
  exists s3. split; [reflexivity|].
  rewrite Ht3, Ht2, Ht1, <- !app_assoc. reflexivity.
Qed.

Lemma compile_latex_after_runs cwd pdf_file timeout s s3 :
  run_commands commands cwd timeout (snd (print "GENERATING LATEX" s))
  = (Ok tt, s3) ->
  compile_latex cwd pdf_file timeout s
  = move_pdf cwd pdf_file (snd (print "FINISHED GENERATING LATEX" s3)).
Proof.
  intros Hruns. unfold compile_latex. unfold bind at 1.
  change (print "GENERATING LATEX" s)
    with (Ok tt, snd (print "GENERATING LATEX" s)).
  cbv iota beta. rewrite (bind_eq_ok _ _ _ _ _ Hruns). reflexivity.
Qed.

Lemma move_pdf_console cwd pdf_file s :
  exists more, console (snd (move_pdf cwd pdf_file s)) = console s ++ more.
Proof.
  unfold move_pdf, shutil_move.
  destruct (fs s !! osp_join cwd "template.pdf") as [[c|]|].
  - destruct (fs s !! pdf_file) as [[c'|]|];
      try (exists []; rewrite app_nil_r; reflexivity).
    destruct (fs s !! osp_join pdf_file
                        (basename (osp_join cwd "template.pdf")));
      exists []; rewrite app_nil_r; reflexivity.
  - destruct (move_tree _ _ (fs s, ext s)) as [[[]|e] [fs' ext']]; simpl;
      try (exists []; rewrite app_nil_r; reflexivity).
    destruct e; simpl; eauto; exists []; rewrite app_nil_r; reflexivity.
  - simpl. eauto.
Qed.

(** X26.  [compile_latex] runs [pdflatex] exactly three times whenever the
    program can be started, also when every run times out; it then prints
    [FINISHED GENERATING LATEX]. *)
Theorem compile_latex_runs_three_times cwd pdf_file timeout (s : St) :
  (forall w e, fst (subprocess_run the_command cwd timeout w) <> Failed e) ->
  trace (snd (compile_latex cwd pdf_file timeout s))
  = trace s ++ [Pdflatex the_command cwd; Pdflatex the_command cwd;
                Pdflatex the_command cwd]
  /\ In "FINISHED GENERATING LATEX"
       (console (snd (compile_latex cwd pdf_file timeout s))).
Proof.
  intros Hstart.
  destruct (run_commands_started cwd timeout
              (snd (print "GENERATING LATEX" s)) Hstart) as (s3 & Hruns & Ht).
  rewrite (compile_latex_after_runs cwd pdf_file timeout s s3 Hruns).
  split.
  - rewrite move_pdf_trace. exact Ht.
  - destruct (move_pdf_console cwd pdf_file
                (snd (print "FINISHED GENERATING LATEX" s3)))
      as (more & ->).
    simpl. apply in_or_app. left. apply in_or_app. right. left. reflexivity.
Qed.

(** X27.  When [pdflatex] cannot be started, the exception of the first
    run leaves [compile_latex]: the handler for [FileNotFoundError] guards
    the move of the PDF only.  No second run is made, the move is not tried
    and [FINISHED GENERATING LATEX] is not printed. *)
Theorem unstartable_pdflatex_escapes cwd pdf_file timeout (s : St) (e : Exn)
  (fs' : FS) (ext' : Ext) :
  subprocess_run the_command cwd timeout (fs s, ext s)
  = (Failed e, (fs', ext')) ->
  compile_latex cwd pdf_file timeout s
  = (Raise e,
     mkSt fs' ext' (trace s ++ [Pdflatex the_command cwd])
       (console s ++ ["GENERATING LATEX"])).
Proof.
  intros Hrun. unfold compile_latex.
  unfold bind at 1. unfold print at 1, modify at 1.
  unfold commands. fold the_command. cbn [run_commands].
  unfold bind at 1. unfold bind at 1. unfold run_command at 1.
  unfold bind at 1. unfold pdflatex at 1. cbn [fs ext trace console].
  rewrite Hrun. reflexivity.
Qed.


(** ** [perform_writeup] *)

(** X29.  The prompt about the chapter structure is built and never sent:
    an idea without [novel_structure_models] makes [perform_writeup] raise
    [KeyError] after the first call of the coder, which got the novel
    prompt, and before any other. *)
Theorem chapter_prompt_is_built_not_sent idea folder_name results (s : St)
  (members : list (string * Json)) (model_response : Json) (out : string)
  (fs' : FS) (ext' : Ext) :
  let novel :=
    novel_prompt (str_join nl (idea_lines (items idea)))
      (py_str model_response) in
  results = JObj members ->
  GenerateIdeas.assoc "model_response" members = Some model_response ->
  idea !! "novel_structure_models" = None ->
  coder_run novel (fs s, ext s) = (Returned out, (fs', ext')) ->
  perform_writeup idea folder_name results s
  = (Raise (KeyError "novel_structure_models"),
     mkSt fs' ext' (trace s ++ [CoderRun novel]) (console s)).
Proof.
  intros novel -> Hresp Hnone Hcoder. unfold perform_writeup.
  unfold bind at 1. unfold json_getitem. rewrite Hresp. unfold ret at 1.
  fold novel. unfold bind at 1. unfold run_coder at 1. rewrite Hcoder.
  cbn [of_reply]. unfold bind at 1. unfold getitem. rewrite Hnone.
  reflexivity.
Qed.

(** [m] only adds to the trace. *)
Definition extends {A} (m : M St A) : Prop :=
  forall s, exists more, trace (snd (m s)) = trace s ++ more.

Lemma extends_bind {A B} (m : M St A) (k : A -> M St B) :
  extends m -> (forall a, extends (k a)) -> extends (bind m k).
Proof.
  intros Hm Hk s. unfold bind. destruct (Hm s) as (more & Hmore).
  destruct (m s) as [[a|e|] s1]; simpl in *; eauto.
  destruct (Hk a s1) as (more' & Hmore'). exists (more ++ more').
  rewrite Hmore', Hmore, app_assoc. reflexivity.
Qed.

Lemma extends_same {A} (m : M St A) :
  (forall s, trace (snd (m s)) = trace s) -> extends m.
Proof. intros H s. exists []. rewrite app_nil_r. apply H. Qed.

Lemma extends_run_coder prompt : extends (run_coder prompt).
Proof.
  intros s. unfold run_coder.
  destruct (coder_run prompt (fs s, ext s)) as [r [fs' ext']]. simpl. eauto.
Qed.

Lemma extends_read_text p : extends (read_text p).
Proof.
  apply extends_same. intros s. unfold read_text.
  destruct (fs s !! p) as [[c|]|]; reflexivity.
Qed.

Lemma extends_report_all notice prompt dups :
  extends (report_all notice prompt dups).
Proof.
  induction dups as [|dup rest IH]; simpl.
  - apply extends_same. reflexivity.
  - apply extends_bind; [apply extends_same; reflexivity|]. intros _.
    apply extends_bind; [apply extends_run_coder|]. intros _. exact IH.
Qed.

Lemma extends_fix_errors writeup_file todo :
  extends (fix_errors writeup_file todo).
Proof.
  induction todo as [|todo IH]; simpl.
  - apply extends_same. reflexivity.
  - apply extends_bind.
    + intros s. unfold chktex.
      destruct (popen_read _ (fs s, ext s)) as [r [fs' ext']]. simpl. eauto.
    + intros check_output. case_bool_decide as Hclean.
      * apply extends_same. reflexivity.
      * apply extends_bind; [apply extends_run_coder|]. intros _. exact IH.
Qed.

Lemma extends_run_commands todo cwd timeout :
  extends (run_commands todo cwd timeout).
Proof.
  induction todo as [|command rest IH]; simpl.
  - apply extends_same. reflexivity.
  - apply extends_bind; [|intros _; exact IH].
    unfold run_command. apply extends_bind.
    + intros s. unfold pdflatex.
      destruct (subprocess_run _ _ _ (fs s, ext s)) as [o [fs' ext']].
      simpl. eauto.
    + intros [stdout stderr| |e]; apply extends_same; reflexivity.
Qed.

Lemma extends_generate_latex folder_name pdf_file timeout
  num_error_corrections :
  extends (generate_latex folder_name pdf_file timeout num_error_corrections).
Proof.
  unfold generate_latex.
  apply extends_bind; [apply extends_read_text|]. intros tex_text.
  apply extends_bind; [apply extends_report_all|]. intros _.
  apply extends_bind; [apply extends_read_text|]. intros tex_text'.
  apply extends_bind; [apply extends_report_all|]. intros _.
  apply extends_bind; [apply extends_fix_errors|]. intros _.
  unfold compile_latex.
  apply extends_bind; [apply extends_same; reflexivity|]. intros _.
  apply extends_bind; [apply extends_run_commands|]. intros _.
  apply extends_bind; [apply extends_same; reflexivity|]. intros _.
  apply extends_same. apply move_pdf_trace.
Qed.

(** The prompts of a writeup in which every call of the coder returns, up
    to [generate_latex]. *)
Definition writeup_script (novel : string) : list string :=
  [novel; novel; tex_prompt; title_prompt; refinement_prompt;
   section_prompt; refinement_prompt; section_prompt; refinement_prompt;
   section_prompt; refinement_prompt; section_prompt; refinement_prompt;
   section_prompt; refinement_prompt;
   final_prompt; second_refinement_prompt; second_refinement_prompt].

Section Returning.

Hypothesis coder_returns :
  forall prompt w, exists out w', coder_run prompt w = (Returned out, w').

Lemma run_coder_returns prompt s :
  exists out s1,
    run_coder prompt s = (Ok out, s1)
    /\ trace s1 = trace s ++ [CoderRun prompt].
Proof.
  unfold run_coder.
  destruct (coder_returns prompt (fs s, ext s)) as (out & [fs' ext'] & ->).
  eexists. eexists. split; reflexivity.
Qed.

Lemma write_sections_returns todo : forall s,
  exists s1,
    write_sections todo s = (Ok tt, s1)
    /\ trace s1
       = trace s
         ++ map CoderRun
              (concat (replicate todo [section_prompt; refinement_prompt])).
Proof.
  induction todo as [|todo IH]; intros s.
  - exists s. simpl. rewrite app_nil_r. auto.
  - cbn [write_sections].
    destruct (run_coder_returns section_prompt s) as (o1 & s1 & H1 & Ht1).
    destruct (run_coder_returns refinement_prompt s1) as (o2 & s2 & H2 & Ht2).
    destruct (IH s2) as (s3 & H3 & Ht3).
    rewrite (bind_eq_ok _ _ _ _ _ H1), (bind_eq_ok _ _ _ _ _ H2).
    exists s3. split; [exact H3|].
    rewrite Ht3, Ht2, Ht1. simpl. rewrite <- !app_assoc. reflexivity.
Qed.

Lemma refine_again_returns todo : forall s,
  exists s1,
    refine_again todo s = (Ok tt, s1)
    /\ trace s1
       = trace s ++ map CoderRun (replicate todo second_refinement_prompt).
Proof.
  induction todo as [|todo IH]; intros s.
  - exists s. simpl. rewrite app_nil_r. auto.
  - cbn [refine_again].
    destruct (run_coder_returns second_refinement_prompt s)
      as (o1 & s1 & H1 & Ht1).
    destruct (IH s1) as (s2 & H2 & Ht2).
    rewrite (bind_eq_ok _ _ _ _ _ H1).
    exists s2. split; [exact H2|].
    rewrite Ht2, Ht1. simpl. rewrite <- !app_assoc. reflexivity.
Qed.

Lemma perform_writeup_script idea folder_name results (s : St)
  (members : list (string * Json)) (model_response structure : Json) :
  results = JObj members ->
  GenerateIdeas.assoc "model_response" members = Some model_response ->
  idea !! "novel_structure_models" = Some structure ->
  exists later,
    trace (snd (perform_writeup idea folder_name results s))
    = trace s
      ++ map CoderRun
           (writeup_script
              (novel_prompt (str_join nl (idea_lines (items idea)))
                 (py_str model_response)))
      ++ later.
Proof.
  intros -> Hresp Hstruct. unfold perform_writeup.
  unfold bind at 1. unfold json_getitem. rewrite Hresp. unfold ret at 1.
  set (novel := novel_prompt _ _).
  destruct (run_coder_returns novel s) as (o1 & s1 & H1 & Ht1).
  rewrite (bind_eq_ok _ _ _ _ _ H1).
  unfold bind at 1. unfold getitem. rewrite Hstruct. unfold ret at 1.
  destruct (run_coder_returns novel s1) as (o2 & s2 & H2 & Ht2).
  rewrite (bind_eq_ok _ _ _ _ _ H2).
  destruct (run_coder_returns tex_prompt s2) as (o3 & s3 & H3 & Ht3).
  rewrite (bind_eq_ok _ _ _ _ _ H3).
  destruct (run_coder_returns title_prompt s3) as (o4 & s4 & H4 & Ht4).
  rewrite (bind_eq_ok _ _ _ _ _ H4).
  destruct (run_coder_returns refinement_prompt s4) as (o5 & s5 & H5 & Ht5).
  rewrite (bind_eq_ok _ _ _ _ _ H5).
  destruct (write_sections_returns 5 s5) as (s6 & H6 & Ht6).
  rewrite (bind_eq_ok _ _ _ _ _ H6).
  destruct (run_coder_returns final_prompt s6) as (o7 & s7 & H7 & Ht7).
  rewrite (bind_eq_ok _ _ _ _ _ H7).
  destruct (refine_again_returns 2 s7) as (s8 & H8 & Ht8).
  rewrite (bind_eq_ok _ _ _ _ _ H8).
  destruct (extends_generate_latex folder_name
              (folder_name +:+ "/Spin-off_novel.pdf") 30 5 s8)
    as (later & Hlater).
  exists later. rewrite Hlater, Ht8, Ht7, Ht6, Ht5, Ht4, Ht3, Ht2, Ht1.
  simpl. rewrite <- !app_assoc. reflexivity.
Qed.

End Returning.

(** X30.  When every call of the coder returns, [results] has a
    [model_response] and the idea its [novel_structure_models],
    [perform_writeup] sends eighteen prompts before it turns to the LaTeX
    file: the novel prompt twice, then the template, the title and a
    refinement, five rounds of section and refinement, the final check and
    the second refinement twice. *)
Theorem writeup_sends_eighteen_prompts idea folder_name results (s : St)
  (members : list (string * Json)) (model_response structure : Json) :
  (forall prompt w, exists out w', coder_run prompt w = (Returned out, w')) ->
  results = JObj members ->
  GenerateIdeas.assoc "model_response" members = Some model_response ->
  idea !! "novel_structure_models" = Some structure ->
  exists script later,
    script = writeup_script
               (novel_prompt (str_join nl (idea_lines (items idea)))
                  (py_str model_response))
    /\ length script = 18%nat
    /\ trace (snd (perform_writeup idea folder_name results s))
       = trace s ++ map CoderRun script ++ later.
Proof.
  intros Hcoder Hres Hresp Hstruct.
  destruct (perform_writeup_script Hcoder idea folder_name results s members
              model_response structure Hres Hresp Hstruct) as (later & H).
  eexists. exists later. split; [reflexivity|]. split; [reflexivity|].
  exact H.
Qed.

End Writeup.


Arguments mkSt {Ext}.
Arguments fs {Ext}.
Arguments ext {Ext}.
Arguments trace {Ext}.
Arguments console {Ext}.
Arguments print {Ext}.
Arguments compile_latex {Ext}.
Arguments run_commands {Ext}.
Arguments generate_latex {Ext}.
Arguments perform_writeup {Ext}.

(** ** A scripted world

    The coder always answers; [pdflatex] times out, or cannot be started, or
    leaves a PDF; [chktex] finds nothing. *)

Definition answering_coder (prompt : string) (w : FS * unit)
  : Reply string * (FS * unit) :=
  (Returned "done", w).

Definition slow_pdflatex (command : list string) (cwd : string) (timeout : Z)
  (w : FS * unit) : Outcome * (FS * unit) :=
  (TimedOut, w).

Definition absent_pdflatex (command : list string) (cwd : string) (timeout : Z)
  (w : FS * unit) : Outcome * (FS * unit) :=
  (Failed (FileNotFoundError "pdflatex"), w).

Definition working_pdflatex (command : list string) (cwd : string)
  (timeout : Z) (w : FS * unit) : Outcome * (FS * unit) :=
  (Finished "Output written on template.pdf" EmptyString,
   (<[osp_join cwd "template.pdf" := File "PDF"]> (fst w), snd w)).

Definition quiet_chktex (command : string) (w : FS * unit)
  : Reply string * (FS * unit) :=
  (Returned EmptyString, w).

Definition scripted_move_tree (src dst : string) (w : FS * unit)
  : Reply unit * (FS * unit) :=
  (Returned tt, w).

Definition scripted_str (v : Json) : string :=
  match v with
  | JStr text => text
  | _ => "?"
  end.

Definition scripted_items (idea : gmap string Json) : list (string * Json) :=
  map_to_list idea.

Definition scripted_novel (idea_text model_response : string) : string :=
  idea_text +:+ "|" +:+ model_response.

Definition start : St unit :=
  mkSt {[ "/novel/latex/template.tex" := File "\section{One}" ]} tt [] [].

Definition scripted_perform_writeup (idea : gmap string Json)
  (results : Json) : M (St unit) unit :=
  perform_writeup answering_coder working_pdflatex quiet_chktex
    scripted_move_tree (fun p => "/" +:+ p) (fun _ => []) (fun _ => [])
    (fun l => l) scripted_str scripted_items scripted_novel
    "tex" "title" "refine" "section" "final" "refine again"
    idea "novel" results.

Definition an_idea : gmap string Json :=
  {[ "Name" := JStr "spin_off"; "novel_structure_models" := JStr "Three-Act" ]}.

Definition some_results : Json :=
  JObj [("task_prompt", JStr "write"); ("model_response", JStr "draft")].

Lemma compile_latex_runs_three_times_witness :
  count is_pdflatex
    (trace (snd (compile_latex slow_pdflatex scripted_move_tree
                   "/novel/latex" "novel/Spin-off_novel.pdf" 30 start)))
  = 3%nat.
Proof.
  destruct (compile_latex_runs_three_times unit slow_pdflatex
              scripted_move_tree "/novel/latex" "novel/Spin-off_novel.pdf" 30
              start) as [Htrace _].
  - intros w e. discriminate.
  - rewrite Htrace. reflexivity.
Defined.

Lemma unstartable_pdflatex_escapes_witness :
  fst (compile_latex absent_pdflatex scripted_move_tree "/novel/latex"
         "novel/Spin-off_novel.pdf" 30 start)
  = Raise (FileNotFoundError "pdflatex").
Proof.
  rewrite (unstartable_pdflatex_escapes unit absent_pdflatex
             scripted_move_tree "/novel/latex" "novel/Spin-off_novel.pdf" 30
             start (FileNotFoundError "pdflatex")
             (fs start) tt).
  - reflexivity.
  - reflexivity.
Defined.


Lemma chapter_prompt_is_built_not_sent_witness :
  exists sf,
    scripted_perform_writeup (delete "novel_structure_models" an_idea)
      some_results start
    = (Raise (KeyError "novel_structure_models"), sf)
    /\ length (trace sf) = 1%nat.
Proof.
  eexists. split.
  - apply (chapter_prompt_is_built_not_sent unit answering_coder
             working_pdflatex quiet_chktex scripted_move_tree
             (fun p => "/" +:+ p) (fun _ => []) (fun _ => []) (fun l => l)
             scripted_str scripted_items scripted_novel
             "tex" "title" "refine" "section" "final" "refine again"
             (delete "novel_structure_models" an_idea) "novel" some_results
             start
             [("task_prompt", JStr "write"); ("model_response", JStr "draft")]
             (JStr "draft") "done" (fs start) tt).
    + reflexivity.
    + reflexivity.
    + vm_compute. reflexivity.
    + reflexivity.
  - reflexivity.
Defined.

Lemma writeup_sends_eighteen_prompts_witness :
  exists later,
    trace (snd (scripted_perform_writeup an_idea some_results start))
    = map CoderRun
        (let novel :=
           scripted_novel
             (str_join nl (idea_lines (scripted_items an_idea))) "draft" in
         [novel; novel; "tex"; "title"; "refine";
          "section"; "refine"; "section"; "refine"; "section"; "refine";
          "section"; "refine"; "section"; "refine";
          "final"; "refine again"; "refine again"])
      ++ later.
Proof.
  destruct (writeup_sends_eighteen_prompts unit answering_coder
              working_pdflatex quiet_chktex scripted_move_tree
              (fun p => "/" +:+ p) (fun _ => []) (fun _ => []) (fun l => l)
              scripted_str scripted_items scripted_novel
              "tex" "title" "refine" "section" "final" "refine again"
              an_idea "novel" some_results start
              [("task_prompt", JStr "write"); ("model_response", JStr "draft")]
              (JStr "draft") (JStr "Three-Act"))
    as (script & later & -> & _ & Htrace).
  - intros prompt w. exists "done", w. reflexivity.
  - reflexivity.
  - reflexivity.
  - vm_compute. reflexivity.
  - exists later. exact Htrace.
Defined.

End PerformWriteup.
